(** * ADC sampling subsystem of the STM32F4 platform layer

    Shallow embedding of the ADC part of the platform file (channel stop,
    sequence update, DMA completion handler, clock set-up, sequence start)
    and of the ring buffer interface of [ringbuff.h], followed by the
    properties established about them.

    Conventions.
    - C unsigned integers are [Z] with the wrap-around written out.
    - The global tables of the C code (channel states, device state, the
      init structures, the peripheral registers) form one record that every
      operation takes and returns.
    - A C pointer to a channel state is the index of that channel in the
      channel table; a pointer into the sample scratch buffer is an index
      in it.  Reads through such a pointer go to the shared table.
    - An operation that would leave the defined behaviour of C (index out
      of a table, division by zero) yields [None]. *)

From Stdlib Require Import ZArith Lia Bool List.
From stdpp Require Import base option list.
Import ListNotations.
Local Open Scope Z_scope.

(** ** Machine integers *)

Definition u32 (x : Z) : Z := x mod 2 ^ 32.
Definition u16 (x : Z) : Z := x mod 2 ^ 16.

(** ** Vendor types and constants used by the platform file *)

Inductive FunctionalState := DISABLE | ENABLE.

(** The results of the platform interface ([platform.h], absent). *)
Inductive platform_status := PLATFORM_ERR | PLATFORM_OK.

Inductive GPIO_TypeDef := GPIOA | GPIOB | GPIOC.

Inductive ADC_ExternalTrigConv_t :=
| ADC_ExternalTrigConv_T1_CC1
| ADC_ExternalTrigConv_T2_TRGO
| ADC_ExternalTrigConv_T3_TRGO
| ADC_ExternalTrigConv_T4_CC4.

Inductive DMA_DIR_t :=
| DMA_DIR_PeripheralToMemory
| DMA_DIR_MemoryToPeripheral
| DMA_DIR_MemoryToMemory.

Inductive DMA_Mode_t := DMA_Mode_Normal | DMA_Mode_Circular.

(** Where a DMA stream writes: nowhere yet, or the device's [sample_buf]. *)
Inductive DMA_Memory_t := DMA_Memory_null | DMA_Memory_sample_buf.

(** Mask of the file itself: the two EXTEN bits of CR2 cleared. *)
Definition CR2_EXTEN_RESET : Z := 0xCFFFFFFF.

(** Modelled from the spec: the vendor header that defines these constants
    is missing from the sources.  "None" and "rising" are the two settings
    of the hardware trigger the file uses (trigger disabled, trigger on the
    timer edge: 4.3, steps 1 and 7); they live in the two bits that
    [CR2_EXTEN_RESET] clears. *)
Definition ADC_ExternalTrigConvEdge_None : Z := 0x00000000.
Definition ADC_ExternalTrigConvEdge_Rising : Z := 0x10000000.

(** Modelled from the spec: the vendor header that defines this constant is
    missing from the sources; it is the bit of CR2 that issues the
    "explicit software start" of a scan (4.4), next to the trigger edge. *)
Definition ADC_CR2_SWSTART : Z := 0x40000000.

(** The bits that [CR2_EXTEN_RESET] clears. *)
Definition CR2_EXTEN : Z := 0x30000000.

(** The tables of the file have one entry per channel, 16 of them; [n] in
    [adc_gpio_pins] stands for GPIO_Pin_n. *)
Definition NUM_ADC : nat := 16.

Definition adc_gpio_pins : list nat :=
  [0; 1; 2; 3; 4; 5; 6; 7; 0; 1; 0; 1; 2; 3; 4; 5]%nat.

Definition adc_gpio_port : list GPIO_TypeDef :=
  [GPIOA; GPIOA; GPIOA; GPIOA; GPIOA; GPIOA; GPIOA; GPIOA;
   GPIOB; GPIOB; GPIOC; GPIOC; GPIOC; GPIOC; GPIOC; GPIOC].

Definition adc_timer : list ADC_ExternalTrigConv_t :=
  [ADC_ExternalTrigConv_T1_CC1; ADC_ExternalTrigConv_T2_TRGO;
   ADC_ExternalTrigConv_T3_TRGO; ADC_ExternalTrigConv_T4_CC4].

(** The members of the vendor init structures that the file writes and
    that decide what the peripherals do. *)
Record ADC_InitTypeDef := mkADC_Init {
  ADC_ScanConvMode : FunctionalState;
  ADC_ContinuousConvMode : FunctionalState;
  ADC_ExternalTrigConv : ADC_ExternalTrigConv_t;
  ADC_ExternalTrigConvEdge : Z;
  ADC_NbrOfConversion : Z
}.

Record DMA_InitTypeDef := mkDMA_Init {
  DMA_Memory0BaseAddr : DMA_Memory_t;
  DMA_DIR : DMA_DIR_t;
  DMA_BufferSize : Z;
  DMA_Mode : DMA_Mode_t
}.

Record TIM_TimeBaseInitTypeDef := mkTIM_Base {
  TIM_Period : Z;      (* uint32_t *)
  TIM_Prescaler : Z    (* uint16_t *)
}.

(** ** Peripheral registers

    The converter (the one selected by [seq_id], ADC1), DMA2 stream 0, the
    interrupt line of that stream, the trigger timer [timer[timer_id]] and
    the analog pins. *)
Record hw_state := mkHW {
  ADC_CR2 : Z;                               (* trigger edge and software start *)
  ADC_ADON : bool;                           (* converter switched on *)
  ADC_DMA : bool;                            (* converter requests DMA *)
  ADC_DDS : bool;                            (* DMA request after last transfer *)
  ADC_regs : option ADC_InitTypeDef;         (* configuration in force *)
  ADC_SQR : list (nat * nat);                (* regular channels: (channel, rank) *)
  GPIO_AN : list (GPIO_TypeDef * nat);       (* pins in analog mode *)
  DMA_EN : bool;                             (* stream enabled *)
  DMA_regs : option DMA_InitTypeDef;         (* configuration in force *)
  DMA_TCIF : bool;                           (* transfer-complete flag pending *)
  DMA_TCIE : bool;                           (* transfer-complete interrupt enabled *)
  NVIC_ADC_IRQ : bool;                       (* interrupt line enabled *)
  TIM_ARR : Z;                               (* period register *)
  TIM_PSC : Z;                               (* prescaler register *)
  TIM_TRGO_Update : bool                     (* update event drives the trigger output *)
}.

Definition set_ADC_CR2 (v : Z) (h : hw_state) : hw_state :=
  mkHW v (ADC_ADON h) (ADC_DMA h) (ADC_DDS h) (ADC_regs h) (ADC_SQR h) (GPIO_AN h)
       (DMA_EN h) (DMA_regs h) (DMA_TCIF h) (DMA_TCIE h) (NVIC_ADC_IRQ h)
       (TIM_ARR h) (TIM_PSC h) (TIM_TRGO_Update h).
Definition set_ADC_ADON (v : bool) (h : hw_state) : hw_state :=
  mkHW (ADC_CR2 h) v (ADC_DMA h) (ADC_DDS h) (ADC_regs h) (ADC_SQR h) (GPIO_AN h)
       (DMA_EN h) (DMA_regs h) (DMA_TCIF h) (DMA_TCIE h) (NVIC_ADC_IRQ h)
       (TIM_ARR h) (TIM_PSC h) (TIM_TRGO_Update h).
Definition set_ADC_DMA (v : bool) (h : hw_state) : hw_state :=
  mkHW (ADC_CR2 h) (ADC_ADON h) v (ADC_DDS h) (ADC_regs h) (ADC_SQR h) (GPIO_AN h)
       (DMA_EN h) (DMA_regs h) (DMA_TCIF h) (DMA_TCIE h) (NVIC_ADC_IRQ h)
       (TIM_ARR h) (TIM_PSC h) (TIM_TRGO_Update h).
Definition set_ADC_DDS (v : bool) (h : hw_state) : hw_state :=
  mkHW (ADC_CR2 h) (ADC_ADON h) (ADC_DMA h) v (ADC_regs h) (ADC_SQR h) (GPIO_AN h)
       (DMA_EN h) (DMA_regs h) (DMA_TCIF h) (DMA_TCIE h) (NVIC_ADC_IRQ h)
       (TIM_ARR h) (TIM_PSC h) (TIM_TRGO_Update h).
Definition set_ADC_regs (v : option ADC_InitTypeDef) (h : hw_state) : hw_state :=
  mkHW (ADC_CR2 h) (ADC_ADON h) (ADC_DMA h) (ADC_DDS h) v (ADC_SQR h) (GPIO_AN h)
       (DMA_EN h) (DMA_regs h) (DMA_TCIF h) (DMA_TCIE h) (NVIC_ADC_IRQ h)
       (TIM_ARR h) (TIM_PSC h) (TIM_TRGO_Update h).
Definition set_ADC_SQR (v : list (nat * nat)) (h : hw_state) : hw_state :=
  mkHW (ADC_CR2 h) (ADC_ADON h) (ADC_DMA h) (ADC_DDS h) (ADC_regs h) v (GPIO_AN h)
       (DMA_EN h) (DMA_regs h) (DMA_TCIF h) (DMA_TCIE h) (NVIC_ADC_IRQ h)
       (TIM_ARR h) (TIM_PSC h) (TIM_TRGO_Update h).
Definition set_GPIO_AN (v : list (GPIO_TypeDef * nat)) (h : hw_state) : hw_state :=
  mkHW (ADC_CR2 h) (ADC_ADON h) (ADC_DMA h) (ADC_DDS h) (ADC_regs h) (ADC_SQR h) v
       (DMA_EN h) (DMA_regs h) (DMA_TCIF h) (DMA_TCIE h) (NVIC_ADC_IRQ h)
       (TIM_ARR h) (TIM_PSC h) (TIM_TRGO_Update h).
Definition set_DMA_EN (v : bool) (h : hw_state) : hw_state :=
  mkHW (ADC_CR2 h) (ADC_ADON h) (ADC_DMA h) (ADC_DDS h) (ADC_regs h) (ADC_SQR h) (GPIO_AN h)
       v (DMA_regs h) (DMA_TCIF h) (DMA_TCIE h) (NVIC_ADC_IRQ h)
       (TIM_ARR h) (TIM_PSC h) (TIM_TRGO_Update h).
Definition set_DMA_regs (v : option DMA_InitTypeDef) (h : hw_state) : hw_state :=
  mkHW (ADC_CR2 h) (ADC_ADON h) (ADC_DMA h) (ADC_DDS h) (ADC_regs h) (ADC_SQR h) (GPIO_AN h)
       (DMA_EN h) v (DMA_TCIF h) (DMA_TCIE h) (NVIC_ADC_IRQ h)
       (TIM_ARR h) (TIM_PSC h) (TIM_TRGO_Update h).
Definition set_DMA_TCIF (v : bool) (h : hw_state) : hw_state :=
  mkHW (ADC_CR2 h) (ADC_ADON h) (ADC_DMA h) (ADC_DDS h) (ADC_regs h) (ADC_SQR h) (GPIO_AN h)
       (DMA_EN h) (DMA_regs h) v (DMA_TCIE h) (NVIC_ADC_IRQ h)
       (TIM_ARR h) (TIM_PSC h) (TIM_TRGO_Update h).
Definition set_DMA_TCIE (v : bool) (h : hw_state) : hw_state :=
  mkHW (ADC_CR2 h) (ADC_ADON h) (ADC_DMA h) (ADC_DDS h) (ADC_regs h) (ADC_SQR h) (GPIO_AN h)
       (DMA_EN h) (DMA_regs h) (DMA_TCIF h) v (NVIC_ADC_IRQ h)
       (TIM_ARR h) (TIM_PSC h) (TIM_TRGO_Update h).
Definition set_NVIC_ADC_IRQ (v : bool) (h : hw_state) : hw_state :=
  mkHW (ADC_CR2 h) (ADC_ADON h) (ADC_DMA h) (ADC_DDS h) (ADC_regs h) (ADC_SQR h) (GPIO_AN h)
       (DMA_EN h) (DMA_regs h) (DMA_TCIF h) (DMA_TCIE h) v
       (TIM_ARR h) (TIM_PSC h) (TIM_TRGO_Update h).
Definition set_TIM_ARR_PSC (arr psc : Z) (h : hw_state) : hw_state :=
  mkHW (ADC_CR2 h) (ADC_ADON h) (ADC_DMA h) (ADC_DDS h) (ADC_regs h) (ADC_SQR h) (GPIO_AN h)
       (DMA_EN h) (DMA_regs h) (DMA_TCIF h) (DMA_TCIE h) (NVIC_ADC_IRQ h)
       arr psc (TIM_TRGO_Update h).
Definition set_TIM_TRGO_Update (v : bool) (h : hw_state) : hw_state :=
  mkHW (ADC_CR2 h) (ADC_ADON h) (ADC_DMA h) (ADC_DDS h) (ADC_regs h) (ADC_SQR h) (GPIO_AN h)
       (DMA_EN h) (DMA_regs h) (DMA_TCIF h) (DMA_TCIE h) (NVIC_ADC_IRQ h)
       (TIM_ARR h) (TIM_PSC h) v.

Definition of_FunctionalState (s : FunctionalState) : bool :=
  match s with ENABLE => true | DISABLE => false end.

(** ** Register-level functions written out in the file *)

(** [ADC_ExternalTrigConvCmd]: read CR2, clear the trigger edge of the
    regular group, set the new one, store. *)
Definition ADC_ExternalTrigConvCmd (edge : Z) (h : hw_state) : hw_state :=
  let tmpreg := ADC_CR2 h in
  let tmpreg := Z.land tmpreg CR2_EXTEN_RESET in
  let tmpreg := Z.lor tmpreg edge in
  set_ADC_CR2 tmpreg h.

(** [ADC_SoftwareStartConvCmd]: set or clear SWSTART in CR2. *)
Definition ADC_SoftwareStartConvCmd (NewState : FunctionalState) (h : hw_state) : hw_state :=
  match NewState with
  | DISABLE => set_ADC_CR2 (Z.land (ADC_CR2 h) (u32 (Z.lnot ADC_CR2_SWSTART))) h
  | _ => set_ADC_CR2 (Z.lor (ADC_CR2 h) ADC_CR2_SWSTART) h
  end.

(** The macro [ADC_TRIG_CFG(adn, n)]. *)
Definition ADC_TRIG_CFG (n : FunctionalState) (h : hw_state) : hw_state :=
  ADC_ExternalTrigConvCmd
    (match n with
     | ENABLE => ADC_ExternalTrigConvEdge_Rising
     | DISABLE => ADC_ExternalTrigConvEdge_None
     end) h.

(** [platform_adc_check_timer_id]. *)
Definition platform_adc_check_timer_id (id timer_id : nat) : bool :=
  (timer_id =? 1)%nat || (timer_id =? 2)%nat.

(** ** Calls into the vendor peripheral library *)

(** Modelled from the spec: [ADC_Cmd] of the vendor library is missing from
    the sources; it switches the sampling unit on or off (4.3, steps 2, 4). *)
Definition ADC_Cmd (s : FunctionalState) (h : hw_state) : hw_state :=
  set_ADC_ADON (of_FunctionalState s) h.

(** Modelled from the spec: [ADC_DMACmd] of the vendor library is missing
    from the sources; it switches DMA service on the sampling unit on or
    off (4.3, steps 1 and 6). *)
Definition ADC_DMACmd (s : FunctionalState) (h : hw_state) : hw_state :=
  set_ADC_DMA (of_FunctionalState s) h.

(** Modelled from the spec: [ADC_DMARequestAfterLastTransferCmd] of the
    vendor library is missing from the sources; it lets the sampling unit
    go on requesting transfers after the last one of a scan (4.3, step 6). *)
Definition ADC_DMARequestAfterLastTransferCmd (s : FunctionalState) (h : hw_state) : hw_state :=
  set_ADC_DDS (of_FunctionalState s) h.

(** Modelled from the spec: [ADC_DeInit] of the vendor library is missing
    from the sources; it de-initialises the sampling unit (4.3, step 2):
    every register of the converter goes back to its reset value. *)
Definition ADC_DeInit (h : hw_state) : hw_state :=
  set_ADC_SQR [] (set_ADC_regs None (set_ADC_DDS false (set_ADC_DMA false
    (set_ADC_ADON false (set_ADC_CR2 0 h))))).

(** Modelled from the spec: [ADC_Init] of the vendor library is missing from
    the sources; it programs the sampling unit from the init structure
    (4.3, step 4; 4.2 "reprogram"): the conversion count, the trigger
    source and the trigger edge of the structure come into force. *)
Definition ADC_Init (i : ADC_InitTypeDef) (h : hw_state) : hw_state :=
  set_ADC_regs (Some i)
    (set_ADC_CR2 (Z.lor (Z.land (ADC_CR2 h) CR2_EXTEN_RESET) (ADC_ExternalTrigConvEdge i)) h).

(** Modelled from the spec: [ADC_RegularChannelConfig] of the vendor library
    is missing from the sources; it puts a channel at a scan position
    (4.3, step 3). *)
Definition ADC_RegularChannelConfig (channel rank : nat) (h : hw_state) : hw_state :=
  set_ADC_SQR (ADC_SQR h ++ [(channel, rank)]) h.

(** Modelled from the spec: [GPIO_Init] of the vendor library is missing
    from the sources; called with mode AN and no pull it configures the pin
    as analog input (4.3, step 3). *)
Definition GPIO_Init (port : GPIO_TypeDef) (pin : nat) (h : hw_state) : hw_state :=
  set_GPIO_AN ((port, pin) :: GPIO_AN h) h.

(** Modelled from the spec: [DMA_Cmd] of the vendor library is missing from
    the sources; it enables or disables the DMA engine (4.3, steps 1, 5). *)
Definition DMA_Cmd (s : FunctionalState) (h : hw_state) : hw_state :=
  set_DMA_EN (of_FunctionalState s) h.

(** Modelled from the spec: [DMA_DeInit] of the vendor library is missing
    from the sources; it is the first half of "reconfigure the DMA engine
    ... and clear any pending completion flags" (4.3, step 5): the stream is
    disabled, its configuration is back at the reset values and its
    pending flags are cleared. *)
Definition DMA_DeInit (h : hw_state) : hw_state :=
  set_DMA_TCIE false (set_DMA_TCIF false (set_DMA_regs None (set_DMA_EN false h))).

(** Modelled from the spec: [DMA_Init] of the vendor library is missing from
    the sources; it is the second half of "reconfigure the DMA engine"
    (4.3, step 5): the init structure comes into force. *)
Definition DMA_Init (i : DMA_InitTypeDef) (h : hw_state) : hw_state :=
  set_DMA_regs (Some i) h.

(** Modelled from the spec: [DMA_ITConfig] of the vendor library is missing
    from the sources; with DMA_IT_TC it enables or disables the completion
    interrupt of the stream. *)
Definition DMA_ITConfig (s : FunctionalState) (h : hw_state) : hw_state :=
  set_DMA_TCIE (of_FunctionalState s) h.

(** Modelled from the spec: [DMA_ClearITPendingBit] of the vendor library is
    missing from the sources; it clears the hardware completion flag
    (4.5, step 1). *)
Definition DMA_ClearITPendingBit (h : hw_state) : hw_state :=
  set_DMA_TCIF false h.

(** Modelled from the spec: [DMA_ClearFlag] of the vendor library is missing
    from the sources; it clears the pending flags of the stream. *)
Definition DMA_ClearFlag (h : hw_state) : hw_state :=
  set_DMA_TCIF false h.

(** Modelled from the spec: [NVIC_Init] of the vendor library is missing
    from the sources; it enables or disables the completion interrupt as
    the structure says (4.4). *)
Definition NVIC_Init (cmd : FunctionalState) (h : hw_state) : hw_state :=
  set_NVIC_ADC_IRQ (of_FunctionalState cmd) h.

(** Modelled from the spec: [TIM_TimeBaseInit] of the vendor library is
    missing from the sources; it reprograms the trigger timer with the
    period and the prescaler of the structure (4.2). *)
Definition TIM_TimeBaseInit (t : TIM_TimeBaseInitTypeDef) (h : hw_state) : hw_state :=
  set_TIM_ARR_PSC (TIM_Period t) (TIM_Prescaler t) h.

(** Modelled from the spec: [TIM_GetPrescaler] of the vendor library is
    missing from the sources; it reads the prescaler in force (4.2). *)
Definition TIM_GetPrescaler (h : hw_state) : Z := TIM_PSC h.

(** Modelled from the spec: [TIM_SelectOutputTrigger] of the vendor library
    is missing from the sources; with TIM_TRGOSource_Update the timer
    generates a trigger edge at each period (6). *)
Definition TIM_SelectOutputTrigger (h : hw_state) : hw_state :=
  set_TIM_TRGO_Update true h.

(** ** Channel, device and system state *)

(** One channel ([elua_adc_ch_state]).  The structure declaration is not
    part of the sources at hand: the members up to [value_ptr] are the ones
    the platform file reads and writes; the rest carries what the absent
    helpers keep per channel, after section 3 of the specification. *)
Record elua_adc_ch_state := mkCh {
  ch_id : nat;                (* s->id *)
  op_pending : bool;
  freerunning : bool;
  smooth_ready : bool;
  value_fresh : bool;
  logsmoothlen : Z;
  reqsamples : Z;
  value_ptr : nat;            (* points into sample_buf *)
  samples_delivered : Z;      (* u32 *)
  smooth_seen : Z;            (* raw samples fed to the smoothing accumulator *)
  smooth_sum : Z;
  buf : list Z;               (* queued samples, oldest first *)
  buf_size : nat              (* usable slots of the queue *)
}.

Definition set_op_pending (v : bool) (s : elua_adc_ch_state) : elua_adc_ch_state :=
  mkCh (ch_id s) v (freerunning s) (smooth_ready s) (value_fresh s) (logsmoothlen s)
       (reqsamples s) (value_ptr s) (samples_delivered s) (smooth_seen s) (smooth_sum s)
       (buf s) (buf_size s).
Definition set_smooth_ready (v : bool) (s : elua_adc_ch_state) : elua_adc_ch_state :=
  mkCh (ch_id s) (op_pending s) (freerunning s) v (value_fresh s) (logsmoothlen s)
       (reqsamples s) (value_ptr s) (samples_delivered s) (smooth_seen s) (smooth_sum s)
       (buf s) (buf_size s).
Definition set_value_fresh (v : bool) (s : elua_adc_ch_state) : elua_adc_ch_state :=
  mkCh (ch_id s) (op_pending s) (freerunning s) (smooth_ready s) v (logsmoothlen s)
       (reqsamples s) (value_ptr s) (samples_delivered s) (smooth_seen s) (smooth_sum s)
       (buf s) (buf_size s).
Definition set_request (count depth : Z) (s : elua_adc_ch_state) : elua_adc_ch_state :=
  mkCh (ch_id s) (op_pending s) (freerunning s) (smooth_ready s) (value_fresh s) depth
       count (value_ptr s) (samples_delivered s) (smooth_seen s) (smooth_sum s)
       (buf s) (buf_size s).
Definition set_value_ptr (v : nat) (s : elua_adc_ch_state) : elua_adc_ch_state :=
  mkCh (ch_id s) (op_pending s) (freerunning s) (smooth_ready s) (value_fresh s) (logsmoothlen s)
       (reqsamples s) v (samples_delivered s) (smooth_seen s) (smooth_sum s)
       (buf s) (buf_size s).
Definition set_samples_delivered (v : Z) (s : elua_adc_ch_state) : elua_adc_ch_state :=
  mkCh (ch_id s) (op_pending s) (freerunning s) (smooth_ready s) (value_fresh s) (logsmoothlen s)
       (reqsamples s) (value_ptr s) v (smooth_seen s) (smooth_sum s)
       (buf s) (buf_size s).
Definition set_smooth (seen sum : Z) (s : elua_adc_ch_state) : elua_adc_ch_state :=
  mkCh (ch_id s) (op_pending s) (freerunning s) (smooth_ready s) (value_fresh s) (logsmoothlen s)
       (reqsamples s) (value_ptr s) (samples_delivered s) seen sum
       (buf s) (buf_size s).
Definition set_buf (v : list Z) (s : elua_adc_ch_state) : elua_adc_ch_state :=
  mkCh (ch_id s) (op_pending s) (freerunning s) (smooth_ready s) (value_fresh s) (logsmoothlen s)
       (reqsamples s) (value_ptr s) (samples_delivered s) (smooth_seen s) (smooth_sum s)
       v (buf_size s).

(** The device ([elua_adc_dev_state]), as the platform file uses it.
    [ch_state] holds the pointers of the scan list, [seq_len] of them. *)
Record elua_adc_dev_state := mkDev {
  ch_state : list nat;
  sample_buf : list Z;
  clocked : bool;
  running : bool;
  ch_active : Z;              (* one bit per channel *)
  timer_id : nat;
  seq_ctr : nat;
  seq_len : nat
}.

Definition set_scan_list (l : list nat) (n : nat) (d : elua_adc_dev_state) : elua_adc_dev_state :=
  mkDev l (sample_buf d) (clocked d) (running d) (ch_active d) (timer_id d) (seq_ctr d) n.
Definition set_sample_buf (v : list Z) (d : elua_adc_dev_state) : elua_adc_dev_state :=
  mkDev (ch_state d) v (clocked d) (running d) (ch_active d) (timer_id d) (seq_ctr d) (seq_len d).
Definition set_clocked (v : bool) (d : elua_adc_dev_state) : elua_adc_dev_state :=
  mkDev (ch_state d) (sample_buf d) v (running d) (ch_active d) (timer_id d) (seq_ctr d) (seq_len d).
Definition set_running (v : bool) (d : elua_adc_dev_state) : elua_adc_dev_state :=
  mkDev (ch_state d) (sample_buf d) (clocked d) v (ch_active d) (timer_id d) (seq_ctr d) (seq_len d).
Definition set_ch_active (v : Z) (d : elua_adc_dev_state) : elua_adc_dev_state :=
  mkDev (ch_state d) (sample_buf d) (clocked d) (running d) v (timer_id d) (seq_ctr d) (seq_len d).
Definition set_seq_ctr (v : nat) (d : elua_adc_dev_state) : elua_adc_dev_state :=
  mkDev (ch_state d) (sample_buf d) (clocked d) (running d) (ch_active d) (timer_id d) v (seq_len d).

(** Everything the ADC code of the file works on. *)
Record adc_system := mkSys {
  dev : elua_adc_dev_state;                  (* adc_get_dev_state( 0 ) *)
  chans : list elua_adc_ch_state;            (* adc_get_ch_state( id ) *)
  adc_init_struct : ADC_InitTypeDef;
  dma_init_struct : DMA_InitTypeDef;
  nvic_init_structure_adc : FunctionalState; (* member NVIC_IRQChannelCmd *)
  hw : hw_state
}.

Definition set_dev (v : elua_adc_dev_state) (st : adc_system) : adc_system :=
  mkSys v (chans st) (adc_init_struct st) (dma_init_struct st) (nvic_init_structure_adc st) (hw st).
Definition set_chans (v : list elua_adc_ch_state) (st : adc_system) : adc_system :=
  mkSys (dev st) v (adc_init_struct st) (dma_init_struct st) (nvic_init_structure_adc st) (hw st).
Definition set_adc_init_struct (v : ADC_InitTypeDef) (st : adc_system) : adc_system :=
  mkSys (dev st) (chans st) v (dma_init_struct st) (nvic_init_structure_adc st) (hw st).
Definition set_dma_init_struct (v : DMA_InitTypeDef) (st : adc_system) : adc_system :=
  mkSys (dev st) (chans st) (adc_init_struct st) v (nvic_init_structure_adc st) (hw st).
Definition set_nvic_init_structure_adc (v : FunctionalState) (st : adc_system) : adc_system :=
  mkSys (dev st) (chans st) (adc_init_struct st) (dma_init_struct st) v (hw st).
Definition set_hw (v : hw_state) (st : adc_system) : adc_system :=
  mkSys (dev st) (chans st) (adc_init_struct st) (dma_init_struct st) (nvic_init_structure_adc st) v.

Definition on_hw (f : hw_state -> hw_state) (st : adc_system) : adc_system :=
  set_hw (f (hw st)) st.
Definition on_dev (f : elua_adc_dev_state -> elua_adc_dev_state) (st : adc_system) : adc_system :=
  set_dev (f (dev st)) st.

(** Store through a channel pointer. *)
Definition ch_store (p : nat) (s : elua_adc_ch_state) (st : adc_system) : adc_system :=
  set_chans (<[p := s]> (chans st)) st.

(** Read, change and store through a channel pointer; the pointer must be
    inside the table. *)
Definition ch_update (p : nat) (f : elua_adc_ch_state -> elua_adc_ch_state)
    (st : adc_system) : option adc_system :=
  s ← chans st !! p; Some (ch_store p (f s) st).

(** Unsigned division of C: undefined for a zero divisor. *)
Definition udiv (a b : Z) : option Z := if b =? 0 then None else Some (a / b).

(** ** Helpers of the common ADC layer, absent from the sources *)

(** Modelled from the spec: [adc_get_ch_state] is missing from the sources;
    it yields the record of the channel with that id, "one instance per
    physical input, indexed 0..NUM_CHANNELS-1" (3). *)
Definition adc_get_ch_state (id : nat) (st : adc_system) : option elua_adc_ch_state :=
  chans st !! id.

(** Modelled from the spec: the macro [ACTIVE_CHANNEL] is missing from the
    sources; it reads the channel's bit of [active_channel_mask] (3). *)
Definition ACTIVE_CHANNEL (d : elua_adc_dev_state) (id : nat) : bool :=
  Z.testbit (ch_active d) (Z.of_nat id).

(** Modelled from the spec: the macro [ACTIVATE_CHANNEL] is missing from the
    sources; it "marks channel active" (4.4) in [active_channel_mask]. *)
Definition ACTIVATE_CHANNEL (id : nat) (d : elua_adc_dev_state) : elua_adc_dev_state :=
  set_ch_active (Z.lor (ch_active d) (Z.shiftl 1 (Z.of_nat id))) d.

(** Modelled from the spec: the macro [INACTIVATE_CHANNEL] is missing from
    the sources; it "marks channel inactive" (4.4) in
    [active_channel_mask]. *)
Definition INACTIVATE_CHANNEL (id : nat) (d : elua_adc_dev_state) : elua_adc_dev_state :=
  set_ch_active (Z.ldiff (ch_active d) (Z.shiftl 1 (Z.of_nat id))) d.

(** Modelled from the spec: [adc_init_ch_state] is missing from the sources;
    a channel is "created at init in inactive state" (3): nothing requested,
    nothing delivered, its queue empty, and its bit of
    [active_channel_mask] cleared. *)
Definition adc_init_ch_state (id : nat) (st : adc_system) : option adc_system :=
  st ← ch_update id
         (fun s => mkCh id false false false false 0 0 0%nat 0 0 0 [] (buf_size s)) st;
  Some (on_dev (INACTIVATE_CHANNEL id) st).

(** Modelled from the spec: the queue behind [buf_write] is missing from the
    sources; its push is "false and no-op if full -- never overwrites"
    (4.1). *)
Definition buf_push (v : Z) (s : elua_adc_ch_state) : elua_adc_ch_state :=
  if (length (buf s) <? buf_size s)%nat then set_buf (buf s ++ [v]) s else s.

(** Modelled from the spec: [buf_write] is missing from the sources; it
    pushes the sample "into its ring buffer" (4.5, step 2).  The sample is
    read through the pointer the handler passes. *)
Definition buf_write (id : nat) (data : nat) (st : adc_system) : option adc_system :=
  v ← sample_buf (dev st) !! data;
  ch_update id (buf_push v) st.

(** Modelled from the spec: the smoothing accumulator is missing from the
    sources; it is "sized 2^smoothing_log_depth" and [smoothing_ready] is
    marked "once the accumulator has seen enough samples" (4.5, step 2),
    that is 2^depth of them (8). *)
Definition smooth_feed (v : Z) (s : elua_adc_ch_state) : elua_adc_ch_state :=
  let seen := smooth_seen s + 1 in
  let s := set_smooth seen (smooth_sum s + v) s in
  if 2 ^ logsmoothlen s <=? seen then set_smooth_ready true s else s.

(** Modelled from the spec: [adc_smooth_data] is missing from the sources;
    it feeds "the raw sample into [the] smoothing accumulator" of the
    channel (4.5, step 2). *)
Definition adc_smooth_data (id : nat) (st : adc_system) : option adc_system :=
  s ← adc_get_ch_state id st;
  v ← sample_buf (dev st) !! value_ptr s;
  Some (ch_store id (smooth_feed v s) st).

(** Modelled from the spec: [adc_samples_available] is missing from the
    sources.  The handler compares its result with the requested count
    where the specification has "Increment samples_delivered; if
    samples_delivered >= requested_sample_count ..." (4.5, step 2): the
    call counts the sample of this scan and yields the new count. *)
Definition adc_samples_available (id : nat) (st : adc_system) : option (Z * adc_system) :=
  s ← adc_get_ch_state id st;
  let n := u32 (samples_delivered s + 1) in
  Some (n, ch_store id (set_samples_delivered n s) st).

(** Modelled from the spec: the scan over the channels in
    [adc_update_dev_sequence] is missing from the sources; it takes "each
    active channel, in ascending channel-id order" (4.3, step 3). *)
Definition active_ids (d : elua_adc_dev_state) : list nat :=
  List.filter (ACTIVE_CHANNEL d) (seq 0 NUM_ADC).

(** Modelled from the spec: the binding of channels to scratch slots in
    [adc_update_dev_sequence] is missing from the sources; the channel at
    scan position [i] has its latest value in [sample_scratch_buffer[i]]
    (4.5, step 2): channel [ids[i]] gets slot [pos + i]. *)
Fixpoint attach_channels (pos : nat) (ids : list nat)
    (chs : list elua_adc_ch_state) : list elua_adc_ch_state :=
  match ids with
  | [] => chs
  | id :: ids => attach_channels (S pos) ids (alter (set_value_ptr pos) id chs)
  end.

(** ** [platform_adc_stop] *)

Definition platform_adc_stop (id : nat) (st : adc_system) : option adc_system :=
  s ← adc_get_ch_state id st;
  let st := ch_store id (set_op_pending false s) st in
  let st := on_dev (INACTIVATE_CHANNEL id) st in
  (* If there are no more active channels, stop the sequencer *)
  if ch_active (dev st) =? 0 then
    let st := on_hw (ADC_TRIG_CFG DISABLE) st in
    let st := set_nvic_init_structure_adc DISABLE st in
    let st := on_hw (NVIC_Init (nvic_init_structure_adc st)) st in
    Some (on_dev (set_running false) st)
  else Some st.

(** ** [platform_adc_update_sequence] *)

(** One turn of its [while]: the pin of the channel at [seq_ctr] becomes an
    analog input and the channel gets rank [seq_ctr + 1]. *)
Definition update_sequence_body (st : adc_system) : option adc_system :=
  let d := dev st in
  p ← ch_state d !! seq_ctr d;
  s ← chans st !! p;
  pin ← adc_gpio_pins !! ch_id s;
  port ← adc_gpio_port !! ch_id s;
  let st := on_hw (GPIO_Init port pin) st in
  let st := on_hw (ADC_RegularChannelConfig (ch_id s) (S (seq_ctr d))) st in
  Some (on_dev (set_seq_ctr (S (seq_ctr d))) st).

Fixpoint update_sequence_loop (fuel : nat) (st : adc_system) : option adc_system :=
  if (seq_ctr (dev st) <? seq_len (dev st))%nat then
    match fuel with
    | O => None
    | S fuel => st ← update_sequence_body st; update_sequence_loop fuel st
    end
  else Some st.

Definition platform_adc_update_sequence (st : adc_system)
    : option (platform_status * adc_system) :=
  let st := on_hw (ADC_TRIG_CFG DISABLE) st in
  (* Stop in-progress adc dma transfers *)
  let st := on_hw (ADC_DMACmd DISABLE) st in
  (* Bring down adc, update setup, bring back up *)
  let st := on_hw (ADC_Cmd DISABLE) st in
  let st := on_hw ADC_DeInit st in
  let st := on_dev (set_seq_ctr 0) st in
  st ← update_sequence_loop (seq_len (dev st)) st;
  let st := on_dev (set_seq_ctr 0) st in
  let st := set_adc_init_struct
              (let i := adc_init_struct st in
               mkADC_Init (ADC_ScanConvMode i) (ADC_ContinuousConvMode i)
                          (ADC_ExternalTrigConv i) (ADC_ExternalTrigConvEdge i)
                          (Z.of_nat (seq_len (dev st)))) st in
  let st := on_hw (ADC_Init (adc_init_struct st)) st in
  let st := on_hw (ADC_Cmd ENABLE) st in
  (* Bring down adc dma, update setup, bring back up *)
  let st := on_hw (DMA_Cmd DISABLE) st in
  let st := on_hw DMA_DeInit st in
  let st := set_dma_init_struct
              (let i := dma_init_struct st in
               mkDMA_Init DMA_Memory_sample_buf (DMA_DIR i)
                          (Z.of_nat (seq_len (dev st))) (DMA_Mode i)) st in
  let st := on_hw (DMA_Init (dma_init_struct st)) st in
  let st := on_hw (DMA_Cmd ENABLE) st in
  let st := on_hw (ADC_DMARequestAfterLastTransferCmd ENABLE) st in
  let st := on_hw (ADC_DMACmd ENABLE) st in
  let st := on_hw (DMA_ITConfig ENABLE) st in
  let st := if clocked (dev st) && running (dev st)
            then on_hw (ADC_TRIG_CFG ENABLE) st else st in
  Some (PLATFORM_OK, st).

(** Modelled from the spec: the software half of [rebuild_sequence] is
    missing from the sources (4.3, step 3): "for each active channel, in
    ascending channel-id order, ... append it to scan_list at the next scan
    position". *)
Definition adc_rebuild_scan_list (st : adc_system) : adc_system :=
  let ids := active_ids (dev st) in
  let st := set_chans (attach_channels 0 ids (chans st)) st in
  let st := on_dev (set_scan_list ids (length ids)) st in
  on_dev (set_seq_ctr 0) st.

(** Modelled from the spec: [adc_update_dev_sequence] is missing from the
    sources; it is [rebuild_sequence] (4.3): the scan list is rebuilt, then
    the hardware is reprogrammed by [platform_adc_update_sequence]. *)
Definition adc_update_dev_sequence (st : adc_system)
    : option (platform_status * adc_system) :=
  platform_adc_update_sequence (adc_rebuild_scan_list st).

Section Platform.

(** Build configuration of [platform_conf.h], absent from the sources: the
    core clock [HCLK] and whether [BUF_ENABLE_ADC] is defined. *)
Variable HCLK : Z.
Variable BUF_ENABLE_ADC : bool.

Definition TIM_GET_BASE_CLK (id : nat) : Z := HCLK.

(** ** [DMA2_Stream0_IRQHandler] *)

(** One turn of its [while], for the channel [s = d->ch_state[ d->seq_ctr ]].
    Every member of [s] is read from the channel table at the time of the
    read. *)
Definition irq_body (st : adc_system) : option adc_system :=
  p ← ch_state (dev st) !! seq_ctr (dev st);
  st ← ch_update p (set_value_fresh true) st;
  s ← chans st !! p;
  (* Fill in smoothing buffer until warmed up *)
  st ← (if (0 <? logsmoothlen s) && negb (smooth_ready s)
        then adc_smooth_data (ch_id s) st
        else if BUF_ENABLE_ADC && (1 <? reqsamples s)
        then st ← buf_write (ch_id s) (value_ptr s) st;
             ch_update p (set_value_fresh false) st
        else Some st);
  (* If we have the number of requested samples, stop sampling *)
  s ← chans st !! p;
  '(n, st) ← adc_samples_available (ch_id s) st;
  s ← chans st !! p;
  st ← (if (reqsamples s <=? n) && negb (freerunning s)
        then platform_adc_stop (ch_id s) st
        else Some st);
  Some (on_dev (set_seq_ctr (S (seq_ctr (dev st)))) st).

Fixpoint irq_loop (fuel : nat) (st : adc_system) : option adc_system :=
  if (seq_ctr (dev st) <? seq_len (dev st))%nat then
    match fuel with
    | O => None
    | S fuel => st ← irq_body st; irq_loop fuel st
    end
  else Some st.

(** What follows the loop: the two [if]s at the end of the handler. *)
Definition irq_rearm (st : adc_system) : option adc_system :=
  st ← (if running (dev st) then snd <$> adc_update_dev_sequence st else Some st);
  Some (if negb (clocked (dev st)) && running (dev st)
        then on_hw (ADC_SoftwareStartConvCmd ENABLE) st
        else st).

Definition DMA2_Stream0_IRQHandler (st : adc_system) : option adc_system :=
  let st := on_hw DMA_ClearITPendingBit st in
  let st := on_dev (set_seq_ctr 0) st in
  st ← irq_loop (seq_len (dev st)) st;
  let st := on_dev (set_seq_ctr 0) st in
  irq_rearm st.

(** ** [platform_adc_set_clock] *)

(** The period and the prescaler the function arrives at, its three
    arithmetic statements. *)
Definition adc_clock_divide (id : nat) (frequency : Z) : option (Z * Z) :=
  period ← udiv (TIM_GET_BASE_CLK id) frequency;
  let prescaler := u32 (period / 0x10000 + 1) in
  period ← udiv period prescaler;
  Some (period, prescaler).

(** What it stores in [timer_base_struct]. *)
Definition adc_timer_base_struct (period prescaler : Z) : TIM_TimeBaseInitTypeDef :=
  mkTIM_Base (u32 (period - 1)) (u16 (prescaler - 1)).

Definition platform_adc_set_clock (id : nat) (frequency : Z) (st : adc_system)
    : option (Z * adc_system) :=
  (* Make sure sequencer is disabled before making changes *)
  let st := on_hw (ADC_TRIG_CFG DISABLE) st in
  '(frequency, st) ←
    (if 0 <? frequency then
       let st := on_dev (set_clocked true) st in
       (* Attach timer to converter *)
       trig ← adc_timer !! timer_id (dev st);
       let st := set_adc_init_struct
                   (let i := adc_init_struct st in
                    mkADC_Init (ADC_ScanConvMode i) (ADC_ContinuousConvMode i)
                               trig ADC_ExternalTrigConvEdge_Rising
                               (ADC_NbrOfConversion i)) st in
       '(period, prescaler) ← adc_clock_divide id frequency;
       let st := on_hw (TIM_TimeBaseInit (adc_timer_base_struct period prescaler)) st in
       f ← udiv (TIM_GET_BASE_CLK id) (TIM_GetPrescaler (hw st) + 1);
       frequency ← udiv f period;
       (* Set up output compare for timer *)
       let st := on_hw TIM_SelectOutputTrigger st in
       Some (frequency, st)
     else
       let st := on_dev (set_clocked false) st in
       (* Switch to Software-only Trigger *)
       let st := set_adc_init_struct
                   (let i := adc_init_struct st in
                    mkADC_Init (ADC_ScanConvMode i) (ADC_ContinuousConvMode i)
                               (ADC_ExternalTrigConv i) ADC_ExternalTrigConvEdge_None
                               (ADC_NbrOfConversion i)) st in
       Some (frequency, st));
  (* Apply config *)
  let st := on_hw (ADC_Init (adc_init_struct st)) st in
  Some (frequency, st).

(** ** [platform_adc_start_sequence] *)

(** What it does after the sequence update: mark the device running,
    enable the completion interrupt, arm the first conversion. *)
Definition start_arm (st : adc_system) : adc_system :=
  let st := on_dev (set_running true) st in
  let st := on_hw DMA_ClearITPendingBit st in
  let st := set_nvic_init_structure_adc ENABLE st in
  let st := on_hw (NVIC_Init (nvic_init_structure_adc st)) st in
  if clocked (dev st)
  then on_hw (ADC_TRIG_CFG ENABLE) st
  else on_hw (ADC_SoftwareStartConvCmd ENABLE) st.

Definition platform_adc_start_sequence (st : adc_system)
    : option (platform_status * adc_system) :=
  (* Only force update and initiate if we weren't already running *)
  if negb (running (dev st)) then
    '(_, st) ← adc_update_dev_sequence st;
    Some (PLATFORM_OK, start_arm st)
  else Some (PLATFORM_OK, st).

(** ** Initialisation *)

(** The ADC lines of [NVIC_Configuration]. *)
Definition NVIC_Configuration (st : adc_system) : adc_system :=
  let st := set_nvic_init_structure_adc DISABLE st in
  on_hw (NVIC_Init (nvic_init_structure_adc st)) st.

Fixpoint adc_init_ch_states (ids : list nat) (st : adc_system) : option adc_system :=
  match ids with
  | [] => Some st
  | id :: ids => st ← adc_init_ch_state id st; adc_init_ch_states ids st
  end.

(** [adcs_init]. *)
Definition adcs_init (st : adc_system) : option adc_system :=
  st ← adc_init_ch_states (seq 0 NUM_ADC) st;
  let st := on_hw ADC_DeInit st in
  (* ADC_StructInit, then the converter set-up *)
  let st := set_adc_init_struct
              (mkADC_Init ENABLE DISABLE ADC_ExternalTrigConv_T3_TRGO
                          ADC_ExternalTrigConvEdge_None 1) st in
  (* Apply default config *)
  let st := on_hw (ADC_Init (adc_init_struct st)) st in
  (* Enable ADC *)
  let st := on_hw (ADC_Cmd ENABLE) st in
  (* Set up DMA to handle samples *)
  let st := on_hw DMA_DeInit st in
  let st := set_dma_init_struct
              (mkDMA_Init DMA_Memory_sample_buf DMA_DIR_PeripheralToMemory 1
                          DMA_Mode_Circular) st in
  let st := on_hw (DMA_Init (dma_init_struct st)) st in
  (* Clear flags *)
  let st := on_hw DMA_ClearFlag st in
  let st := on_hw DMA_ClearITPendingBit st in
  let st := on_hw (ADC_DMARequestAfterLastTransferCmd DISABLE) st in
  let st := on_hw (ADC_DMACmd ENABLE) st in
  let st := on_hw (DMA_Cmd ENABLE) st in
  let st := on_hw (DMA_ITConfig ENABLE) st in
  snd <$> platform_adc_set_clock 0 0 st.

(** The memory and the registers before any of this has run: all zero,
    the channel table in place, [slots] usable slots in each queue. *)
Definition adc_zero (slots : nat) : adc_system :=
  mkSys (mkDev [] (replicate NUM_ADC 0) false false 0 0 0 0)
        (replicate NUM_ADC (mkCh 0 false false false false 0 0 0 0 0 0 [] slots))
        (mkADC_Init DISABLE DISABLE ADC_ExternalTrigConv_T1_CC1 0 0)
        (mkDMA_Init DMA_Memory_null DMA_DIR_PeripheralToMemory 0 DMA_Mode_Normal)
        DISABLE
        (mkHW 0 false false false None [] [] false None false false false 0 0 false).

Definition platform_init (slots : nat) : option adc_system :=
  adcs_init (NVIC_Configuration (adc_zero slots)).

(** ** Starting a channel, and the completion of a scan *)

(** Modelled from the spec: the channel set-up of [start] is missing from
    the sources; it "marks channel active, resets
    samples_delivered/smoothing_ready" (4.4) and records the request. *)
Definition adc_setup_channel (id : nat) (count depth : Z) (st : adc_system)
    : option adc_system :=
  st ← ch_update id (fun s => set_request count depth
                               (set_samples_delivered 0 (set_smooth_ready false s))) st;
  Some (on_dev (ACTIVATE_CHANNEL id) st).

(** Modelled from the spec: [start(channel_id, requested_sample_count,
    smoothing_log_depth)] (4.4) is missing from the sources: the channel
    set-up followed by the start routine of the platform file. *)
Definition start_channel (id : nat) (count depth : Z) (st : adc_system)
    : option adc_system :=
  st ← adc_setup_channel id count depth st;
  snd <$> platform_adc_start_sequence st.

(** Modelled from the spec: the transfer engine is hardware; it moves "a
    fixed-size vector of samples from the capture unit into a scratch
    buffer on each scan" (6), from the start of the buffer. *)
Definition dma_store (samples buffer : list Z) : list Z :=
  take (length buffer) (samples ++ drop (length samples) buffer).

(** Modelled from the spec: the interrupt dispatch of the platform is
    missing from the sources.  A finished scan leaves its samples in the
    scratch buffer and raises the completion flag; the handler is "invoked
    by the platform's interrupt dispatch" (9), which happens while the
    completion interrupt is enabled (4.4). *)
Definition scan_complete (samples : list Z) (st : adc_system) : option adc_system :=
  let st := on_dev (fun d => set_sample_buf (dma_store samples (sample_buf d)) d) st in
  let st := on_hw (set_DMA_TCIF true) st in
  if NVIC_ADC_IRQ (hw st) then DMA2_Stream0_IRQHandler st else Some st.

(** One scan after the other. *)
Fixpoint scans_complete (scans : list (list Z)) (st : adc_system) : option adc_system :=
  match scans with
  | [] => Some st
  | v :: scans => st ← scan_complete v st; scans_complete scans st
  end.

(** ** The clock computation in the words of the specification *)



End Platform.

(** ** The ring buffer of [ringbuff.h] *)

Module RingBuff.

(** [struct rbuff]: [top] is where the next byte is written (the head of
    the specification), [bottom] where the next byte is read (its tail). *)
Record rbuff := mkRbuff {
  data : list Byte.byte;      (* unsigned char *data *)
  top : Z;                    (* volatile int *)
  bottom : Z;                 (* volatile int *)
  size : Z                    (* int *)
}.

Section Bodies.

(** The header gives [rbuff_pop] the result type [unsigned char] for every
    buffer; neither it nor the specification says which byte comes back
    from an empty one. *)
Variable unread : Byte.byte.

(** Modelled from the spec: the body of [rbuff_is_empty] is missing from the
    sources (only its declaration is there); "is_empty <=> head == tail"
    (3). *)
Definition rbuff_is_empty (p : rbuff) : bool := top p =? bottom p.

(** Modelled from the spec: the body of [rbuff_is_full] is missing from the
    sources (only its declaration is there); "is_full <=> (head+1) mod N ==
    tail" (3). *)
Definition rbuff_is_full (p : rbuff) : bool := (top p + 1) mod size p =? bottom p.

(** Modelled from the spec: the body of [rbuff_push] is missing from the
    sources (only its declaration, with result type [void], is there); a
    push is a "no-op if full -- never overwrites" (4.1), else the byte goes
    to the head, which moves on modulo the capacity (3). *)
Definition rbuff_push (p : rbuff) (c : Byte.byte) : rbuff :=
  if rbuff_is_full p then p
  else mkRbuff (<[Z.to_nat (top p) := c]> (data p)) ((top p + 1) mod size p)
               (bottom p) (size p).

(** Modelled from the spec: the body of [rbuff_pop] is missing from the
    sources (only its declaration, with result type [unsigned char], is
    there); a pop takes the byte at the tail, which moves on modulo the
    capacity (3); an empty buffer has no byte to give (4.1). *)
Definition rbuff_pop (p : rbuff) : Byte.byte * rbuff :=
  if rbuff_is_empty p then (unread, p)
  else (default unread (data p !! Z.to_nat (bottom p)),
        mkRbuff (data p) (top p) ((bottom p + 1) mod size p) (size p)).

End Bodies.

(** The contract in the words of the specification (4.1):
    "push(byte) -> bool (false and no-op if full -- never overwrites);
    pop() -> Option<byte> (None if empty)". *)
Definition push_spec (p : rbuff) (c : Byte.byte) : bool * rbuff :=
  if rbuff_is_full p then (false, p) else (true, rbuff_push p c).

Definition pop_spec (p : rbuff) : option Byte.byte * rbuff :=
  if rbuff_is_empty p then (None, p)
  else let r := rbuff_pop Byte.x00 p in (Some (fst r), snd r).

(** A buffer of four slots holding three unread bytes (full), and the same
    storage with nothing unread (empty). *)
Definition rb_full : rbuff :=
  mkRbuff [Byte.x61; Byte.x62; Byte.x63; Byte.x00] 3 0 4.

Definition rb_empty : rbuff :=
  mkRbuff [Byte.x61; Byte.x62; Byte.x63; Byte.x00] 2 2 4.

End RingBuff.

(** ** Vocabulary of the statements *)

(** The trigger edge in force: the EXTEN field of CR2. *)
Definition trigger_edge (h : hw_state) : Z := Z.land (ADC_CR2 h) CR2_EXTEN.

(** A software start has been written into CR2. *)
Definition software_start (h : hw_state) : bool := Z.testbit (ADC_CR2 h) 30.

(** Software-triggered mode, as [platform_adc_set_clock] leaves it for a
    zero frequency. *)
Definition software_triggered (st : adc_system) : Prop :=
  clocked (dev st) = false /\
  ADC_ExternalTrigConvEdge (adc_init_struct st) = ADC_ExternalTrigConvEdge_None.

(** The DMA template as [adcs_init] fills it in. *)
Definition dma_template_ok (st : adc_system) : Prop :=
  DMA_DIR (dma_init_struct st) = DMA_DIR_PeripheralToMemory /\
  DMA_Mode (dma_init_struct st) = DMA_Mode_Circular.

(** Every pointer of the scan list leads to a channel with a pin. *)
Definition scan_list_ok (st : adc_system) : Prop :=
  forall i : nat, (i < seq_len (dev st))%nat ->
    exists p s, ch_state (dev st) !! i = Some p /\ chans st !! p = Some s /\
                (ch_id s < NUM_ADC)%nat.

(** The channel table is in place: channel [i] sits at index [i] and
    points into the scratch buffer. *)
Definition wf_ch (i : nat) (s : elua_adc_ch_state) : Prop :=
  ch_id s = i /\ (value_ptr s < NUM_ADC)%nat.

Definition wf (st : adc_system) : Prop :=
  length (chans st) = NUM_ADC /\
  (forall i s, chans st !! i = Some s -> wf_ch i s) /\
  length (sample_buf (dev st)) = NUM_ADC.

(** What [platform_adc_update_sequence] leaves behind, given the pins [gp]
    and the ranks [sq] its loop has programmed. *)
Definition update_sequence_result (gp : list (GPIO_TypeDef * nat)) (sq : list (nat * nat))
    (st : adc_system) : adc_system :=
  let n := Z.of_nat (seq_len (dev st)) in
  let ai := let i := adc_init_struct st in
            mkADC_Init (ADC_ScanConvMode i) (ADC_ContinuousConvMode i)
                       (ADC_ExternalTrigConv i) (ADC_ExternalTrigConvEdge i) n in
  let di := let i := dma_init_struct st in
            mkDMA_Init DMA_Memory_sample_buf (DMA_DIR i) n (DMA_Mode i) in
  let cr2 := Z.lor (Z.land 0 CR2_EXTEN_RESET) (ADC_ExternalTrigConvEdge ai) in
  let h := hw st in
  let h := mkHW cr2 true true true (Some ai) sq gp true (Some di) false true
                (NVIC_ADC_IRQ h) (TIM_ARR h) (TIM_PSC h) (TIM_TRGO_Update h) in
  let h := if clocked (dev st) && running (dev st) then ADC_TRIG_CFG ENABLE h else h in
  mkSys (set_seq_ctr 0 (dev st)) (chans st) ai di (nvic_init_structure_adc st) h.

(** What a turn of the handler's loop leaves alone. *)
Definition irq_frame (st st' : adc_system) : Prop :=
  adc_init_struct st' = adc_init_struct st /\
  dma_init_struct st' = dma_init_struct st /\
  clocked (dev st') = clocked (dev st) /\
  ch_state (dev st') = ch_state (dev st) /\
  seq_len (dev st') = seq_len (dev st) /\
  sample_buf (dev st') = sample_buf (dev st) /\
  timer_id (dev st') = timer_id (dev st) /\
  length (chans st') = length (chans st).

(** The device left fully disabled: converter and stream off, no trigger
    edge. *)
Definition fully_disabled (h : hw_state) : Prop :=
  ADC_ADON h = false /\ DMA_EN h = false /\
  trigger_edge h = ADC_ExternalTrigConvEdge_None.

(** A scan of zero conversions and a transfer of length zero are
    programmed. *)
Definition zero_length_programmed (h : hw_state) : Prop :=
  ADC_NbrOfConversion <$> ADC_regs h = Some 0 /\
  DMA_BufferSize <$> DMA_regs h = Some 0.

(** ** Concrete configurations and states *)

(** A core clock of 168 MHz. *)
Definition HCLK_168MHz : Z := 168000000.

(** After initialisation, queues of 8 slots. *)
Definition st_idle : adc_system :=
  Eval vm_compute in default (adc_zero 8) (platform_init HCLK_168MHz 8).

(** Channel 2 started for 5 samples on the idle device. *)
Definition st_channel2 : adc_system :=
  Eval vm_compute in default st_idle (start_channel 2 5 0 st_idle).

(** The same with a completion flag pending. *)
Definition st_channel2_stale : adc_system :=
  Eval vm_compute in on_hw (set_DMA_TCIF true) st_channel2.

(** What [platform_adc_set_clock] leaves behind in its timer branch, given
    the trigger source of the timer and the period and the prescaler it
    has arrived at. *)
Definition set_clock_timer_result (trig : ADC_ExternalTrigConv_t) (period prescaler : Z)
    (st : adc_system) : adc_system :=
  let st := on_hw (ADC_TRIG_CFG DISABLE) st in
  let st := on_dev (set_clocked true) st in
  let st := set_adc_init_struct
              (let i := adc_init_struct st in
               mkADC_Init (ADC_ScanConvMode i) (ADC_ContinuousConvMode i)
                          trig ADC_ExternalTrigConvEdge_Rising
                          (ADC_NbrOfConversion i)) st in
  let st := on_hw (TIM_TimeBaseInit (adc_timer_base_struct period prescaler)) st in
  let st := on_hw TIM_SelectOutputTrigger st in
  on_hw (ADC_Init (adc_init_struct st)) st.

(** What a turn of the handler's loop does to the record of its channel
    before the count is taken, given the scratch buffer [sb]. *)
Definition irq_deliver (BUF_ENABLE_ADC : bool) (sb : list Z) (s : elua_adc_ch_state)
    : option elua_adc_ch_state :=
  let s := set_value_fresh true s in
  if (0 <? logsmoothlen s) && negb (smooth_ready s)
  then v ← sb !! value_ptr s; Some (smooth_feed v s)
  else if BUF_ENABLE_ADC && (1 <? reqsamples s)
  then v ← sb !! value_ptr s; Some (set_value_fresh false (buf_push v s))
  else Some s.

(** The count taken. *)
Definition irq_count (s : elua_adc_ch_state) : elua_adc_ch_state :=
  set_samples_delivered (u32 (samples_delivered s + 1)) s.

(** A free-running channel with nothing requested, alone in the scan list. *)
Definition st_freerun0 : adc_system :=
  Eval vm_compute in
    set_chans (<[0%nat := mkCh 0 true true false false 0 0 0 0 0 0 [] 8]> (chans st_channel2))
      (on_dev (fun d => set_sample_buf (dma_store [7] (sample_buf d))
                          (set_scan_list [0%nat] 1 (set_ch_active 1 d))) st_channel2).

(** Channel 2 started for 5 samples, the first scan in the scratch buffer. *)
Definition st_channel2_scan : adc_system :=
  Eval vm_compute in
    on_dev (fun d => set_sample_buf (dma_store [7] (sample_buf d)) d) st_channel2.

(** ** Vocabulary for the life of a channel *)

(** Channel [c] has [k] samples requested without smoothing, is not
    free-running, and has got [j] of them. *)
Definition tracked (c : nat) (k j : Z) (st : adc_system) : Prop :=
  exists s, chans st !! c = Some s /\ reqsamples s = k /\ logsmoothlen s = 0 /\
            freerunning s = false /\ samples_delivered s = j.

(** The completion interrupt is enabled exactly while the device runs. *)
Definition irq_matched (st : adc_system) : Prop :=
  NVIC_ADC_IRQ (hw st) = running (dev st).

(** The scan list is the list of the active channels. *)
Definition scan_list_current (st : adc_system) : Prop :=
  ch_state (dev st) = active_ids (dev st) /\
  seq_len (dev st) = length (ch_state (dev st)).

(** The state between two scans. *)
Definition between_scans (st : adc_system) : Prop :=
  wf st /\ irq_matched st /\ (running (dev st) = true -> scan_list_current st).

(** What a record keeps through a turn of the loop. *)
Definition same_request (s s' : elua_adc_ch_state) : Prop :=
  ch_id s' = ch_id s /\ value_ptr s' = value_ptr s /\ reqsamples s' = reqsamples s /\
  logsmoothlen s' = logsmoothlen s /\ freerunning s' = freerunning s.

(** What the loop of the handler does to everything but the records of
    the channels it serves. *)
Definition irq_rel (st st' : adc_system) : Prop :=
  irq_frame st st' /\
  (wf st -> wf st') /\
  (irq_matched st -> irq_matched st') /\
  (forall j, ACTIVE_CHANNEL (dev st') j = true -> ACTIVE_CHANNEL (dev st) j = true) /\
  (ch_active (dev st') <> 0 -> running (dev st') = running (dev st)) /\
  (ch_active (dev st) = 0 -> ch_active (dev st') = 0).

(** Channel [c] is as it was. *)
Definition untouched (c : nat) (st st' : adc_system) : Prop :=
  chans st' !! c = chans st !! c /\
  ACTIVE_CHANNEL (dev st') c = ACTIVE_CHANNEL (dev st) c.

(** Channel 1 started for a single sample while channel 2 is being
    sampled. *)
Definition st_channel2_then_1 : adc_system :=
  Eval vm_compute in default st_channel2 (start_channel 1 1 0 st_channel2).

(** The scan list as a rebuild leaves it, whatever has been stopped or
    started since: [seq_len] pointers into the channel table, none of them
    twice. *)
Definition scan_list_rebuilt (st : adc_system) : Prop :=
  seq_len (dev st) = length (ch_state (dev st)) /\
  List.NoDup (ch_state (dev st)) /\
  Forall (fun p => (p < NUM_ADC)%nat) (ch_state (dev st)).

(** The completions that pass before a channel started on [st] is served:
    none on an idle device, whose scan list the start routine rebuilds at
    once, and none for a channel that is still in the scan list of a
    running device; one otherwise, the completion that rebuilds the list. *)
Definition start_delay (c : nat) (st : adc_system) : Z :=
  if running (dev st) && negb (bool_decide (c ∈ ch_state (dev st))) then 1 else 0.

(** Channels 2 and 1 being sampled, one scan done, then channel 1 stopped
    from outside the handler: the scan list still holds it. *)
Definition st_channel1_stopped : adc_system :=
  Eval vm_compute in
    default st_channel2
      (st ← scan_complete true [7; 8] st_channel2_then_1;
       platform_adc_stop 1 st).

(** ** Proof steps *)

(** One step of a computation in the option monad whose first action has
    been resolved. *)
Tactic Notation "opt_step" :=
  cbn [mbind option_bind fmap option_fmap option_map snd].
Tactic Notation "opt_step" "in" hyp(H) :=
  cbn [mbind option_bind fmap option_fmap option_map snd] in H.

(** The channel table of a concrete state is in place. *)
Ltac wf_concrete :=
  split; [reflexivity|]; split; [|reflexivity];
  let i := fresh "i" in let s := fresh "s" in
  intros i s;
  do 16 (destruct i as [|i]; [intros [= <-]; split; [reflexivity|vm_compute; lia]|]);
  discriminate.

(** ** Further vocabulary *)

(** Timer-triggered mode, as [platform_adc_set_clock] leaves it for a
    positive frequency. *)
Definition timer_triggered (st : adc_system) : Prop :=
  clocked (dev st) = true /\
  ADC_ExternalTrigConvEdge (adc_init_struct st) = ADC_ExternalTrigConvEdge_Rising.

(** A device that runs has a channel to sample. *)
Definition running_has_channel (st : adc_system) : Prop :=
  running (dev st) = true -> ch_active (dev st) <> 0.

(** The values of a 32-bit register. *)
Definition is_u32 (x : Z) : Prop := 0 <= x < 2 ^ 32.

(** The rank [platform_adc_update_sequence] gives to the channel at
    position [i] of the scan list, and the pin it makes an analog input
    for it. *)
Definition scan_rank (st : adc_system) (i : nat) : option (nat * nat) :=
  p ← ch_state (dev st) !! i;
  s ← chans st !! p;
  Some (ch_id s, S i).

Definition scan_pin (st : adc_system) (i : nat) : option (GPIO_TypeDef * nat) :=
  p ← ch_state (dev st) !! i;
  s ← chans st !! p;
  pin ← adc_gpio_pins !! ch_id s;
  port ← adc_gpio_port !! ch_id s;
  Some (port, pin).

(** The ranks and the pins of the positions [from], ..., [from + n - 1]. *)
Definition scan_ranks (st : adc_system) (from n : nat) : list (nat * nat) :=
  omap (scan_rank st) (seq from n).

Definition scan_pins (st : adc_system) (from n : nat) : list (GPIO_TypeDef * nat) :=
  omap (scan_pin st) (seq from n).

(** The active mask speaks of the channels of the table only. *)
Definition mask_in_table (st : adc_system) : Prop :=
  forall c, (NUM_ADC <= c)%nat -> ACTIVE_CHANNEL (dev st) c = false.

(** The idle device with timer 2 (TIM3), which
    [platform_adc_check_timer_id] accepts, as its trigger timer. *)
Definition st_idle_timer2 : adc_system :=
  Eval vm_compute in
    on_dev (fun d => mkDev (ch_state d) (sample_buf d) (clocked d) (running d)
                           (ch_active d) 2 (seq_ctr d) (seq_len d)) st_idle.

(** A channel record as [adc_init_ch_state] leaves it. *)
Definition ch_reset (id : nat) (s : elua_adc_ch_state) : elua_adc_ch_state :=
  mkCh id false false false false 0 0 0%nat 0 0 0 [] (buf_size s).

(** What [adcs_init] leaves behind once the channel records are reset. *)
Definition adcs_init_result (st : adc_system) : adc_system :=
  let ai := mkADC_Init ENABLE DISABLE ADC_ExternalTrigConv_T3_TRGO
                       ADC_ExternalTrigConvEdge_None 1 in
  let di := mkDMA_Init DMA_Memory_sample_buf DMA_DIR_PeripheralToMemory 1
                       DMA_Mode_Circular in
  let h := hw st in
  mkSys (set_clocked false (dev st)) (chans st) ai di (nvic_init_structure_adc st)
        (mkHW 0 true true false (Some ai) [] (GPIO_AN h) true (Some di) false true
              (NVIC_ADC_IRQ h) (TIM_ARR h) (TIM_PSC h) (TIM_TRGO_Update h)).

(** ** The timers and the PWM outputs *)

Module Timers.

(** The registers of a timer that the file reads or writes, itself or
    through the vendor library: the period, the prescaler and the enable
    bits of the output channels. *)
Record TIM_TypeDef := mkTIM {
  ARR : Z;
  PSC : Z;
  CCER : Z      (* a 16-bit register *)
}.

Definition set_CCER (v : Z) (r : TIM_TypeDef) : TIM_TypeDef := mkTIM (ARR r) (PSC r) v.

(** The table [timer[]]: twelve timers, ids 0 to 11. *)
Definition NUM_PHYS_TIMER : nat := 12.

(** The timer behind the PWM outputs, [PWM_TIMER_NAME]: TIM4, id 3 (the
    build for a board other than ELUA_BOARD_STM32F4ALT). *)
Definition PWM_TIMER_ID : nat := 3.

(** Modelled from the spec: [TIM_TimeBaseInit] of the vendor library is
    missing from the sources; it reprograms a timer with the period and
    the prescaler of the structure (4.2). *)
Definition TIM_TimeBaseInit (s : TIM_TimeBaseInitTypeDef) (r : TIM_TypeDef) : TIM_TypeDef :=
  mkTIM (TIM_Period s) (TIM_Prescaler s) (CCER r).

(** Modelled from the spec: [TIM_GetPrescaler] of the vendor library is
    missing from the sources; it reads the prescaler in force (4.2). *)
Definition TIM_GetPrescaler (r : TIM_TypeDef) : Z := PSC r.

(** A call on the registers of [timer[ id ]]; the id must be inside the
    table. *)
Definition on_timer (id : nat) (f : TIM_TypeDef -> TIM_TypeDef) (t : list TIM_TypeDef)
    : option (list TIM_TypeDef) :=
  r ← t !! id; Some (<[id := f r]> t).

(** A vendor call that leaves the period and the prescaler alone. *)
Definition keeps_time_base (f : TIM_TypeDef -> TIM_TypeDef) : Prop :=
  forall r, ARR (f r) = ARR r /\ PSC (f r) = PSC r.

Section Functions.

(** The core clock, and the two calls of the vendor library of which
    neither the sources nor the specification say anything: they are
    parameters. *)
Variable HCLK : Z.
Variable TIM_DeInit : TIM_TypeDef -> TIM_TypeDef.
Variable TIM_Cmd : FunctionalState -> TIM_TypeDef -> TIM_TypeDef.

(** [platform_timer_get_clock]. *)
Definition platform_timer_get_clock (id : nat) (t : list TIM_TypeDef) : option Z :=
  ptimer ← t !! id;
  udiv (TIM_GET_BASE_CLK HCLK id) (TIM_GetPrescaler ptimer + 1).

(** [platform_timer_set_clock]. *)
Definition platform_timer_set_clock (id : nat) (clock : Z) (t : list TIM_TypeDef)
    : option (Z * list TIM_TypeDef) :=
  t ← on_timer id TIM_DeInit t;
  q ← udiv (TIM_GET_BASE_CLK HCLK id) clock;
  let pre := u32 (q - 1) in
  (* Limit prescaler to 16-bits *)
  let pre := if 65535 <? pre then 65535 else pre in
  let timer_base_struct := mkTIM_Base 0xFFFF (u16 pre) in
  t ← on_timer id (TIM_TimeBaseInit timer_base_struct) t;
  t ← on_timer id (TIM_Cmd ENABLE) t;
  r ← platform_timer_get_clock id t;
  Some (r, t).

(** [platform_pwm_get_clock]. *)
Definition platform_pwm_get_clock (id : nat) (t : list TIM_TypeDef) : option Z :=
  tim ← t !! PWM_TIMER_ID;
  f ← udiv (TIM_GET_BASE_CLK HCLK PWM_TIMER_ID) (TIM_GetPrescaler tim + 1);
  udiv f (u32 (ARR tim + 1)).

(** [platform_pwm_set_clock]. *)
Definition platform_pwm_set_clock (id : nat) (clock : Z) (t : list TIM_TypeDef)
    : option (Z * list TIM_TypeDef) :=
  (* Time base configuration *)
  period ← udiv (TIM_GET_BASE_CLK HCLK PWM_TIMER_ID) clock;
  let prescaler := u32 (period / 0x10000 + 1) in
  period ← udiv period prescaler;
  let TIM_TimeBaseStructure := mkTIM_Base (u32 (period - 1)) (u16 (prescaler - 1)) in
  t ← on_timer PWM_TIMER_ID (TIM_TimeBaseInit TIM_TimeBaseStructure) t;
  r ← platform_pwm_get_clock id t;
  Some (r, t).

End Functions.

(** [( u16 )1 << 4 * id]: the product is unsigned, the shift is one of
    [int] and has no defined result from the sign bit on. *)
Definition pwm_channel_bit (id : nat) : option Z :=
  let n := u32 (4 * Z.of_nat id) in
  if n <? 31 then Some (Z.shiftl 1 n) else None.

(** [platform_pwm_start] and [platform_pwm_stop]. *)
Definition platform_pwm_start (id : nat) (t : list TIM_TypeDef) : option (list TIM_TypeDef) :=
  b ← pwm_channel_bit id;
  on_timer PWM_TIMER_ID (fun r => set_CCER (u16 (Z.lor (CCER r) b)) r) t.

Definition platform_pwm_stop (id : nat) (t : list TIM_TypeDef) : option (list TIM_TypeDef) :=
  b ← pwm_channel_bit id;
  on_timer PWM_TIMER_ID (fun r => set_CCER (u16 (Z.land (CCER r) (Z.lnot b))) r) t.

(** The output of PWM channel [id] is enabled. *)
Definition pwm_enabled (id : nat) (t : list TIM_TypeDef) : option bool :=
  r ← t !! PWM_TIMER_ID; Some (Z.testbit (CCER r) (4 * Z.of_nat id)).

(** An instance of the two vendor calls: the reset values of the
    registers, and a counter enable that is not among them. *)
Definition TIM_DeInit_reset (r : TIM_TypeDef) : TIM_TypeDef := mkTIM 0xFFFF 0 0.
Definition TIM_Cmd_enable (s : FunctionalState) (r : TIM_TypeDef) : TIM_TypeDef := r.

(** Twelve timers out of reset. *)
Definition timers_reset : list TIM_TypeDef := replicate NUM_PHYS_TIMER (mkTIM 0xFFFF 0 0).

End Timers.

(** ** The CAN bit rate *)

Module CAN.

Definition CAN_BAUD_COUNT : nat := 5.

(** The time quanta the tables name. *)
Inductive CAN_quanta :=
| CAN_SJW_1tq
| CAN_BS1_3tq | CAN_BS1_4tq | CAN_BS1_5tq | CAN_BS1_7tq | CAN_BS1_8tq | CAN_BS1_9tq.

Definition can_baud_bs1 : list CAN_quanta :=
  [CAN_BS1_9tq; CAN_BS1_9tq; CAN_BS1_9tq; CAN_BS1_7tq; CAN_BS1_5tq].
Definition can_baud_bs2 : list CAN_quanta :=
  [CAN_BS1_8tq; CAN_BS1_8tq; CAN_BS1_8tq; CAN_BS1_4tq; CAN_BS1_3tq].
Definition can_baud_sjw : list CAN_quanta :=
  [CAN_SJW_1tq; CAN_SJW_1tq; CAN_SJW_1tq; CAN_SJW_1tq; CAN_SJW_1tq].
Definition can_baud_pre : list Z := [20; 16; 8; 6; 4].
Definition can_baud_rate : list Z := [100000; 125000; 250000; 500000; 1000000].

Inductive CAN_Mode_t := CAN_Mode_Normal.

Record CAN_InitTypeDef := mkCAN_Init {
  CAN_TTCM : FunctionalState;
  CAN_ABOM : FunctionalState;
  CAN_AWUM : FunctionalState;
  CAN_NART : FunctionalState;
  CAN_RFLM : FunctionalState;
  CAN_TXFP : FunctionalState;
  CAN_Mode : CAN_Mode_t;
  CAN_SJW : CAN_quanta;
  CAN_BS1 : CAN_quanta;
  CAN_BS2 : CAN_quanta;
  CAN_Prescaler : Z
}.

Inductive CAN_pin := CAN_RX | CAN_TX.

(** The calls into the vendor library, in the order they are made.  The
    arguments that are constants of the file are left out. *)
Inductive vendor_call :=
| GPIO_PinAFConfig (pin : CAN_pin)
| GPIO_Init
| CAN_DeInit
| CAN_Init (s : CAN_InitTypeDef)
| CAN_FilterInit.

(** The [for] of [platform_can_setup]: "take current idx if next is too
    large". *)
Fixpoint can_baud_loop (fuel : nat) (clock : Z) (cbaudidx : nat) : option nat :=
  if (cbaudidx <? CAN_BAUD_COUNT - 1)%nat then
    match fuel with
    | O => None
    | S fuel =>
        next ← can_baud_rate !! (cbaudidx + 1)%nat;
        if clock <? next then Some cbaudidx
        else can_baud_loop fuel clock (S cbaudidx)
    end
  else Some cbaudidx.

(** [platform_can_setup]: the rate it returns and the calls it makes. *)
Definition platform_can_setup (id : nat) (clock : Z) : option (Z * list vendor_call) :=
  (* Select baud rate up to requested rate, except for below min, where min is selected *)
  peak ← can_baud_rate !! (CAN_BAUD_COUNT - 1)%nat;
  cbaudidx ← (if peak <=? clock then Some (CAN_BAUD_COUNT - 1)%nat
              else can_baud_loop (CAN_BAUD_COUNT - 1) clock 0);
  sjw ← can_baud_sjw !! cbaudidx;
  bs1 ← can_baud_bs1 !! cbaudidx;
  bs2 ← can_baud_bs2 !! cbaudidx;
  pre ← can_baud_pre !! cbaudidx;
  let CAN_InitStructure :=
    mkCAN_Init DISABLE DISABLE DISABLE DISABLE DISABLE DISABLE CAN_Mode_Normal
               sjw bs1 bs2 pre in
  rate ← can_baud_rate !! cbaudidx;
  Some (rate,
        [GPIO_PinAFConfig CAN_RX; GPIO_PinAFConfig CAN_TX; GPIO_Init;
         CAN_DeInit; CAN_Init CAN_InitStructure; CAN_FilterInit]).

End CAN.

(** ** Port input and output *)

Module PIO.

Inductive GPIO_TypeDef :=
| GPIOA | GPIOB | GPIOC | GPIOD | GPIOE | GPIOF | GPIOG | GPIOH | GPIOI.

Definition GPIO_TypeDef_eqb (a b : GPIO_TypeDef) : bool :=
  match a, b with
  | GPIOA, GPIOA | GPIOB, GPIOB | GPIOC, GPIOC | GPIOD, GPIOD | GPIOE, GPIOE
  | GPIOF, GPIOF | GPIOG, GPIOG | GPIOH, GPIOH | GPIOI, GPIOI => true
  | _, _ => false
  end.

Definition pio_port : list GPIO_TypeDef :=
  [GPIOA; GPIOB; GPIOC; GPIOD; GPIOE; GPIOF; GPIOG; GPIOH; GPIOI].

Inductive GPIOMode_TypeDef := GPIO_Mode_IN | GPIO_Mode_OUT | GPIO_Mode_AF | GPIO_Mode_AN.
Inductive GPIOSpeed_TypeDef :=
  GPIO_Speed_2MHz | GPIO_Speed_25MHz | GPIO_Speed_50MHz | GPIO_Speed_100MHz.
Inductive GPIOOType_TypeDef := GPIO_OType_PP | GPIO_OType_OD.
Inductive GPIOPuPd_TypeDef := GPIO_PuPd_NOPULL | GPIO_PuPd_UP | GPIO_PuPd_DOWN.

Record GPIO_InitTypeDef := mkGPIO_Init {
  GPIO_Pin : Z;
  GPIO_Mode : GPIOMode_TypeDef;
  GPIO_Speed : GPIOSpeed_TypeDef;
  GPIO_OType : GPIOOType_TypeDef;
  GPIO_PuPd : GPIOPuPd_TypeDef
}.

Definition set_GPIO_Pin (v : Z) (s : GPIO_InitTypeDef) : GPIO_InitTypeDef :=
  mkGPIO_Init v (GPIO_Mode s) (GPIO_Speed s) (GPIO_OType s) (GPIO_PuPd s).
Definition set_GPIO_Mode (v : GPIOMode_TypeDef) (s : GPIO_InitTypeDef) : GPIO_InitTypeDef :=
  mkGPIO_Init (GPIO_Pin s) v (GPIO_Speed s) (GPIO_OType s) (GPIO_PuPd s).
Definition set_GPIO_Speed (v : GPIOSpeed_TypeDef) (s : GPIO_InitTypeDef) : GPIO_InitTypeDef :=
  mkGPIO_Init (GPIO_Pin s) (GPIO_Mode s) v (GPIO_OType s) (GPIO_PuPd s).
Definition set_GPIO_OType (v : GPIOOType_TypeDef) (s : GPIO_InitTypeDef) : GPIO_InitTypeDef :=
  mkGPIO_Init (GPIO_Pin s) (GPIO_Mode s) (GPIO_Speed s) v (GPIO_PuPd s).
Definition set_GPIO_PuPd (v : GPIOPuPd_TypeDef) (s : GPIO_InitTypeDef) : GPIO_InitTypeDef :=
  mkGPIO_Init (GPIO_Pin s) (GPIO_Mode s) (GPIO_Speed s) (GPIO_OType s) v.

(** The operations of [platform.h], absent from the sources, that the
    [switch] names; every other value of [op] takes its [default]. *)
Inductive pio_op :=
| PLATFORM_IO_PORT_SET_VALUE
| PLATFORM_IO_PIN_SET
| PLATFORM_IO_PIN_CLEAR
| PLATFORM_IO_PORT_DIR_INPUT
| PLATFORM_IO_PIN_DIR_INPUT
| PLATFORM_IO_PORT_DIR_OUTPUT
| PLATFORM_IO_PIN_DIR_OUTPUT
| PLATFORM_IO_PORT_GET_VALUE
| PLATFORM_IO_PIN_GET
| PLATFORM_IO_PIN_PULLUP
| PLATFORM_IO_PIN_PULLDOWN
| PLATFORM_IO_PIN_NOPULL
| PLATFORM_IO_other.

(** The calls into the vendor library that write to a port, in the order
    they are made. *)
Inductive vendor_call :=
| GPIO_Write (base : GPIO_TypeDef) (PortVal : Z)
| GPIO_SetBits (base : GPIO_TypeDef) (pins : Z)
| GPIO_ResetBits (base : GPIO_TypeDef) (pins : Z)
| GPIO_Init (base : GPIO_TypeDef) (s : GPIO_InitTypeDef).

Section Functions.

(** The build: whether ELUA_BOARD_RUUVIB1 is defined.  The constants of
    the vendor header and of [platform.h], the structure that
    [GPIO_StructInit] fills in, and what the vendor library reads from a
    port: none of them is in the sources, all are parameters. *)
Variable ELUA_BOARD_RUUVIB1 : bool.
Variable GPIO_Pin_2 GPIO_Pin_All PLATFORM_IO_READ_IN_MASK : Z.
Variable GPIO_StructInit : GPIO_InitTypeDef.
Variable GPIO_ReadInputData GPIO_ReadOutputData : GPIO_TypeDef -> Z.
Variable GPIO_ReadInputDataBit : GPIO_TypeDef -> Z -> Z.

(** The two [case]s that configure outputs, from where the two labels
    meet. *)
Definition pio_dir_output (base : GPIO_TypeDef) (pinmask : Z)
    (GPIO_InitStructure : GPIO_InitTypeDef) : list vendor_call :=
  let GPIO_InitStructure := set_GPIO_Pin pinmask GPIO_InitStructure in
  let GPIO_InitStructure := set_GPIO_Mode GPIO_Mode_OUT GPIO_InitStructure in
  let GPIO_InitStructure := set_GPIO_Speed GPIO_Speed_50MHz GPIO_InitStructure in
  if ELUA_BOARD_RUUVIB1 then
    (* Force PE2 to be Open-Drain *)
    if GPIO_TypeDef_eqb base GPIOE && negb (Z.land pinmask GPIO_Pin_2 =? 0) then
      let GPIO_InitStructure := set_GPIO_OType GPIO_OType_OD GPIO_InitStructure in
      let GPIO_InitStructure := set_GPIO_Pin GPIO_Pin_2 GPIO_InitStructure in
      GPIO_Init base GPIO_InitStructure ::
      (if negb (pinmask =? GPIO_Pin_2) then
         (* Configure other pins to normal output *)
         let GPIO_InitStructure :=
           set_GPIO_Pin (Z.land pinmask (Z.lnot GPIO_Pin_2)) GPIO_InitStructure in
         let GPIO_InitStructure := set_GPIO_OType GPIO_OType_PP GPIO_InitStructure in
         [GPIO_Init base GPIO_InitStructure]
       else [])
    else [GPIO_Init base GPIO_InitStructure]
  else [GPIO_Init base GPIO_InitStructure].

(** [platform_pio_op]: its result and the calls it makes. *)
Definition platform_pio_op (port : nat) (pinmask : Z) (op : pio_op)
    : option (Z * list vendor_call) :=
  base ← pio_port !! port;
  let GPIO_InitStructure := GPIO_StructInit in
  Some (match op with
        | PLATFORM_IO_PORT_SET_VALUE => (1, [GPIO_Write base pinmask])
        | PLATFORM_IO_PIN_SET => (1, [GPIO_SetBits base pinmask])
        | PLATFORM_IO_PIN_CLEAR => (1, [GPIO_ResetBits base pinmask])
        | PLATFORM_IO_PORT_DIR_INPUT | PLATFORM_IO_PIN_DIR_INPUT =>
            let pinmask :=
              match op with PLATFORM_IO_PORT_DIR_INPUT => GPIO_Pin_All | _ => pinmask end in
            (1, [GPIO_Init base
                   (set_GPIO_Mode GPIO_Mode_IN (set_GPIO_Pin pinmask GPIO_InitStructure))])
        | PLATFORM_IO_PORT_DIR_OUTPUT | PLATFORM_IO_PIN_DIR_OUTPUT =>
            let pinmask :=
              match op with PLATFORM_IO_PORT_DIR_OUTPUT => GPIO_Pin_All | _ => pinmask end in
            (1, pio_dir_output base pinmask GPIO_InitStructure)
        | PLATFORM_IO_PORT_GET_VALUE =>
            (if pinmask =? PLATFORM_IO_READ_IN_MASK
             then GPIO_ReadInputData base else GPIO_ReadOutputData base, [])
        | PLATFORM_IO_PIN_GET => (GPIO_ReadInputDataBit base pinmask, [])
        | PLATFORM_IO_PIN_PULLUP =>
            (1, [GPIO_Init base
                   (set_GPIO_PuPd GPIO_PuPd_UP (set_GPIO_Pin pinmask GPIO_InitStructure))])
        | PLATFORM_IO_PIN_PULLDOWN =>
            (1, [GPIO_Init base
                   (set_GPIO_PuPd GPIO_PuPd_DOWN (set_GPIO_Pin pinmask GPIO_InitStructure))])
        | PLATFORM_IO_PIN_NOPULL =>
            (1, [GPIO_Init base
                   (set_GPIO_PuPd GPIO_PuPd_NOPULL (set_GPIO_Pin pinmask GPIO_InitStructure))])
        | PLATFORM_IO_other => (0, [])
        end).

End Functions.

(** A call that makes pins of port E push-pull outputs, pin 2 among
    them. *)
Definition drives_PE2 (GPIO_Pin_2 : Z) (c : vendor_call) : Prop :=
  match c with
  | GPIO_Init GPIOE s =>
      GPIO_Mode s = GPIO_Mode_OUT /\ GPIO_OType s = GPIO_OType_PP /\
      Z.land (GPIO_Pin s) GPIO_Pin_2 <> 0
  | _ => False
  end.

(** The structure as the vendor's [GPIO_StructInit] is known to fill it
    in, with its pin constants. *)
Definition GPIO_StructInit_default : GPIO_InitTypeDef :=
  mkGPIO_Init 0xFFFF GPIO_Mode_IN GPIO_Speed_2MHz GPIO_OType_PP GPIO_PuPd_NOPULL.

End PIO.

(** ** The delay *)

Module Delay.

Definition SYSTICKHZ : Z := 1000.
Definition SYSTICKMS : Z := 1000 / SYSTICKHZ.

(** [SysTick_Handler], as far as the tick counter goes: [systick++].  It
    is this handler that takes SLEEPONEXIT back, so that a sleeping loop
    goes on after it has run. *)
Definition SysTick_Handler (systick : Z) : Z := u32 (systick + 1).

(** A loop of [delay_ms].  Each turn sets SLEEPONEXIT and waits for an
    interrupt: it ends with the next run of [SysTick_Handler].  The fuel
    counts these runs, and what is left of it is returned. *)
Fixpoint delay_loop (cond : Z -> Z -> bool) (fuel : nat) (ms systick : Z)
    : option (nat * Z) :=
  if cond ms systick then
    match fuel with
    | O => None
    | S fuel => delay_loop cond fuel ms (SysTick_Handler systick)
    end
  else Some (fuel, systick).

(** [delay_ms]. *)
Definition delay_ms (fuel : nat) (ms systick : Z) : option (nat * Z) :=
  let ms := u32 (ms * SYSTICKMS) in
  let ms := u32 (ms + systick) in
  (* In case of overflow *)
  '(fuel, systick) ← delay_loop Z.ltb fuel ms systick;
  delay_loop Z.gtb fuel ms systick.

End Delay.

(** ** The interrupt of the system tick *)

Module SysTick.

Section Functions.

(** The position of the TICKINT bit in the control register, a constant
    of the core's header, which is not in the sources. *)
Variable SysTick_CTRL_TICKINT_Pos : Z.

(** [1 << SysTick_CTRL_TICKINT_Pos], a shift of [int]. *)
Definition TICKINT : option Z :=
  if (0 <=? SysTick_CTRL_TICKINT_Pos) && (SysTick_CTRL_TICKINT_Pos <? 31)
  then Some (Z.shiftl 1 SysTick_CTRL_TICKINT_Pos) else None.

(** [platform_timer_sys_disable_int] and [platform_timer_sys_enable_int],
    on the value of SysTick->CTRL. *)
Definition platform_timer_sys_disable_int (CTRL : Z) : option Z :=
  b ← TICKINT; Some (u32 (Z.land CTRL (Z.lnot b))).

Definition platform_timer_sys_enable_int (CTRL : Z) : option Z :=
  b ← TICKINT; Some (u32 (Z.lor CTRL b)).

End Functions.

End SysTick.

(** ** The clock of an SPI *)

Module SPI.

Inductive SPI_TypeDef := SPI1 | SPI2 | SPI3.
Inductive GPIO_AF_t := GPIO_AF_SPI1 | GPIO_AF_SPI2 | GPIO_AF_SPI3.

Definition spi : list SPI_TypeDef := [SPI1; SPI2; SPI3].
Definition spi_AF : list GPIO_AF_t := [GPIO_AF_SPI1; GPIO_AF_SPI2; GPIO_AF_SPI3].

(** [n] stands for SPI_BaudRatePrescaler_n, in [spi_gpio_pins_source] for
    GPIO_PinSource[n], in [spi_gpio_pins] for GPIO_Pin_[n]. *)
Definition spi_prescaler : list Z := [2; 4; 8; 16; 32; 64; 128; 256].

Definition spi_gpio_pins_source : list (nat * nat * nat) :=
  (*  SCK, MISO, MOSI *)
  [(5, 6, 7); (13, 14, 15); (10, 11, 12)]%nat.

Definition spi_gpio_pins : list (list nat) :=
  [[5; 6; 7]; [13; 14; 15]; [10; 11; 12]]%nat.

Definition spi_gpio_port : list GPIO_TypeDef := [GPIOA; GPIOB; GPIOC].

Inductive SPI_Mode_t := SPI_Mode_Master | SPI_Mode_Slave.
Inductive SPI_DataSize_t := SPI_DataSize_16b | SPI_DataSize_8b.
Inductive SPI_CPOL_t := SPI_CPOL_High | SPI_CPOL_Low.
Inductive SPI_CPHA_t := SPI_CPHA_2Edge | SPI_CPHA_1Edge.

(** The members of the init structure that depend on the arguments. *)
Record SPI_InitTypeDef := mkSPI_Init {
  SPI_Mode : SPI_Mode_t;
  SPI_DataSize : SPI_DataSize_t;
  SPI_CPOL : SPI_CPOL_t;
  SPI_CPHA : SPI_CPHA_t;
  SPI_BaudRatePrescaler : Z
}.

(** The calls into the vendor library, in the order they are made. *)
Inductive vendor_call :=
| GPIO_PinAFConfig (port : GPIO_TypeDef) (source : nat) (af : GPIO_AF_t)
| GPIO_Init (port : GPIO_TypeDef) (pins : list nat)
| SPI_I2S_DeInit (s : SPI_TypeDef)
| SPI_Cmd (s : SPI_TypeDef) (state : FunctionalState)
| SPI_Init (s : SPI_TypeDef) (i : SPI_InitTypeDef).

Definition u8 (x : Z) : Z := x mod 2 ^ 8.

Section Functions.

(** The clocks of [platform_conf.h] and [intlog2] of the common code:
    none of them is in the sources, all are parameters. *)
Variable HCLK PCLK1_DIV PCLK2_DIV : Z.
Variable intlog2 : Z -> Z.

Definition SPI_GET_BASE_CLK (id : nat) : option Z :=
  if (id =? 0)%nat then udiv HCLK PCLK2_DIV else udiv HCLK PCLK1_DIV.

(** [platform_spi_setup]: the clock it returns and the calls it makes. *)
Definition platform_spi_setup (id : nat) (mode clock cpol cpha databits : Z)
    : option (Z * list vendor_call) :=
  base ← SPI_GET_BASE_CLK id;
  q ← udiv base clock;
  let prescaler_idx := u8 (intlog2 (u32 q)) in
  let prescaler_idx := if prescaler_idx <? 0 then 0 else prescaler_idx in
  let prescaler_idx := if 7 <? prescaler_idx then 7 else prescaler_idx in
  (* Connect pin to SPI *)
  port ← spi_gpio_port !! id;
  '(sck, miso, mosi) ← spi_gpio_pins_source !! id;
  af ← spi_AF !! id;
  (* Configure SPI pins *)
  pins ← spi_gpio_pins !! id;
  s ← spi !! id;
  (* Take down, then reconfigure SPI peripheral *)
  prescaler ← spi_prescaler !! Z.to_nat prescaler_idx;
  let SPI_InitStructure :=
    mkSPI_Init (if mode =? 0 then SPI_Mode_Slave else SPI_Mode_Master)
               (if databits =? 16 then SPI_DataSize_16b else SPI_DataSize_8b)
               (if cpol =? 0 then SPI_CPOL_Low else SPI_CPOL_High)
               (if cpha =? 0 then SPI_CPHA_1Edge else SPI_CPHA_2Edge)
               prescaler in
  r ← udiv base (Z.shiftl 2 prescaler_idx);
  Some (r,
        [GPIO_PinAFConfig port sck af; GPIO_PinAFConfig port miso af;
         GPIO_PinAFConfig port mosi af; GPIO_Init port pins;
         SPI_I2S_DeInit s; SPI_Cmd s DISABLE; SPI_Init s SPI_InitStructure;
         SPI_Cmd s ENABLE]).

End Functions.

(** [intlog2] as the floor of the binary logarithm. *)
Definition is_floor_log2 (intlog2 : Z -> Z) : Prop :=
  forall v, 0 < v -> 0 <= intlog2 v /\ 2 ^ intlog2 v <= v < 2 ^ (intlog2 v + 1).

End SPI.


(** * Properties *)

(** ** The trigger edge and the software start bit *)

Lemma trigger_edge_cleared x : Z.land (Z.land x CR2_EXTEN_RESET) CR2_EXTEN = 0.
Proof.
  rewrite <- Z.land_assoc.
  change (Z.land CR2_EXTEN_RESET CR2_EXTEN) with 0.
  apply Z.land_0_r.
Qed.

Lemma trigger_edge_ExternalTrigConvCmd edge h :
  trigger_edge (ADC_ExternalTrigConvCmd edge h) = Z.land edge CR2_EXTEN.
Proof.
  unfold trigger_edge, ADC_ExternalTrigConvCmd, set_ADC_CR2; cbn [ADC_CR2].
  now rewrite Z.land_lor_distr_l, trigger_edge_cleared.
Qed.

Lemma trigger_edge_TRIG_CFG n h :
  trigger_edge (ADC_TRIG_CFG n h) =
  match n with
  | ENABLE => ADC_ExternalTrigConvEdge_Rising
  | DISABLE => ADC_ExternalTrigConvEdge_None
  end.
Proof.
  unfold ADC_TRIG_CFG; rewrite trigger_edge_ExternalTrigConvCmd; now destruct n.
Qed.



Lemma software_start_SoftwareStart h :
  software_start (ADC_SoftwareStartConvCmd ENABLE h) = true.
Proof.
  unfold software_start, ADC_SoftwareStartConvCmd, set_ADC_CR2; cbn [ADC_CR2].
  rewrite Z.lor_spec.
  change (Z.testbit ADC_CR2_SWSTART 30) with true.
  apply orb_true_r.
Qed.

(** ** The active-channel mask *)

Lemma testbit_one_shiftl (i j : nat) :
  Z.testbit (Z.shiftl 1 (Z.of_nat i)) (Z.of_nat j) = bool_decide (i = j).
Proof.
  rewrite Z.shiftl_spec by lia.
  case_bool_decide as E.
  - subst; now rewrite Z.sub_diag.
  - destruct (Z.ltb_spec (Z.of_nat j) (Z.of_nat i)).
    + apply Z.testbit_neg_r; lia.
    + rewrite Z.bits_above_log2; simpl; try lia.
Qed.

Lemma ACTIVE_after_INACTIVATE id j d :
  ACTIVE_CHANNEL (INACTIVATE_CHANNEL id d) j =
  ACTIVE_CHANNEL d j && negb (bool_decide (id = j)).
Proof.
  unfold ACTIVE_CHANNEL, INACTIVATE_CHANNEL; simpl.
  now rewrite Z.ldiff_spec, testbit_one_shiftl.
Qed.

Lemma ACTIVE_after_ACTIVATE id j d :
  ACTIVE_CHANNEL (ACTIVATE_CHANNEL id d) j =
  ACTIVE_CHANNEL d j || bool_decide (id = j).
Proof.
  unfold ACTIVE_CHANNEL, ACTIVATE_CHANNEL; simpl.
  now rewrite Z.lor_spec, testbit_one_shiftl.
Qed.

Lemma ACTIVE_nonzero d j : ACTIVE_CHANNEL d j = true -> ch_active d <> 0.
Proof.
  unfold ACTIVE_CHANNEL; intros H E; rewrite E, Z.bits_0 in H; discriminate.
Qed.

Lemma last_channel_mask id d :
  (forall j, j <> id -> ACTIVE_CHANNEL d j = false) ->
  ch_active (INACTIVATE_CHANNEL id d) = 0.
Proof.
  intros H. apply Z.bits_inj'. intros n Hn.
  rewrite Z.bits_0, <- (Z2Nat.id n) by lia.
  change (ACTIVE_CHANNEL (INACTIVATE_CHANNEL id d) (Z.to_nat n) = false).
  rewrite ACTIVE_after_INACTIVATE.
  case_bool_decide as E; simpl.
  - apply andb_false_r.
  - rewrite H by congruence. reflexivity.
Qed.

(** ** [platform_adc_stop] *)

Lemma platform_adc_stop_eq id st s :
  adc_get_ch_state id st = Some s ->
  platform_adc_stop id st =
  Some (let st1 := on_dev (INACTIVATE_CHANNEL id) (ch_store id (set_op_pending false s) st) in
        if ch_active (dev st1) =? 0 then
          on_dev (set_running false)
            (on_hw (NVIC_Init DISABLE)
               (set_nvic_init_structure_adc DISABLE (on_hw (ADC_TRIG_CFG DISABLE) st1)))
        else st1).
Proof.
  intros H. unfold platform_adc_stop. rewrite H. simpl.
  now destruct (_ =? 0).
Qed.

Lemma lookup_ch_store_eq p s st s0 :
  chans st !! p = Some s0 -> chans (ch_store p s st) !! p = Some s.
Proof.
  intros H. unfold ch_store; simpl.
  apply list_lookup_insert_eq. now apply lookup_lt_Some in H.
Qed.

Lemma lookup_ch_store_ne p q s st :
  p <> q -> chans (ch_store p s st) !! q = chans st !! q.
Proof. intros H. unfold ch_store; simpl. now apply list_lookup_insert_ne. Qed.

(** C5.  For every channel id of the table, [platform_adc_stop] marks the
    channel inactive and clears its [op_pending], and that is all it does
    to the channels: the other members of the stopped record, every other
    record and the bit of every other channel in the active mask are as
    before, and so are the scan list, the scratch buffer, the clocking and
    the two init structures.  If no other channel is active (it was the
    last one), the hardware trigger and the completion interrupt are
    disabled and [running] is false, the only registers written being the
    trigger edge of CR2 and the interrupt line.  If another channel is
    active, [running], the registers and the interrupt enable are as
    before. *)
Theorem platform_adc_stop_last_channel (id : nat) (st : adc_system) (s : elua_adc_ch_state) :
  adc_get_ch_state id st = Some s ->
  exists st',
    platform_adc_stop id st = Some st' /\
    ACTIVE_CHANNEL (dev st') id = false /\
    op_pending <$> adc_get_ch_state id st' = Some false /\
    ((forall j, j <> id -> ACTIVE_CHANNEL (dev st) j = false) ->
     trigger_edge (hw st') = ADC_ExternalTrigConvEdge_None /\
     NVIC_ADC_IRQ (hw st') = false /\
     running (dev st') = false) /\
    (* the channels *)
    chans st' = <[id := set_op_pending false s]> (chans st) /\
    (forall j, j <> id -> ACTIVE_CHANNEL (dev st') j = ACTIVE_CHANNEL (dev st) j) /\
    (* what is left of the device and the init structures *)
    ch_state (dev st') = ch_state (dev st) /\
    seq_len (dev st') = seq_len (dev st) /\
    seq_ctr (dev st') = seq_ctr (dev st) /\
    sample_buf (dev st') = sample_buf (dev st) /\
    clocked (dev st') = clocked (dev st) /\
    timer_id (dev st') = timer_id (dev st) /\
    adc_init_struct st' = adc_init_struct st /\
    dma_init_struct st' = dma_init_struct st /\
    (* the last channel: nothing but the trigger edge and the interrupt *)
    ((forall j, j <> id -> ACTIVE_CHANNEL (dev st) j = false) ->
     nvic_init_structure_adc st' = DISABLE /\
     hw st' = set_NVIC_ADC_IRQ false
                (set_ADC_CR2 (Z.land (ADC_CR2 (hw st)) CR2_EXTEN_RESET) (hw st))) /\
    (* not the last channel *)
    (forall j, j <> id -> ACTIVE_CHANNEL (dev st) j = true ->
     running (dev st') = running (dev st) /\
     hw st' = hw st /\
     nvic_init_structure_adc st' = nvic_init_structure_adc st).
Proof.
  intros Hs. rewrite (platform_adc_stop_eq _ _ _ Hs).
  eexists; split; [reflexivity|]. cbv zeta.
  remember (on_dev (INACTIVATE_CHANNEL id) (ch_store id (set_op_pending false s) st)) as st1 eqn:E1.
  assert (A1 : ACTIVE_CHANNEL (dev st1) id = false).
  { subst st1; simpl. rewrite ACTIVE_after_INACTIVATE.
    rewrite bool_decide_eq_true_2 by reflexivity. apply andb_false_r. }
  assert (A2 : op_pending <$> adc_get_ch_state id st1 = Some false).
  { subst st1; unfold adc_get_ch_state; simpl.
    change (<[id:=set_op_pending false s]> (chans st)) with
      (chans (ch_store id (set_op_pending false s) st)).
    now rewrite (lookup_ch_store_eq _ _ _ _ Hs). }
  assert (A3 : (forall j, j <> id -> ACTIVE_CHANNEL (dev st) j = false) ->
               ch_active (dev st1) = 0).
  { intros H. subst st1; simpl. now apply last_channel_mask. }
  assert (A4 : forall j, j <> id -> ACTIVE_CHANNEL (dev st) j = true ->
               ch_active (dev st1) <> 0).
  { intros j Hj Hact. apply (ACTIVE_nonzero _ j). subst st1.
    change (ACTIVE_CHANNEL (INACTIVATE_CHANNEL id (dev st)) j = true).
    rewrite ACTIVE_after_INACTIVATE, Hact.
    now rewrite bool_decide_eq_false_2 by congruence. }
  assert (A5 : forall j, j <> id -> ACTIVE_CHANNEL (dev st1) j = ACTIVE_CHANNEL (dev st) j).
  { intros j Hj. subst st1.
    change (ACTIVE_CHANNEL (INACTIVATE_CHANNEL id (dev st)) j = ACTIVE_CHANNEL (dev st) j).
    rewrite ACTIVE_after_INACTIVATE, bool_decide_eq_false_2 by congruence.
    apply andb_true_r. }
  assert (F1 : chans st1 = <[id := set_op_pending false s]> (chans st) /\
               ch_state (dev st1) = ch_state (dev st) /\
               seq_len (dev st1) = seq_len (dev st) /\
               seq_ctr (dev st1) = seq_ctr (dev st) /\
               sample_buf (dev st1) = sample_buf (dev st) /\
               clocked (dev st1) = clocked (dev st) /\
               timer_id (dev st1) = timer_id (dev st) /\
               adc_init_struct st1 = adc_init_struct st /\
               dma_init_struct st1 = dma_init_struct st /\
               running (dev st1) = running (dev st) /\
               hw st1 = hw st /\
               nvic_init_structure_adc st1 = nvic_init_structure_adc st).
  { subst st1. now repeat split. }
  clear E1.
  destruct F1 as (Fc & Fs & Fl & Fq & Fb & Fk & Ft & Fa & Fd & Fr & Fh & Fn).
  destruct (Z.eqb_spec (ch_active (dev st1)) 0) as [E|E].
  - split; [exact A1|]. split; [exact A2|]. split.
    { intros _. split; [apply (trigger_edge_TRIG_CFG DISABLE)|]. now split. }
    split; [exact Fc|]. split; [exact A5|].
    split; [exact Fs|]. split; [exact Fl|]. split; [exact Fq|]. split; [exact Fb|].
    split; [exact Fk|]. split; [exact Ft|]. split; [exact Fa|]. split; [exact Fd|].
    split.
    { intros _. split; [reflexivity|].
      cbn [hw on_dev on_hw set_dev set_hw set_nvic_init_structure_adc].
      rewrite Fh. unfold NVIC_Init, ADC_TRIG_CFG, ADC_ExternalTrigConvCmd. cbv zeta.
      cbn [of_FunctionalState]. f_equal. f_equal.
      apply Z.lor_0_r. }
    intros j Hj Hact. exfalso. exact (A4 j Hj Hact E).
  - split; [exact A1|]. split; [exact A2|]. split.
    { intros H. exfalso. exact (E (A3 H)). }
    split; [exact Fc|]. split; [exact A5|].
    split; [exact Fs|]. split; [exact Fl|]. split; [exact Fq|]. split; [exact Fb|].
    split; [exact Fk|]. split; [exact Ft|]. split; [exact Fa|]. split; [exact Fd|].
    split.
    { intros H. exfalso. exact (E (A3 H)). }
    intros j Hj Hact. exact (conj Fr (conj Fh Fn)).
Qed.


(** ** [platform_adc_update_sequence] *)

Lemma update_sequence_body_eq st st' :
  update_sequence_body st = Some st' ->
  exists port pin ch,
    st' = on_dev (set_seq_ctr (S (seq_ctr (dev st))))
            (on_hw (ADC_RegularChannelConfig ch (S (seq_ctr (dev st))))
               (on_hw (GPIO_Init port pin) st)).
Proof.
  unfold update_sequence_body. intros H.
  destruct (ch_state (dev st) !! seq_ctr (dev st)) as [p|]; [|discriminate].
  simpl in H. destruct (chans st !! p) as [s|]; [|discriminate].
  simpl in H. destruct (adc_gpio_pins !! ch_id s) as [pin|]; [|discriminate].
  simpl in H. destruct (adc_gpio_port !! ch_id s) as [port|]; [|discriminate].
  simpl in H. injection H as <-. now exists port, pin, (ch_id s).
Qed.

Lemma update_sequence_loop_frame fuel : forall st st',
  update_sequence_loop fuel st = Some st' ->
  exists n gp sq,
    st' = on_dev (set_seq_ctr n) (on_hw (fun h => set_ADC_SQR sq (set_GPIO_AN gp h)) st).
Proof.
  induction fuel as [|fuel IH]; intros st st' H; simpl in H.
  - destruct (_ <? _)%nat; [discriminate|]. injection H as <-.
    exists (seq_ctr (dev st)), (GPIO_AN (hw st)), (ADC_SQR (hw st)).
    now destruct st as [[] ? ? ? ? []].
  - destruct (_ <? _)%nat.
    + destruct (update_sequence_body st) as [st1|] eqn:B; [|discriminate].
      simpl in H. apply IH in H as (n & gp & sq & ->).
      apply update_sequence_body_eq in B as (port & pin & ch & ->).
      eexists n, gp, sq. now destruct st as [[] ? ? ? ? []].
    + injection H as <-.
      exists (seq_ctr (dev st)), (GPIO_AN (hw st)), (ADC_SQR (hw st)).
      now destruct st as [[] ? ? ? ? []].
Qed.

Lemma update_sequence_body_ok st :
  scan_list_ok st -> (seq_ctr (dev st) < seq_len (dev st))%nat ->
  exists st', update_sequence_body st = Some st' /\ scan_list_ok st' /\
              seq_ctr (dev st') = S (seq_ctr (dev st)) /\
              seq_len (dev st') = seq_len (dev st).
Proof.
  intros Hok Hlt. destruct (Hok _ Hlt) as (p & s & Hp & Hs & Hid).
  unfold update_sequence_body. rewrite Hp; simpl. rewrite Hs; simpl.
  destruct (lookup_lt_is_Some_2 adc_gpio_pins (ch_id s)) as [pin ->]; [exact Hid|].
  destruct (lookup_lt_is_Some_2 adc_gpio_port (ch_id s)) as [port ->]; [exact Hid|].
  simpl. eexists; split; [reflexivity|]. split; [|split; reflexivity].
  intros i Hi. exact (Hok i Hi).
Qed.

Lemma update_sequence_loop_ok fuel : forall st,
  scan_list_ok st ->
  (seq_len (dev st) <= fuel + seq_ctr (dev st))%nat ->
  exists st', update_sequence_loop fuel st = Some st'.
Proof.
  induction fuel as [|fuel IH]; intros st Hok Hf; simpl.
  - destruct (Nat.ltb_spec (seq_ctr (dev st)) (seq_len (dev st))); [lia|eauto].
  - destruct (Nat.ltb_spec (seq_ctr (dev st)) (seq_len (dev st))); [|eauto].
    destruct (update_sequence_body_ok st Hok) as (st1 & -> & Hok1 & Hc & Hl); [assumption|].
    simpl. apply IH; [assumption|lia].
Qed.

Lemma platform_adc_update_sequence_frame st r :
  platform_adc_update_sequence st = Some r ->
  exists gp sq, r = (PLATFORM_OK, update_sequence_result gp sq st).
Proof.
  unfold platform_adc_update_sequence. intros H.
  destruct (update_sequence_loop _ _) as [st1|] eqn:L; [|discriminate].
  apply update_sequence_loop_frame in L as (n & gp & sq & ->).
  simpl in H. injection H as <-. exists gp, sq.
  unfold update_sequence_result. simpl.
  destruct (clocked (dev st) && running (dev st)); reflexivity.
Qed.

Lemma platform_adc_update_sequence_ok st :
  scan_list_ok st ->
  exists gp sq,
    platform_adc_update_sequence st = Some (PLATFORM_OK, update_sequence_result gp sq st).
Proof.
  intros Hok.
  destruct (platform_adc_update_sequence st) as [r|] eqn:E.
  - apply platform_adc_update_sequence_frame in E as (gp & sq & ->). eauto.
  - exfalso. unfold platform_adc_update_sequence in E.
    edestruct (update_sequence_loop_ok (seq_len (dev st))) as [st1 L];
      [| |rewrite L in E; discriminate].
    + intros i Hi. exact (Hok i Hi).
    + simpl. lia.
Qed.

Lemma update_sequence_empty st :
  seq_len (dev st) = 0%nat ->
  platform_adc_update_sequence st =
  Some (PLATFORM_OK, update_sequence_result (GPIO_AN (hw st)) [] st).
Proof.
  intros H0. unfold platform_adc_update_sequence.
  assert (L : forall st1, seq_len (dev st1) = 0%nat ->
                update_sequence_loop (seq_len (dev st1)) st1 = Some st1).
  { intros st1 E. rewrite E. simpl. now rewrite E. }
  rewrite L by exact H0. simpl. unfold update_sequence_result.
  destruct (clocked (dev st) && running (dev st)); reflexivity.
Qed.


Lemma irq_frame_refl st : irq_frame st st.
Proof. now repeat split. Qed.

Lemma irq_frame_trans st1 st2 st3 :
  irq_frame st1 st2 -> irq_frame st2 st3 -> irq_frame st1 st3.
Proof.
  unfold irq_frame. intros (?&?&?&?&?&?&?&?) (?&?&?&?&?&?&?&?).
  repeat split; congruence.
Qed.

Lemma irq_frame_ch_store p s st : irq_frame st (ch_store p s st).
Proof. repeat split. unfold ch_store; simpl. apply length_insert. Qed.

Lemma irq_frame_ch_update p f st st' : ch_update p f st = Some st' -> irq_frame st st'.
Proof.
  unfold ch_update. destruct (chans st !! p); [|discriminate].
  simpl. intros [= <-]. apply irq_frame_ch_store.
Qed.

Lemma irq_frame_stop id st st' : platform_adc_stop id st = Some st' -> irq_frame st st'.
Proof.
  unfold platform_adc_stop. destruct (adc_get_ch_state id st); [|discriminate].
  simpl. destruct (_ =? 0); intros [= <-];
    (repeat split; simpl; apply length_insert).
Qed.

Lemma irq_frame_seq_ctr n st : irq_frame st (on_dev (set_seq_ctr n) st).
Proof. now repeat split. Qed.

Lemma irq_frame_body BUF st st' : irq_body BUF st = Some st' -> irq_frame st st'.
Proof.
  unfold irq_body. intros H.
  destruct (ch_state (dev st) !! seq_ctr (dev st)) as [p|]; [|discriminate]. simpl in H.
  destruct (ch_update p (set_value_fresh true) st) as [st1|] eqn:E1; [|discriminate].
  simpl in H. apply irq_frame_ch_update in E1.
  destruct (chans st1 !! p) as [s1|]; [|discriminate]. simpl in H.
  match type of H with (?m ≫= _) = _ => destruct m as [st2|] eqn:E2; [|discriminate] end.
  simpl in H.
  assert (F2 : irq_frame st1 st2).
  { match type of E2 with (if ?c then _ else _) = _ => destruct c end.
    - unfold adc_smooth_data in E2. destruct (adc_get_ch_state _ _); [|discriminate].
      simpl in E2. destruct (_ !! _); [|discriminate]. injection E2 as <-.
      apply irq_frame_ch_store.
    - match type of E2 with (if ?c then _ else _) = _ => destruct c end;
        [|injection E2 as <-; apply irq_frame_refl].
      destruct (buf_write _ _ _) as [st1'|] eqn:E3; [|discriminate]. simpl in E2.
      unfold buf_write in E3. destruct (_ !! _); [|discriminate]. simpl in E3.
      eapply irq_frame_trans; eapply irq_frame_ch_update; eassumption. }
  destruct (chans st2 !! p) as [s2|]; [|discriminate]. simpl in H.
  destruct (adc_samples_available (ch_id s2) st2) as [[n st3]|] eqn:E3; [|discriminate].
  simpl in H.
  assert (F3 : irq_frame st2 st3).
  { unfold adc_samples_available in E3. destruct (adc_get_ch_state _ _); [|discriminate].
    injection E3 as <- <-. apply irq_frame_ch_store. }
  destruct (chans st3 !! p) as [s3|]; [|discriminate]. simpl in H.
  match type of H with (?m ≫= _) = _ => destruct m as [st4|] eqn:E4; [|discriminate] end.
  simpl in H. injection H as <-.
  assert (F4 : irq_frame st3 st4).
  { match type of E4 with (if ?c then _ else _) = _ => destruct c end;
      [eapply irq_frame_stop; eassumption|].
    injection E4 as <-. apply irq_frame_refl. }
  eauto using irq_frame_trans, irq_frame_seq_ctr.
Qed.

Lemma irq_frame_loop BUF fuel : forall st st',
  irq_loop BUF fuel st = Some st' -> irq_frame st st'.
Proof.
  induction fuel as [|fuel IH]; intros st st' H; simpl in H.
  - destruct (_ <? _)%nat; [discriminate|]. injection H as <-. apply irq_frame_refl.
  - destruct (_ <? _)%nat; [|injection H as <-; apply irq_frame_refl].
    destruct (irq_body BUF st) as [st1|] eqn:B; [|discriminate].
    eauto using irq_frame_trans, irq_frame_body.
Qed.

(** ** [platform_adc_start_sequence] on a running device *)

Lemma start_sequence_running_again st :
  running (dev st) = true ->
  platform_adc_start_sequence st = Some (PLATFORM_OK, st).
Proof. intros H. unfold platform_adc_start_sequence. now rewrite H. Qed.

(** C9.  If the device is already running, [platform_adc_start_sequence]
    returns PLATFORM_OK and leaves the whole state (device, channels, init
    structures, registers) as it was. *)
Theorem start_sequence_running_noop (st : adc_system) :
  running (dev st) = true ->
  platform_adc_start_sequence st = Some (PLATFORM_OK, st).
Proof.
  intros H. unfold platform_adc_start_sequence. now rewrite H.
Qed.

(** On the device that samples channel 2, a second start changes nothing. *)
Lemma start_sequence_running_noop_witness :
  running (dev st_channel2) = true /\
  platform_adc_start_sequence st_channel2 = Some (PLATFORM_OK, st_channel2).
Proof.
  split; [vm_compute; reflexivity|].
  apply (start_sequence_running_noop st_channel2). vm_compute; reflexivity.
Defined.

(** ** Rebuilding with an empty scan list *)

(** After initialisation no channel is active: a rebuild there switches the
    converter and the stream on, programmed for length zero. *)
Lemma rebuild_empty_counterexample :
  seq_len (dev st_idle) = 0%nat /\
  exists st',
    platform_adc_update_sequence st_idle = Some (PLATFORM_OK, st') /\
    ~ fully_disabled (hw st') /\
    zero_length_programmed (hw st').
Proof.
  split; [vm_compute; reflexivity|].
  eexists; split; [vm_compute; reflexivity|].
  split; [|split; vm_compute; reflexivity].
  intros (H & _). vm_compute in H. discriminate H.
Qed.

(** C6, amended.  With a scan list of length zero,
    [platform_adc_update_sequence] programs a scan of zero conversions and
    a DMA transfer of length zero and switches the converter and the DMA
    stream on again; no channel gets a rank; in software-triggered mode the
    hardware trigger stays disabled. *)
Theorem rebuild_empty_programs_zero_length (st : adc_system) :
  seq_len (dev st) = 0%nat ->
  exists st',
    platform_adc_update_sequence st = Some (PLATFORM_OK, st') /\
    zero_length_programmed (hw st') /\
    ADC_ADON (hw st') = true /\
    DMA_EN (hw st') = true /\
    ADC_SQR (hw st') = [] /\
    (software_triggered st -> trigger_edge (hw st') = ADC_ExternalTrigConvEdge_None).
Proof.
  intros H0. rewrite (update_sequence_empty _ H0).
  eexists; split; [reflexivity|].
  unfold zero_length_programmed, update_sequence_result.
  rewrite H0.
  destruct (clocked (dev st)) eqn:C; destruct (running (dev st)) eqn:R; simpl;
    repeat split; try reflexivity; intros [Hc He]; try congruence;
    unfold trigger_edge; simpl; rewrite He; reflexivity.
Qed.

(** The same on the state after initialisation. *)
Lemma rebuild_empty_programs_zero_length_witness :
  seq_len (dev st_idle) = 0%nat /\
  exists st',
    platform_adc_update_sequence st_idle = Some (PLATFORM_OK, st') /\
    zero_length_programmed (hw st') /\
    ADC_ADON (hw st') = true /\
    DMA_EN (hw st') = true /\
    ADC_SQR (hw st') = [] /\
    (software_triggered st_idle -> trigger_edge (hw st') = ADC_ExternalTrigConvEdge_None).
Proof.
  split; [vm_compute; reflexivity|].
  apply (rebuild_empty_programs_zero_length st_idle). vm_compute; reflexivity.
Defined.

(** ** The DMA engine after a rebuild *)

Lemma set_clock_dma_init_struct HCLK id f st r :
  platform_adc_set_clock HCLK id f st = Some r ->
  dma_init_struct (snd r) = dma_init_struct st.
Proof.
  unfold platform_adc_set_clock. intros H.
  match type of H with (?m ≫= _) = _ => destruct m as [[f1 st1]|] eqn:E; [|discriminate] end.
  opt_step in H. injection H as <-. cbn [snd].
  change (dma_init_struct st1 = dma_init_struct st).
  destruct (0 <? f).
  - destruct (adc_timer !! _) as [trig|]; [|discriminate]. opt_step in E.
    destruct (adc_clock_divide _ _ _) as [[period prescaler]|]; [|discriminate].
    opt_step in E.
    destruct (udiv _ _) as [f2|]; [|discriminate]. opt_step in E.
    destruct (udiv f2 period) as [f3|]; [|discriminate]. opt_step in E.
    now injection E as <- <-.
  - now injection E as <- <-.
Qed.

Lemma adcs_init_dma_template HCLK st st' :
  adcs_init HCLK st = Some st' -> dma_template_ok st'.
Proof.
  unfold adcs_init. intros H.
  destruct (adc_init_ch_states _ _) as [st1|]; [|discriminate].
  opt_step in H.
  match type of H with (_ <$> ?m) = _ => destruct m as [r|] eqn:E; [|discriminate] end.
  injection H as <-. apply set_clock_dma_init_struct in E.
  unfold dma_template_ok. rewrite E. now split.
Qed.

(** C7.  Whenever [platform_adc_update_sequence] runs through (the pointers
    of the scan list are good) on the DMA template of [adcs_init], the
    stream ends up enabled with buffer length [seq_len], the sample buffer
    as memory target, circular mode and peripheral-to-memory direction,
    and with no completion flag pending, whatever was pending before. *)
Theorem rebuild_reconfigures_dma (st : adc_system) :
  scan_list_ok st ->
  dma_template_ok st ->
  exists st',
    platform_adc_update_sequence st = Some (PLATFORM_OK, st') /\
    DMA_regs (hw st') =
      Some (mkDMA_Init DMA_Memory_sample_buf DMA_DIR_PeripheralToMemory
                       (Z.of_nat (seq_len (dev st))) DMA_Mode_Circular) /\
    DMA_TCIF (hw st') = false /\
    DMA_EN (hw st') = true /\
    dma_template_ok st'.
Proof.
  intros Hok [Hd Hm].
  destruct (platform_adc_update_sequence_ok st Hok) as (gp & sq & ->).
  eexists; split; [reflexivity|].
  unfold update_sequence_result, dma_template_ok. simpl.
  destruct (clocked (dev st) && running (dev st)); simpl; rewrite Hd, Hm; now repeat split.
Qed.

Lemma scan_list_ok_st_channel2_stale : scan_list_ok st_channel2_stale.
Proof.
  intros i Hi.
  assert (E : seq_len (dev st_channel2_stale) = 1%nat) by reflexivity.
  rewrite E in Hi. assert (i = 0%nat) as -> by lia.
  exists 2%nat. eexists. split; [reflexivity|].
  split; [reflexivity|]. vm_compute. lia.
Qed.

(** With channel 2 in the scan list and a completion flag pending: the stream
    is reprogrammed for one sample and the flag is gone. *)
Lemma rebuild_reconfigures_dma_witness :
  scan_list_ok st_channel2_stale /\
  DMA_TCIF (hw st_channel2_stale) = true /\
  exists st',
    platform_adc_update_sequence st_channel2_stale = Some (PLATFORM_OK, st') /\
    DMA_regs (hw st') =
      Some (mkDMA_Init DMA_Memory_sample_buf DMA_DIR_PeripheralToMemory 1 DMA_Mode_Circular) /\
    DMA_TCIF (hw st') = false /\
    DMA_EN (hw st') = true /\
    dma_template_ok st'.
Proof.
  split; [exact scan_list_ok_st_channel2_stale|]. split; [reflexivity|].
  apply (rebuild_reconfigures_dma st_channel2_stale).
  - exact scan_list_ok_st_channel2_stale.
  - split; reflexivity.
Defined.

(** ** Software-triggered mode *)

Lemma set_clock_zero_eq HCLK id st :
  platform_adc_set_clock HCLK id 0 st =
  Some (0,
        let st := on_dev (set_clocked false) (on_hw (ADC_TRIG_CFG DISABLE) st) in
        let st := set_adc_init_struct
                    (let i := adc_init_struct st in
                     mkADC_Init (ADC_ScanConvMode i) (ADC_ContinuousConvMode i)
                                (ADC_ExternalTrigConv i) ADC_ExternalTrigConvEdge_None
                                (ADC_NbrOfConversion i)) st in
        on_hw (ADC_Init (adc_init_struct st)) st).
Proof. reflexivity. Qed.




Lemma update_dev_sequence_frame st r :
  adc_update_dev_sequence st = Some r ->
  exists gp sq, r = (PLATFORM_OK, update_sequence_result gp sq (adc_rebuild_scan_list st)).
Proof. apply platform_adc_update_sequence_frame. Qed.




Lemma start_sequence_idle st r :
  running (dev st) = false ->
  platform_adc_start_sequence st = Some r ->
  exists gp sq,
    r = (PLATFORM_OK, start_arm (update_sequence_result gp sq (adc_rebuild_scan_list st))).
Proof.
  intros R H. unfold platform_adc_start_sequence in H. rewrite R in H.
  destruct (adc_update_dev_sequence st) as [u|] eqn:U; [|discriminate].
  apply update_dev_sequence_frame in U as (gp & sq & ->).
  injection H as <-. now exists gp, sq.
Qed.



(** ** [platform_adc_set_clock] with a timer *)

Lemma clock_divide_bounds HCLK f :
  0 < HCLK < 2 ^ 32 -> 0 < f <= HCLK ->
  let period0 := HCLK / f in
  let prescaler := period0 / 0x10000 + 1 in
  let period := period0 / prescaler in
  1 <= period0 < 2 ^ 32 /\ 1 <= prescaler <= 0x10000 /\ 1 <= period < 0x10000.
Proof.
  intros HH Hf period0 prescaler period.
  assert (P0 : 1 <= period0 < 2 ^ 32).
  { subst period0. split.
    - apply Z.div_le_lower_bound; lia.
    - apply Z.div_lt_upper_bound; nia. }
  assert (Q : 0 <= period0 / 0x10000 < 0x10000).
  { split; [apply Z.div_pos; lia|apply Z.div_lt_upper_bound; lia]. }
  assert (Q' : 0x10000 * (period0 / 0x10000) <= period0 < 0x10000 * (period0 / 0x10000 + 1)).
  { pose proof (Z.mul_div_le period0 0x10000).
    pose proof (Z.mul_succ_div_gt period0 0x10000). lia. }
  split; [exact P0|]. split; [subst prescaler; lia|].
  subst period. split.
  - apply Z.div_le_lower_bound; subst prescaler; lia.
  - apply Z.div_lt_upper_bound; subst prescaler; lia.
Qed.


Lemma adc_clock_divide_eq HCLK id f :
  0 < HCLK < 2 ^ 32 -> 0 < f <= HCLK ->
  adc_clock_divide HCLK id f =
  Some (HCLK / f / (HCLK / f / 0x10000 + 1), HCLK / f / 0x10000 + 1).
Proof.
  intros HH Hf.
  destruct (clock_divide_bounds HCLK f HH Hf) as (P0 & Q & P).
  unfold adc_clock_divide, TIM_GET_BASE_CLK, udiv.
  destruct (Z.eqb_spec f 0); [lia|]. opt_step.
  assert (E : u32 (HCLK / f / 65536 + 1) = HCLK / f / 65536 + 1).
  { unfold u32. apply Z.mod_small. lia. }
  rewrite E.
  destruct (Z.eqb_spec (HCLK / f / 65536 + 1) 0); [lia|]. reflexivity.
Qed.

Lemma adc_clock_divide_above HCLK id f :
  0 <= HCLK < f -> adc_clock_divide HCLK id f = Some (0, 1).
Proof.
  intros H. unfold adc_clock_divide, TIM_GET_BASE_CLK, udiv.
  destruct (Z.eqb_spec f 0); [lia|]. opt_step.
  rewrite (Z.div_small HCLK f) by lia. reflexivity.
Qed.

(** The state [platform_adc_set_clock] reaches with a timer, given the
    trigger source, the period and the prescaler. *)
Lemma set_clock_pos_eq HCLK id f st trig period prescaler :
  0 < f ->
  adc_timer !! timer_id (dev st) = Some trig ->
  adc_clock_divide HCLK id f = Some (period, prescaler) ->
  platform_adc_set_clock HCLK id f st =
  (f1 ← udiv HCLK (u16 (prescaler - 1) + 1);
   f2 ← udiv f1 period;
   Some (f2, set_clock_timer_result trig period prescaler st)).
Proof.
  intros Hf Ht Hd. unfold platform_adc_set_clock.
  destruct (Z.ltb_spec 0 f); [|lia].
  cbn [dev on_dev on_hw set_dev set_hw timer_id set_clocked]. rewrite Ht.
  opt_step. rewrite Hd. opt_step.
  unfold TIM_GET_BASE_CLK.
  change (TIM_GetPrescaler _) with (u16 (prescaler - 1)).
  destruct (udiv HCLK _) as [f1|]; [|reflexivity]. opt_step.
  destruct (udiv f1 period) as [f2|]; reflexivity.
Qed.




(** C10, at the failing input.  For a requested frequency above the base
    clock the period is 0 and the prescaler 1: the period member of the
    timer structure is 0 - 1 wrapped to 32 bits, 0xFFFFFFFF, which does not
    fit 16 bits, and the division by the period that computes the returned
    frequency has no result. *)
Theorem set_clock_period_underflow
    (HCLK : Z) (id : nat) (frequency : Z) (st : adc_system) (trig : ADC_ExternalTrigConv_t) :
  0 <= HCLK < frequency ->
  adc_timer !! timer_id (dev st) = Some trig ->
  adc_clock_divide HCLK id frequency = Some (0, 1) /\
  TIM_Period (adc_timer_base_struct 0 1) = 0xFFFFFFFF /\
  ~ TIM_Period (adc_timer_base_struct 0 1) <= 0xFFFF /\
  platform_adc_set_clock HCLK id frequency st = None.
Proof.
  intros H Ht.
  split; [now apply adc_clock_divide_above|].
  split; [reflexivity|]. split; [vm_compute; intros E; apply E; reflexivity|].
  rewrite (set_clock_pos_eq HCLK id frequency st trig 0 1);
    [|lia|exact Ht|now apply adc_clock_divide_above].
  change (u16 (1 - 1) + 1) with 1. unfold udiv.
  change (1 =? 0) with false. opt_step. reflexivity.
Qed.

(** 168000001 Hz requested on a core clock of 168 MHz. *)
Lemma set_clock_period_underflow_witness :
  0 <= HCLK_168MHz < 168000001 /\
  adc_clock_divide HCLK_168MHz 0 168000001 = Some (0, 1) /\
  TIM_Period (adc_timer_base_struct 0 1) = 0xFFFFFFFF /\
  platform_adc_set_clock HCLK_168MHz 0 168000001 st_idle = None.
Proof.
  split; [unfold HCLK_168MHz; lia|].
  destruct (set_clock_period_underflow HCLK_168MHz 0 168000001 st_idle
              ADC_ExternalTrigConv_T1_CC1) as (A & B & _ & D);
    [unfold HCLK_168MHz; lia|reflexivity|].
  exact (conj A (conj B D)).
Defined.

(** ** The ring buffer *)

(** On an empty buffer the contract has None; the declared function yields a
    byte all the same. *)
Lemma rbuff_pop_empty_counterexample :
  RingBuff.rbuff_is_empty RingBuff.rb_empty = true /\
  fst (RingBuff.pop_spec RingBuff.rb_empty) = None /\
  fst (RingBuff.rbuff_pop Byte.xff RingBuff.rb_empty) = Byte.xff /\
  Some (fst (RingBuff.rbuff_pop Byte.xff RingBuff.rb_empty))
    <> fst (RingBuff.pop_spec RingBuff.rb_empty).
Proof. repeat split; try reflexivity. discriminate. Qed.

(** C8, amended.  [rbuff_push] has no result and [rbuff_pop] returns an
    unsigned char for every buffer.  A push on a full buffer leaves
    contents, head and tail as they are, which is the "false" case of the
    contract; a pop on an empty buffer leaves the buffer as it is, which
    is the "None" case of the contract, and still yields a byte. *)
Theorem rbuff_full_push_empty_pop (unread c : Byte.byte) (p : RingBuff.rbuff) :
  (RingBuff.rbuff_is_full p = true ->
   RingBuff.rbuff_push p c = p /\ RingBuff.push_spec p c = (false, p)) /\
  (RingBuff.rbuff_is_empty p = true ->
   RingBuff.rbuff_pop unread p = (unread, p) /\ RingBuff.pop_spec p = (None, p)).
Proof.
  unfold RingBuff.rbuff_push, RingBuff.push_spec, RingBuff.rbuff_pop, RingBuff.pop_spec.
  split; intros ->; now split.
Qed.

(** A full and an empty buffer of four slots. *)
Lemma rbuff_full_push_empty_pop_witness :
  RingBuff.rbuff_is_full RingBuff.rb_full = true /\
  RingBuff.rbuff_push RingBuff.rb_full Byte.x64 = RingBuff.rb_full /\
  RingBuff.rbuff_is_empty RingBuff.rb_empty = true /\
  RingBuff.rbuff_pop Byte.xff RingBuff.rb_empty = (Byte.xff, RingBuff.rb_empty).
Proof.
  destruct (rbuff_full_push_empty_pop Byte.xff Byte.x64 RingBuff.rb_full) as [F _].
  destruct (rbuff_full_push_empty_pop Byte.xff Byte.x64 RingBuff.rb_empty) as [_ E].
  split; [reflexivity|]. split; [exact (proj1 (F eq_refl))|].
  split; [reflexivity|]. exact (proj1 (E eq_refl)).
Defined.

(** ** One turn of the handler's loop *)

Lemma ch_update_eq p f st s :
  chans st !! p = Some s -> ch_update p f st = Some (ch_store p (f s) st).
Proof. intros H. unfold ch_update. now rewrite H. Qed.

Lemma ch_store_store p a b st : ch_store p a (ch_store p b st) = ch_store p a st.
Proof.
  unfold ch_store, set_chans. cbn [chans dev adc_init_struct dma_init_struct
    nvic_init_structure_adc hw]. now rewrite list_insert_insert_eq.
Qed.

Lemma dev_ch_store p a st : dev (ch_store p a st) = dev st.
Proof. reflexivity. Qed.

Lemma hw_ch_store p a st : hw (ch_store p a st) = hw st.
Proof. reflexivity. Qed.

Lemma irq_deliver_ch_id BUF sb s s' : irq_deliver BUF sb s = Some s' -> ch_id s' = ch_id s.
Proof.
  unfold irq_deliver. cbn [logsmoothlen smooth_ready reqsamples value_ptr set_value_fresh].
  destruct (_ && _).
  - destruct (sb !! _) as [v|]; [|discriminate]. intros [= <-].
    unfold smooth_feed. now destruct (_ <=? _).
  - destruct (_ && _); [|now intros [= <-]].
    destruct (sb !! _) as [v|]; [|discriminate]. intros [= <-].
    unfold buf_push. cbn [buf buf_size set_value_fresh]. now destruct (_ <? _)%nat.
Qed.

Lemma irq_body_eq BUF st p s :
  ch_state (dev st) !! seq_ctr (dev st) = Some p ->
  chans st !! p = Some s ->
  ch_id s = p ->
  irq_body BUF st =
  (s2 ← irq_deliver BUF (sample_buf (dev st)) s;
   st' ← (if (reqsamples (irq_count s2) <=? samples_delivered (irq_count s2))
             && negb (freerunning (irq_count s2))
          then platform_adc_stop p (ch_store p (irq_count s2) st)
          else Some (ch_store p (irq_count s2) st));
   Some (on_dev (set_seq_ctr (S (seq_ctr (dev st')))) st')).
Proof.
  intros Hp Hs Hid. unfold irq_body. rewrite Hp. opt_step.
  rewrite (ch_update_eq _ _ _ _ Hs). opt_step.
  rewrite (lookup_ch_store_eq _ _ _ _ Hs). opt_step.
  assert (Hs1 : chans (ch_store p (set_value_fresh true s) st) !! p
                = Some (set_value_fresh true s)) by exact (lookup_ch_store_eq _ _ _ _ Hs).
  assert (D : (if (0 <? logsmoothlen (set_value_fresh true s))
                    && negb (smooth_ready (set_value_fresh true s))
               then adc_smooth_data (ch_id (set_value_fresh true s))
                      (ch_store p (set_value_fresh true s) st)
               else if BUF && (1 <? reqsamples (set_value_fresh true s))
               then st0 ← buf_write (ch_id (set_value_fresh true s))
                            (value_ptr (set_value_fresh true s))
                            (ch_store p (set_value_fresh true s) st);
                    ch_update p (set_value_fresh false) st0
               else Some (ch_store p (set_value_fresh true s) st))
              = (s2 ← irq_deliver BUF (sample_buf (dev st)) s; Some (ch_store p s2 st))).
  { unfold irq_deliver. change (ch_id (set_value_fresh true s)) with (ch_id s). rewrite Hid.
    destruct (_ && _).
    - unfold adc_smooth_data, adc_get_ch_state. rewrite Hs1. opt_step.
      rewrite dev_ch_store.
      destruct (sample_buf (dev st) !! _) as [v|]; [|reflexivity].
      opt_step. now rewrite ch_store_store.
    - destruct (_ && _); [|reflexivity].
      unfold buf_write. rewrite dev_ch_store.
      destruct (sample_buf (dev st) !! _) as [v|]; [|reflexivity].
      opt_step. rewrite (ch_update_eq _ _ _ _ Hs1), ch_store_store.
      opt_step.
      rewrite (ch_update_eq _ _ _ (buf_push v (set_value_fresh true s)));
        [|exact (lookup_ch_store_eq _ _ _ _ Hs)].
      now rewrite ch_store_store. }
  rewrite D. clear D.
  destruct (irq_deliver BUF (sample_buf (dev st)) s) as [s2|] eqn:E2; [|reflexivity].
  opt_step.
  assert (Hs2 : chans (ch_store p s2 st) !! p = Some s2) by exact (lookup_ch_store_eq _ _ _ _ Hs).
  rewrite Hs2. opt_step.
  unfold adc_samples_available, adc_get_ch_state.
  rewrite (irq_deliver_ch_id _ _ _ _ E2), Hid, Hs2. opt_step.
  rewrite ch_store_store. fold (irq_count s2).
  assert (Hs3 : chans (ch_store p (irq_count s2) st) !! p = Some (irq_count s2))
    by exact (lookup_ch_store_eq _ _ _ _ Hs).
  rewrite Hs3. opt_step.
  change (ch_id (irq_count s2)) with (ch_id s2).
  rewrite (irq_deliver_ch_id _ _ _ _ E2), Hid.
  change (u32 (samples_delivered s2 + 1)) with (samples_delivered (irq_count s2)).
  reflexivity.
Qed.

Lemma stop_chans id st st' s :
  chans st !! id = Some s ->
  platform_adc_stop id st = Some st' ->
  chans st' = <[id := set_op_pending false s]> (chans st).
Proof.
  intros Hs H. rewrite (platform_adc_stop_eq _ _ _ Hs) in H. injection H as <-.
  cbv zeta. now destruct (_ =? 0).
Qed.

(** A free-running channel with a requested count of 0, ring buffers
    compiled in: the handler queues nothing and leaves [value_fresh] set. *)
Lemma handler_freerunning_zero_counterexample :
  reqsamples <$> chans st_freerun0 !! 0%nat = Some 0 /\
  ch_state (dev st_freerun0) = [0%nat] /\
  exists st',
    DMA2_Stream0_IRQHandler true st_freerun0 = Some st' /\
    buf <$> chans st_freerun0 !! 0%nat = Some [] /\
    buf <$> chans st' !! 0%nat = Some [] /\
    value_fresh <$> chans st' !! 0%nat = Some true.
Proof.
  split; [reflexivity|]. split; [reflexivity|].
  eexists. split; [vm_compute; reflexivity|]. repeat split.
Qed.

(** C2, amended.  In a turn of the handler's loop whose smoothing branch
    is not taken: if [BUF_ENABLE_ADC] is defined and the requested sample
    count is greater than 1, the sample the channel points at in the
    scratch buffer is handed to [buf_write] (it is queued unless the queue
    is full) and [value_fresh] is cleared; otherwise, also for a requested
    count of 0, the queue is left alone and [value_fresh] stays set. *)
Theorem irq_body_delivery (BUF : bool) (st : adc_system) (p : nat)
    (s : elua_adc_ch_state) (v : Z) :
  ch_state (dev st) !! seq_ctr (dev st) = Some p ->
  chans st !! p = Some s ->
  ch_id s = p ->
  sample_buf (dev st) !! value_ptr s = Some v ->
  (0 <? logsmoothlen s) && negb (smooth_ready s) = false ->
  exists st' s',
    irq_body BUF st = Some st' /\
    chans st' !! p = Some s' /\
    if BUF && (1 <? reqsamples s)
    then buf s' = (if (length (buf s) <? buf_size s)%nat then buf s ++ [v] else buf s) /\
         value_fresh s' = false
    else buf s' = buf s /\ value_fresh s' = true.
Proof.
  intros Hp Hs Hid Hv Hsm.
  rewrite (irq_body_eq BUF st p s Hp Hs Hid).
  assert (E2 : irq_deliver BUF (sample_buf (dev st)) s =
               Some (if BUF && (1 <? reqsamples s)
                     then set_value_fresh false (buf_push v (set_value_fresh true s))
                     else set_value_fresh true s)).
  { unfold irq_deliver.
    change (logsmoothlen (set_value_fresh true s)) with (logsmoothlen s).
    change (smooth_ready (set_value_fresh true s)) with (smooth_ready s).
    change (reqsamples (set_value_fresh true s)) with (reqsamples s).
    change (value_ptr (set_value_fresh true s)) with (value_ptr s).
    rewrite Hsm, Hv. opt_step.
    destruct (BUF && (1 <? reqsamples s)); reflexivity. }
  rewrite E2. opt_step.
  remember (if BUF && (1 <? reqsamples s)
            then set_value_fresh false (buf_push v (set_value_fresh true s))
            else set_value_fresh true s) as s2 eqn:Es2.
  assert (Hs3 : chans (ch_store p (irq_count s2) st) !! p = Some (irq_count s2))
    by exact (lookup_ch_store_eq _ _ _ _ Hs).
  assert (G : (if BUF && (1 <? reqsamples s)
               then buf s2 = (if (length (buf s) <? buf_size s)%nat
                              then buf s ++ [v] else buf s) /\ value_fresh s2 = false
               else buf s2 = buf s /\ value_fresh s2 = true)).
  { subst s2. destruct (BUF && (1 <? reqsamples s)); [|now split].
    unfold buf_push. cbn [buf buf_size set_value_fresh].
    now destruct (_ <? _)%nat. }
  clear Es2 E2.
  destruct ((reqsamples (irq_count s2) <=? samples_delivered (irq_count s2))
            && negb (freerunning (irq_count s2))).
  - destruct (platform_adc_stop p (ch_store p (irq_count s2) st)) as [st'|] eqn:St.
    + opt_step. eexists _, (set_op_pending false (irq_count s2)).
      split; [reflexivity|]. split; [|exact G].
      change (chans st' !! p = Some (set_op_pending false (irq_count s2))).
      rewrite (stop_chans _ _ _ _ Hs3 St).
      apply list_lookup_insert_eq. apply lookup_lt_Some in Hs3. exact Hs3.
    + exfalso. unfold platform_adc_stop, adc_get_ch_state in St. rewrite Hs3 in St.
      opt_step in St. destruct (_ =? 0); discriminate.
  - opt_step. eexists _, (irq_count s2).
    split; [reflexivity|]. split; [exact Hs3|exact G].
Qed.

(** Channel 2 with 5 samples requested: the sample 7 of its slot is queued. *)
Lemma irq_body_delivery_witness :
  exists st' s',
    irq_body true st_channel2_scan = Some st' /\
    chans st' !! 2%nat = Some s' /\
    buf s' = [7] /\ value_fresh s' = false.
Proof.
  destruct (irq_body_delivery true st_channel2_scan 2
              (mkCh 2 false false false false 0 5 0 0 0 0 [] 8) 7)
    as (st' & s' & E & L & B & F); try reflexivity.
  exists st', s'. exact (conj E (conj L (conj B F))).
Defined.

(** ** The loop of the handler, channel by channel *)

Lemma same_request_refl s : same_request s s.
Proof. now repeat split. Qed.

Lemma same_request_trans s1 s2 s3 :
  same_request s1 s2 -> same_request s2 s3 -> same_request s1 s3.
Proof.
  unfold same_request. intros (?&?&?&?&?) (?&?&?&?&?). repeat split; congruence.
Qed.

Lemma irq_deliver_ok BUF sb s v :
  sb !! value_ptr s = Some v ->
  exists s2, irq_deliver BUF sb s = Some s2 /\ same_request s s2 /\
             samples_delivered s2 = samples_delivered s.
Proof.
  intros Hv. unfold irq_deliver.
  change (value_ptr (set_value_fresh true s)) with (value_ptr s). rewrite Hv.
  opt_step.
  destruct (_ && _).
  - eexists; split; [reflexivity|]. unfold smooth_feed.
    destruct (_ <=? _); now repeat split.
  - destruct (_ && _).
    + eexists; split; [reflexivity|]. unfold buf_push.
      destruct (_ <? _)%nat; now repeat split.
    + eexists; split; [reflexivity|]. now repeat split.
Qed.

Lemma stop_spec id st s :
  chans st !! id = Some s ->
  exists st',
    platform_adc_stop id st = Some st' /\
    chans st' = <[id := set_op_pending false s]> (chans st) /\
    irq_frame st st' /\
    seq_ctr (dev st') = seq_ctr (dev st) /\
    ch_active (dev st') = Z.ldiff (ch_active (dev st)) (Z.shiftl 1 (Z.of_nat id)) /\
    (if ch_active (dev st') =? 0
     then running (dev st') = false /\ NVIC_ADC_IRQ (hw st') = false
     else running (dev st') = running (dev st) /\ hw st' = hw st).
Proof.
  intros Hs. rewrite (platform_adc_stop_eq _ _ _ Hs).
  eexists; split; [reflexivity|]. cbv zeta.
  change (ch_active (dev (on_dev (INACTIVATE_CHANNEL id)
            (ch_store id (set_op_pending false s) st))))
    with (Z.ldiff (ch_active (dev st)) (Z.shiftl 1 (Z.of_nat id))).
  destruct (Z.ldiff _ _ =? 0) eqn:E.
  - split; [reflexivity|]. split.
    { repeat split. cbn. apply length_insert. }
    split; [reflexivity|]. split; [reflexivity|].
    change (ch_active _) with (Z.ldiff (ch_active (dev st)) (Z.shiftl 1 (Z.of_nat id))).
    rewrite E. now split.
  - split; [reflexivity|]. split.
    { repeat split. cbn. apply length_insert. }
    split; [reflexivity|]. split; [reflexivity|].
    change (ch_active _) with (Z.ldiff (ch_active (dev st)) (Z.shiftl 1 (Z.of_nat id))).
    rewrite E. now split.
Qed.

Lemma wf_lookup st p :
  wf st -> (p < NUM_ADC)%nat ->
  exists s v, chans st !! p = Some s /\ wf_ch p s /\
              sample_buf (dev st) !! value_ptr s = Some v.
Proof.
  intros (Hl & Hw & Hb) Hp.
  destruct (lookup_lt_is_Some_2 (chans st) p) as [s Hs]; [lia|].
  destruct (Hw _ _ Hs) as [Hid Hv].
  destruct (lookup_lt_is_Some_2 (sample_buf (dev st)) (value_ptr s)) as [v Hsv]; [lia|].
  now exists s, v.
Qed.

Lemma wf_insert st st' p s s' :
  wf st -> chans st !! p = Some s ->
  chans st' = <[p := s']> (chans st) ->
  sample_buf (dev st') = sample_buf (dev st) ->
  ch_id s' = ch_id s -> value_ptr s' = value_ptr s ->
  wf st'.
Proof.
  intros (Hl & Hw & Hb) Hs Hc Hsb Hid Hv. unfold wf. rewrite Hc, Hsb.
  split; [now rewrite length_insert|]. split; [|exact Hb].
  intros i x Hx. destruct (decide (p = i)) as [<-|Hne].
  - rewrite list_lookup_insert_eq in Hx by (now apply lookup_lt_Some in Hs).
    injection Hx as <-. destruct (Hw _ _ Hs) as [? ?]. split; congruence.
  - rewrite list_lookup_insert_ne in Hx by exact Hne. now apply Hw.
Qed.

(** A turn of the loop, in terms of what can be observed afterwards. *)
Lemma irq_body_spec BUF st p :
  wf st ->
  ch_state (dev st) !! seq_ctr (dev st) = Some p ->
  (p < NUM_ADC)%nat ->
  exists st' s s',
    irq_body BUF st = Some st' /\
    chans st !! p = Some s /\
    chans st' = <[p := s']> (chans st) /\
    same_request s s' /\
    samples_delivered s' = u32 (samples_delivered s + 1) /\
    seq_ctr (dev st') = S (seq_ctr (dev st)) /\
    irq_frame st st' /\
    let stop := (reqsamples s <=? u32 (samples_delivered s + 1)) && negb (freerunning s) in
    ch_active (dev st') =
      (if stop then Z.ldiff (ch_active (dev st)) (Z.shiftl 1 (Z.of_nat p))
       else ch_active (dev st)) /\
    (if stop && (ch_active (dev st') =? 0)
     then running (dev st') = false /\ NVIC_ADC_IRQ (hw st') = false
     else running (dev st') = running (dev st) /\ hw st' = hw st).
Proof.
  intros Hwf Hp Hlt.
  destruct (wf_lookup st p Hwf Hlt) as (s & v & Hs & [Hid Hvp] & Hv).
  destruct (irq_deliver_ok BUF (sample_buf (dev st)) s v Hv) as (s2 & E2 & R2 & D2).
  rewrite (irq_body_eq BUF st p s Hp Hs Hid), E2. opt_step.
  assert (Hs3 : chans (ch_store p (irq_count s2) st) !! p = Some (irq_count s2))
    by exact (lookup_ch_store_eq _ _ _ _ Hs).
  destruct R2 as (R2a & R2b & R2c & R2d & R2e).
  change (reqsamples (irq_count s2)) with (reqsamples s2).
  change (freerunning (irq_count s2)) with (freerunning s2).
  change (samples_delivered (irq_count s2)) with (u32 (samples_delivered s2 + 1)).
  rewrite R2c, R2e, D2. cbv zeta.
  destruct ((reqsamples s <=? u32 (samples_delivered s + 1)) && negb (freerunning s)) eqn:Estop.
  - destruct (stop_spec p _ _ Hs3) as (st4 & -> & C4 & F4 & S4 & A4 & X4).
    opt_step.
    exists (on_dev (set_seq_ctr (S (seq_ctr (dev st4)))) st4), s, (set_op_pending false (irq_count s2)).
    split; [reflexivity|]. split; [exact Hs|]. split.
    { change (chans st4 = <[p:=set_op_pending false (irq_count s2)]> (chans st)).
      rewrite C4. change (chans (ch_store p (irq_count s2) st)) with (<[p:=irq_count s2]> (chans st)).
      apply list_insert_insert_eq. }
    split; [now repeat split|]. split; [change (u32 (samples_delivered s2 + 1) = u32 (samples_delivered s + 1)); now rewrite D2|].
    split; [cbn; now rewrite S4|]. split.
    { eapply irq_frame_trans; [apply irq_frame_ch_store|].
      eapply irq_frame_trans; [exact F4|apply irq_frame_seq_ctr]. }
    change (ch_active (dev (on_dev (set_seq_ctr (S (seq_ctr (dev st4)))) st4)))
      with (ch_active (dev st4)).
    change (running (dev (on_dev (set_seq_ctr (S (seq_ctr (dev st4)))) st4)))
      with (running (dev st4)).
    change (hw (on_dev (set_seq_ctr (S (seq_ctr (dev st4)))) st4)) with (hw st4).
    rewrite Estop. split; [exact A4|]. cbn [andb]. exact X4.
  - opt_step.
    eexists _, s, (irq_count s2).
    split; [reflexivity|]. split; [exact Hs|]. split; [reflexivity|].
    split; [now repeat split|]. split; [change (u32 (samples_delivered s2 + 1) = u32 (samples_delivered s + 1)); now rewrite D2|].
    split; [reflexivity|]. split.
    { eapply irq_frame_trans; [apply irq_frame_ch_store|apply irq_frame_seq_ctr]. }
    rewrite Estop. split; [reflexivity|]. cbn [andb]. now split.
Qed.

Lemma irq_rel_refl st : irq_rel st st.
Proof.
  split; [apply irq_frame_refl|]. split; [tauto|]. split; [tauto|].
  split; [auto|]. split; [reflexivity|auto].
Qed.

Lemma irq_rel_trans st1 st2 st3 : irq_rel st1 st2 -> irq_rel st2 st3 -> irq_rel st1 st3.
Proof.
  intros (F1 & W1 & M1 & A1 & R1 & Z1) (F2 & W2 & M2 & A2 & R2 & Z2).
  split; [eapply irq_frame_trans; eassumption|].
  split; [tauto|]. split; [tauto|]. split; [auto|]. split; [|auto].
  intros H3. rewrite R2 by exact H3. apply R1. intros H2. now apply H3, Z2.
Qed.

Lemma untouched_refl c st : untouched c st st.
Proof. now split. Qed.

Lemma untouched_trans c st1 st2 st3 :
  untouched c st1 st2 -> untouched c st2 st3 -> untouched c st1 st3.
Proof. intros [? ?] [? ?]. split; congruence. Qed.

Lemma tracked_untouched c k j st st' :
  untouched c st st' -> tracked c k j st -> tracked c k j st'.
Proof. intros [H _] (s & Hs & R). exists s. now rewrite H. Qed.

Lemma testbit_mask_after_stop (stop : bool) m p c :
  Z.testbit (if stop then Z.ldiff m (Z.shiftl 1 (Z.of_nat p)) else m) (Z.of_nat c) =
  Z.testbit m (Z.of_nat c) && negb (stop && bool_decide (p = c)).
Proof.
  destruct stop; cbn [andb negb].
  - now rewrite Z.ldiff_spec, testbit_one_shiftl.
  - now rewrite andb_true_r.
Qed.

Lemma irq_body_rel BUF st p :
  wf st ->
  ch_state (dev st) !! seq_ctr (dev st) = Some p ->
  (p < NUM_ADC)%nat ->
  exists st',
    irq_body BUF st = Some st' /\
    seq_ctr (dev st') = S (seq_ctr (dev st)) /\
    irq_rel st st' /\
    (forall c, c <> p -> untouched c st st') /\
    (forall k j, tracked p k j st -> 0 <= j < k -> k < 2 ^ 32 ->
       tracked p k (j + 1) st' /\
       ACTIVE_CHANNEL (dev st') p = ACTIVE_CHANNEL (dev st) p && (j + 1 <? k)).
Proof.
  intros Hwf Hp Hlt.
  destruct (irq_body_spec BUF st p Hwf Hp Hlt)
    as (st' & s & s' & -> & Hs & Hc & Rq & Dl & Sc & Fr & Am & Rn).
  cbv zeta in Am, Rn. destruct Rq as (Ra & Rb & Rc & Rd & Re).
  remember ((reqsamples s <=? u32 (samples_delivered s + 1)) && negb (freerunning s))
    as stop eqn:Estop.
  exists st'. split; [reflexivity|]. split; [exact Sc|].
  assert (Hact : forall c, ACTIVE_CHANNEL (dev st') c =
                           ACTIVE_CHANNEL (dev st) c && negb (stop && bool_decide (p = c))).
  { intros c. unfold ACTIVE_CHANNEL. rewrite Am. apply testbit_mask_after_stop. }
  split; [|split].
  - split; [exact Fr|]. split.
    { intros _. eapply wf_insert; [exact Hwf|exact Hs|exact Hc| |exact Ra|exact Rb].
      now destruct Fr as (_&_&_&_&_&?&_). }
    split.
    { unfold irq_matched. intros M.
      destruct (stop && (ch_active (dev st') =? 0)); destruct Rn as [-> E]; [now rewrite E|].
      now rewrite E. }
    split.
    { intros j. rewrite Hact. intros H. now apply andb_true_iff in H. }
    split.
    { intros Hne. destruct (Z.eqb_spec (ch_active (dev st')) 0); [contradiction|].
      rewrite andb_false_r in Rn. apply Rn. }
    intros H0. rewrite Am, H0. destruct stop; [apply Z.ldiff_0_l|reflexivity].
  - intros c Hne. split.
    + rewrite Hc. apply list_lookup_insert_ne. congruence.
    + rewrite Hact. rewrite (bool_decide_eq_false_2 (p = c)) by congruence.
      now rewrite andb_false_r, andb_true_r.
  - intros k j (s0 & Hs0 & Tk & Tl & Tf & Tj) Hj Hk.
    rewrite Hs in Hs0. injection Hs0 as <-.
    assert (Ej : u32 (samples_delivered s + 1) = j + 1).
    { rewrite Tj. unfold u32. apply Z.mod_small. lia. }
    split.
    + exists s'. split.
      { rewrite Hc. apply list_lookup_insert_eq. now apply lookup_lt_Some in Hs. }
      rewrite Rc, Rd, Re, Dl, Ej. now repeat split.
    + rewrite Hact, Estop, Ej, Tk, Tf. rewrite bool_decide_eq_true_2 by reflexivity.
      cbn [negb]. rewrite !andb_true_r. f_equal.
      rewrite Z.ltb_antisym. reflexivity.
Qed.

(** The part of the scan list the loop has still to serve. *)
Lemma irq_loop_spec BUF fuel : forall st,
  wf st ->
  seq_len (dev st) = length (ch_state (dev st)) ->
  Forall (fun p => p < NUM_ADC)%nat (ch_state (dev st)) ->
  (seq_len (dev st) <= fuel + seq_ctr (dev st))%nat ->
  exists st',
    irq_loop BUF fuel st = Some st' /\
    irq_rel st st' /\
    (forall c, ~ In c (drop (seq_ctr (dev st)) (ch_state (dev st))) -> untouched c st st') /\
    (forall c k j,
       In c (drop (seq_ctr (dev st)) (ch_state (dev st))) ->
       List.NoDup (drop (seq_ctr (dev st)) (ch_state (dev st))) ->
       tracked c k j st -> 0 <= j < k -> k < 2 ^ 32 ->
       tracked c k (j + 1) st' /\
       ACTIVE_CHANNEL (dev st') c = ACTIVE_CHANNEL (dev st) c && (j + 1 <? k)).
Proof.
  induction fuel as [|fuel IH]; intros st Hwf Hlen Hall Hfuel; cbn [irq_loop].
  - destruct (Nat.ltb_spec (seq_ctr (dev st)) (seq_len (dev st))) as [L|L]; [lia|].
    exists st. split; [reflexivity|]. split; [apply irq_rel_refl|].
    split; [intros; apply untouched_refl|].
    intros c k j Hin. rewrite drop_ge in Hin by lia. destruct Hin.
  - destruct (Nat.ltb_spec (seq_ctr (dev st)) (seq_len (dev st))) as [L|L].
    + destruct (lookup_lt_is_Some_2 (ch_state (dev st)) (seq_ctr (dev st))) as [p Hp]; [lia|].
      assert (Hlt : (p < NUM_ADC)%nat).
      { rewrite Forall_forall in Hall. apply Hall. now apply (list_elem_of_lookup_2 _ _ _ Hp). }
      destruct (irq_body_rel BUF st p Hwf Hp Hlt) as (st1 & -> & Sc & Rel1 & Un1 & Hit1).
      opt_step.
      pose proof Rel1 as (Fr1 & W1 & _).
      pose proof Fr1 as (_ & _ & _ & Ecs & Esl & _).
      destruct (IH st1) as (st' & -> & Rel2 & Un2 & Hit2).
      { now apply W1. }
      { now rewrite Esl, Ecs. }
      { now rewrite Ecs. }
      { rewrite Esl, Sc. lia. }
      rewrite Ecs, Sc in Un2, Hit2.
      rewrite (drop_S _ _ _ Hp).
      exists st'. split; [reflexivity|]. split; [eapply irq_rel_trans; eassumption|].
      split.
      * intros c Hc. eapply untouched_trans.
        -- apply Un1. intros ->. apply Hc. now left.
        -- apply Un2. intros H. apply Hc. now right.
      * intros c k j Hin Hnd Tr Hj Hk.
        apply List.NoDup_cons_iff in Hnd as [Hnotin Hnd].
        destruct (decide (c = p)) as [->|Hne].
        -- destruct (Hit1 k j Tr Hj Hk) as [Tr1 A1].
           pose proof (Un2 p Hnotin) as U.
           split; [exact (tracked_untouched _ _ _ _ _ U Tr1)|].
           destruct U as [_ ->]. exact A1.
        -- destruct Hin as [->|Hin]; [contradiction|].
           pose proof (Un1 c Hne) as U.
           destruct (Hit2 c k j Hin Hnd (tracked_untouched _ _ _ _ _ U Tr) Hj Hk) as [Tr2 A2].
           split; [exact Tr2|]. rewrite A2. now destruct U as [_ ->].
    + exists st. split; [reflexivity|]. split; [apply irq_rel_refl|].
      split; [intros; apply untouched_refl|].
      intros c k j Hin. rewrite drop_ge in Hin by lia. destruct Hin.
Qed.

(** ** Rebuilding the scan list *)

Lemma active_ids_In d c :
  In c (active_ids d) <-> (c < NUM_ADC)%nat /\ ACTIVE_CHANNEL d c = true.
Proof.
  unfold active_ids. rewrite List.filter_In, List.in_seq. intuition lia.
Qed.

Lemma active_ids_NoDup d : List.NoDup (active_ids d).
Proof. apply List.NoDup_filter, List.seq_NoDup. Qed.

Lemma active_ids_length d : (length (active_ids d) <= NUM_ADC)%nat.
Proof.
  unfold active_ids.
  etransitivity; [apply List.filter_length_le|]. now rewrite List.length_seq.
Qed.

Lemma active_ids_Forall d : Forall (fun p => p < NUM_ADC)%nat (active_ids d).
Proof.
  apply Forall_forall. intros p Hp. apply list_elem_of_In in Hp.
  now apply active_ids_In in Hp.
Qed.

Lemma attach_channels_length ids : forall pos chs,
  length (attach_channels pos ids chs) = length chs.
Proof.
  induction ids as [|id ids IH]; intros pos chs; cbn [attach_channels]; [reflexivity|].
  now rewrite IH, length_alter.
Qed.

Lemma attach_channels_lookup ids : forall pos chs i s,
  chs !! i = Some s ->
  exists q, attach_channels pos ids chs !! i = Some (set_value_ptr q s) /\
            (q = value_ptr s \/ (q < pos + length ids)%nat).
Proof.
  induction ids as [|id ids IH]; intros pos chs i s Hs; cbn [attach_channels].
  - exists (value_ptr s). split; [|now left]. rewrite Hs. now destruct s.
  - destruct (decide (id = i)) as [->|Hne].
    + destruct (IH (S pos) (alter (set_value_ptr pos) i chs) i (set_value_ptr pos s))
        as (q & Hq & Hb).
      { now rewrite list_lookup_alter_eq, Hs. }
      exists q. split; [exact Hq|]. cbn [length].
      destruct Hb as [->|Hb]; [right; cbn; lia|right; lia].
    + destruct (IH (S pos) (alter (set_value_ptr pos) id chs) i s) as (q & Hq & Hb).
      { now rewrite list_lookup_alter_ne. }
      exists q. split; [exact Hq|]. cbn [length].
      destruct Hb as [->|Hb]; [now left|right; lia].
Qed.

Lemma active_ids_ext d d' : ch_active d' = ch_active d -> active_ids d' = active_ids d.
Proof. unfold active_ids, ACTIVE_CHANNEL. now intros ->. Qed.

Lemma rebuild_scan_list_proj st :
  chans (adc_rebuild_scan_list st) = attach_channels 0 (active_ids (dev st)) (chans st) /\
  ch_state (dev (adc_rebuild_scan_list st)) = active_ids (dev st) /\
  seq_len (dev (adc_rebuild_scan_list st)) = length (active_ids (dev st)).
Proof. unfold adc_rebuild_scan_list. repeat split; reflexivity. Qed.

(** The state after a rebuild, in terms of the state before. *)
Lemma rebuilt_facts gp sq st :
  let st' := update_sequence_result gp sq (adc_rebuild_scan_list st) in
  chans st' = attach_channels 0 (active_ids (dev st)) (chans st) /\
  ch_state (dev st') = active_ids (dev st) /\
  seq_len (dev st') = length (active_ids (dev st)) /\
  ch_active (dev st') = ch_active (dev st) /\
  running (dev st') = running (dev st) /\
  sample_buf (dev st') = sample_buf (dev st) /\
  NVIC_ADC_IRQ (hw st') = NVIC_ADC_IRQ (hw st).
Proof.
  cbv zeta. unfold update_sequence_result, adc_rebuild_scan_list.
  destruct (clocked _ && running _); now repeat split.
Qed.

Lemma rebuilt_scan_list_ok st : wf st -> scan_list_ok (adc_rebuild_scan_list st).
Proof.
  intros (Hl & Hw & _) i Hi.
  destruct (rebuild_scan_list_proj st) as (Ec & Es & El).
  rewrite El in Hi. rewrite Ec, Es.
  destruct (lookup_lt_is_Some_2 (active_ids (dev st)) i Hi) as [p Hp].
  assert (Hlt : (p < NUM_ADC)%nat).
  { apply list_elem_of_lookup_2, list_elem_of_In, active_ids_In in Hp. tauto. }
  destruct (lookup_lt_is_Some_2 (chans st) p) as [s Hs]; [lia|].
  destruct (attach_channels_lookup (active_ids (dev st)) 0 _ _ _ Hs) as (q & Hq & _).
  exists p, (set_value_ptr q s). split; [exact Hp|]. split; [exact Hq|].
  destruct (Hw _ _ Hs) as [Hid _]. cbn [ch_id set_value_ptr]. lia.
Qed.

Lemma rebuilt_wf gp sq st :
  wf st -> wf (update_sequence_result gp sq (adc_rebuild_scan_list st)).
Proof.
  intros (Hl & Hw & Hb).
  destruct (rebuilt_facts gp sq st) as (Ec & _ & _ & _ & _ & Eb & _).
  unfold wf. rewrite Ec, Eb, attach_channels_length.
  split; [exact Hl|]. split; [|exact Hb].
  intros i s' Hs'.
  destruct (lookup_lt_is_Some_2 (chans st) i) as [s Hs].
  { apply lookup_lt_Some in Hs'. now rewrite attach_channels_length in Hs'. }
  destruct (attach_channels_lookup (active_ids (dev st)) 0 _ _ _ Hs) as (q & Hq & Hbq).
  rewrite Hq in Hs'. injection Hs' as <-.
  destruct (Hw _ _ Hs) as [Hid Hv]. split; [exact Hid|].
  cbn [value_ptr set_value_ptr].
  pose proof (active_ids_length (dev st)). destruct Hbq as [->|Hbq]; lia.
Qed.

Lemma rebuilt_tracked gp sq st c k j :
  wf st -> tracked c k j st ->
  tracked c k j (update_sequence_result gp sq (adc_rebuild_scan_list st)).
Proof.
  intros Hwf (s & Hs & R).
  destruct (rebuilt_facts gp sq st) as (Ec & _).
  destruct (attach_channels_lookup (active_ids (dev st)) 0 _ _ _ Hs) as (q & Hq & _).
  exists (set_value_ptr q s). rewrite Ec. split; [exact Hq|exact R].
Qed.

Lemma update_dev_sequence_ok st :
  wf st ->
  exists gp sq,
    adc_update_dev_sequence st =
    Some (PLATFORM_OK, update_sequence_result gp sq (adc_rebuild_scan_list st)).
Proof.
  intros Hwf. apply platform_adc_update_sequence_ok. now apply rebuilt_scan_list_ok.
Qed.

Lemma rebuilt_between_scans gp sq st :
  wf st -> irq_matched st ->
  between_scans (update_sequence_result gp sq (adc_rebuild_scan_list st)).
Proof.
  intros Hwf Hm.
  destruct (rebuilt_facts gp sq st) as (Ec & Es & El & Ea & Er & Eb & En).
  split; [now apply rebuilt_wf|]. split.
  - unfold irq_matched. now rewrite En, Er.
  - intros _. unfold scan_list_current.
    rewrite Es, El, (active_ids_ext _ _ Ea). split; reflexivity.
Qed.

(** ** A whole run of the handler *)

Lemma irq_rearm_spec st :
  wf st -> irq_matched st ->
  exists st',
    irq_rearm st = Some st' /\
    between_scans st' /\
    ch_active (dev st') = ch_active (dev st) /\
    running (dev st') = running (dev st) /\
    (forall c k j, tracked c k j st -> tracked c k j st').
Proof.
  intros Hwf Hm. unfold irq_rearm.
  destruct (running (dev st)) eqn:R.
  - destruct (update_dev_sequence_ok st Hwf) as (gp & sq & ->).
    opt_step.
    pose proof (rebuilt_between_scans gp sq st Hwf Hm) as B.
    pose proof (fun c k j => rebuilt_tracked gp sq st c k j Hwf) as T.
    destruct (rebuilt_facts gp sq st) as (_ & _ & _ & Ea & Er & _).
    remember (update_sequence_result gp sq (adc_rebuild_scan_list st)) as st5 eqn:E5.
    clear E5. rewrite R in Er.
    destruct (negb (clocked (dev st5)) && running (dev st5)).
    + eexists; split; [reflexivity|]. split; [exact B|]. now repeat split.
    + eexists; split; [reflexivity|]. split; [exact B|]. now repeat split.
  - opt_step. rewrite R, andb_false_r.
    eexists; split; [reflexivity|]. split.
    + split; [exact Hwf|]. split; [exact Hm|]. congruence.
    + now repeat split.
Qed.

Lemma handler_spec BUF st :
  between_scans st ->
  running (dev st) = true ->
  exists st',
    DMA2_Stream0_IRQHandler BUF st = Some st' /\
    between_scans st' /\
    (forall c k j,
       tracked c k j st -> ACTIVE_CHANNEL (dev st) c = false ->
       tracked c k j st' /\ ACTIVE_CHANNEL (dev st') c = false) /\
    (forall c k j,
       tracked c k j st -> ACTIVE_CHANNEL (dev st) c = true ->
       0 <= j < k -> k < 2 ^ 32 ->
       tracked c k (j + 1) st' /\
       ACTIVE_CHANNEL (dev st') c = (j + 1 <? k) /\
       (j + 1 < k -> running (dev st') = true)).
Proof.
  intros (Hwf & Hm & Hcur) Hrun. destruct (Hcur Hrun) as [Ecs Esl].
  unfold DMA2_Stream0_IRQHandler. cbv zeta.
  remember (on_dev (set_seq_ctr 0) (on_hw DMA_ClearITPendingBit st)) as st0 eqn:E0.
  assert (F0 : chans st0 = chans st /\ ch_state (dev st0) = ch_state (dev st) /\
               seq_len (dev st0) = seq_len (dev st) /\ seq_ctr (dev st0) = 0%nat /\
               ch_active (dev st0) = ch_active (dev st) /\
               running (dev st0) = running (dev st) /\
               sample_buf (dev st0) = sample_buf (dev st) /\
               NVIC_ADC_IRQ (hw st0) = NVIC_ADC_IRQ (hw st)).
  { subst st0. now repeat split. }
  clear E0. destruct F0 as (F0c & F0s & F0l & F0z & F0a & F0r & F0b & F0n).
  assert (Hwf0 : wf st0).
  { destruct Hwf as (? & ? & ?). unfold wf. now rewrite F0c, F0b. }
  destruct (irq_loop_spec BUF (seq_len (dev st0)) st0 Hwf0) as (stL & -> & Rel & Un & Hit).
  { now rewrite F0l, F0s. }
  { rewrite F0s, Ecs. apply active_ids_Forall. }
  { lia. }
  rewrite F0z, drop_0, F0s, Ecs in Un, Hit.
  opt_step.
  destruct Rel as (Fr & W & M & Amono & Rrun & Zero).
  remember (on_dev (set_seq_ctr 0) stL) as st3 eqn:E3.
  assert (F3 : chans st3 = chans stL /\ ch_active (dev st3) = ch_active (dev stL) /\
               running (dev st3) = running (dev stL) /\
               sample_buf (dev st3) = sample_buf (dev stL) /\
               NVIC_ADC_IRQ (hw st3) = NVIC_ADC_IRQ (hw stL)).
  { subst st3. now repeat split. }
  clear E3. destruct F3 as (F3c & F3a & F3r & F3b & F3n).
  assert (Hwf3 : wf st3).
  { destruct (W Hwf0) as (? & ? & ?). unfold wf. now rewrite F3c, F3b. }
  assert (Hm3 : irq_matched st3).
  { unfold irq_matched. rewrite F3n, F3r. apply M. unfold irq_matched.
    now rewrite F0n, F0r. }
  destruct (irq_rearm_spec st3 Hwf3 Hm3) as (st' & -> & B' & Ea' & Er' & T').
  exists st'. split; [reflexivity|]. split; [exact B'|].
  assert (Tr0 : forall c k j, tracked c k j st -> tracked c k j st0).
  { intros c k j (s & Hs & R). exists s. now rewrite F0c. }
  assert (Tr3 : forall c k j, tracked c k j stL -> tracked c k j st').
  { intros c k j (s & Hs & R). apply T'. exists s. now rewrite F3c. }
  assert (Act : forall c, ACTIVE_CHANNEL (dev st') c = ACTIVE_CHANNEL (dev stL) c).
  { intros c. unfold ACTIVE_CHANNEL. now rewrite Ea', F3a. }
  assert (Act0 : forall c, ACTIVE_CHANNEL (dev st0) c = ACTIVE_CHANNEL (dev st) c).
  { intros c. unfold ACTIVE_CHANNEL. now rewrite F0a. }
  split.
  - intros c k j Tr Hin.
    assert (Hnot : ~ In c (active_ids (dev st))).
    { rewrite active_ids_In. intros [_ A]. congruence. }
    destruct (Un c Hnot) as [Uc Ua].
    split.
    + apply Tr3. apply (tracked_untouched c k j st0 stL); [now split|now apply Tr0].
    + now rewrite Act, Ua, Act0.
  - intros c k j Tr Hact Hj Hk.
    assert (Hc : (c < NUM_ADC)%nat).
    { destruct Tr as (s & Hs & _). apply lookup_lt_Some in Hs.
      destruct Hwf as (Hl & _). lia. }
    assert (Hin : In c (active_ids (dev st))) by (now apply active_ids_In).
    destruct (Hit c k j Hin (active_ids_NoDup _) (Tr0 _ _ _ Tr) Hj Hk) as [TrL AL].
    rewrite Act0, Hact in AL. cbn [andb] in AL.
    split; [now apply Tr3|]. split; [now rewrite Act|].
    intros Hlt. rewrite Er', F3r, Rrun, F0r; [exact Hrun|].
    apply (ACTIVE_nonzero _ c). rewrite AL. now apply Z.ltb_lt.
Qed.

Lemma dma_store_length samples buffer : length (dma_store samples buffer) = length buffer.
Proof.
  unfold dma_store. rewrite length_take, length_app, length_drop. lia.
Qed.

Lemma scan_complete_spec BUF v st :
  between_scans st ->
  exists st',
    scan_complete BUF v st = Some st' /\
    between_scans st' /\
    (forall c k j,
       tracked c k j st -> ACTIVE_CHANNEL (dev st) c = false ->
       tracked c k j st' /\ ACTIVE_CHANNEL (dev st') c = false) /\
    (forall c k j,
       tracked c k j st -> ACTIVE_CHANNEL (dev st) c = true ->
       running (dev st) = true ->
       0 <= j < k -> k < 2 ^ 32 ->
       tracked c k (j + 1) st' /\
       ACTIVE_CHANNEL (dev st') c = (j + 1 <? k) /\
       (j + 1 < k -> running (dev st') = true)).
Proof.
  intros (Hwf & Hm & Hcur). unfold scan_complete. cbv zeta.
  remember (on_hw (set_DMA_TCIF true)
              (on_dev (fun d => set_sample_buf (dma_store v (sample_buf d)) d) st))
    as st1 eqn:E1.
  assert (F1 : chans st1 = chans st /\ ch_state (dev st1) = ch_state (dev st) /\
               seq_len (dev st1) = seq_len (dev st) /\
               ch_active (dev st1) = ch_active (dev st) /\
               running (dev st1) = running (dev st) /\
               sample_buf (dev st1) = dma_store v (sample_buf (dev st)) /\
               NVIC_ADC_IRQ (hw st1) = NVIC_ADC_IRQ (hw st)).
  { subst st1. now repeat split. }
  clear E1. destruct F1 as (F1c & F1s & F1l & F1a & F1r & F1b & F1n).
  assert (B1 : between_scans st1).
  { split.
    - destruct Hwf as (? & ? & ?). unfold wf. rewrite F1c, F1b, dma_store_length. auto.
    - split; [unfold irq_matched; now rewrite F1n, F1r|].
      rewrite F1r. intros R. destruct (Hcur R) as [? ?].
      unfold scan_list_current. rewrite F1s, F1l, (active_ids_ext _ _ F1a). now split. }
  assert (Tr1 : forall c k j, tracked c k j st -> tracked c k j st1).
  { intros c k j (s & Hs & R). exists s. now rewrite F1c. }
  assert (Act1 : forall c, ACTIVE_CHANNEL (dev st1) c = ACTIVE_CHANNEL (dev st) c).
  { intros c. unfold ACTIVE_CHANNEL. now rewrite F1a. }
  unfold irq_matched in Hm. rewrite F1n, Hm.
  destruct (running (dev st)) eqn:R.
  - destruct (handler_spec BUF st1 B1) as (st' & -> & B' & In' & Ac'); [now rewrite F1r|].
    exists st'. split; [reflexivity|]. split; [exact B'|]. split.
    + intros c k j Tr A. apply In'; [now apply Tr1|now rewrite Act1].
    + intros c k j Tr A _ Hj Hk. apply Ac'; [now apply Tr1|now rewrite Act1|exact Hj|exact Hk].
  - exists st1. split; [reflexivity|]. split; [exact B1|]. split.
    + intros c k j Tr A. split; [now apply Tr1|now rewrite Act1].
    + intros c k j _ _ Hr. discriminate Hr.
Qed.

(** ** A run of the handler on a scan list that is no longer current

    Between a stop or a start on the running device and the next
    completion the scan list is the one of the last rebuild: the handler
    serves the channels of that list. *)

Lemma scan_list_current_rebuilt st :
  scan_list_current st -> scan_list_rebuilt st.
Proof.
  intros [Ecs Esl]. split; [exact Esl|]. rewrite Ecs.
  split; [apply active_ids_NoDup|apply active_ids_Forall].
Qed.

Lemma handler_scan_list BUF st :
  wf st -> irq_matched st -> running (dev st) = true -> scan_list_rebuilt st ->
  exists st',
    DMA2_Stream0_IRQHandler BUF st = Some st' /\
    between_scans st' /\
    (forall c k j,
       tracked c k j st -> ~ In c (ch_state (dev st)) ->
       tracked c k j st' /\
       ACTIVE_CHANNEL (dev st') c = ACTIVE_CHANNEL (dev st) c /\
       (ACTIVE_CHANNEL (dev st) c = true -> running (dev st') = true)) /\
    (forall c k j,
       tracked c k j st -> In c (ch_state (dev st)) ->
       0 <= j < k -> k < 2 ^ 32 ->
       tracked c k (j + 1) st' /\
       ACTIVE_CHANNEL (dev st') c = ACTIVE_CHANNEL (dev st) c && (j + 1 <? k) /\
       (ACTIVE_CHANNEL (dev st) c = true -> j + 1 < k -> running (dev st') = true)).
Proof.
  intros Hwf Hm Hrun (Esl & Hnd & Hall).
  unfold DMA2_Stream0_IRQHandler. cbv zeta.
  remember (on_dev (set_seq_ctr 0) (on_hw DMA_ClearITPendingBit st)) as st0 eqn:E0.
  assert (F0 : chans st0 = chans st /\ ch_state (dev st0) = ch_state (dev st) /\
               seq_len (dev st0) = seq_len (dev st) /\ seq_ctr (dev st0) = 0%nat /\
               ch_active (dev st0) = ch_active (dev st) /\
               running (dev st0) = running (dev st) /\
               sample_buf (dev st0) = sample_buf (dev st) /\
               NVIC_ADC_IRQ (hw st0) = NVIC_ADC_IRQ (hw st)).
  { subst st0. now repeat split. }
  clear E0. destruct F0 as (F0c & F0s & F0l & F0z & F0a & F0r & F0b & F0n).
  assert (Hwf0 : wf st0).
  { destruct Hwf as (? & ? & ?). unfold wf. now rewrite F0c, F0b. }
  destruct (irq_loop_spec BUF (seq_len (dev st0)) st0 Hwf0) as (stL & -> & Rel & Un & Hit).
  { now rewrite F0l, F0s. }
  { now rewrite F0s. }
  { lia. }
  rewrite F0z, drop_0, F0s in Un, Hit.
  opt_step.
  destruct Rel as (Fr & W & M & Amono & Rrun & Zero).
  remember (on_dev (set_seq_ctr 0) stL) as st3 eqn:E3.
  assert (F3 : chans st3 = chans stL /\ ch_active (dev st3) = ch_active (dev stL) /\
               running (dev st3) = running (dev stL) /\
               sample_buf (dev st3) = sample_buf (dev stL) /\
               NVIC_ADC_IRQ (hw st3) = NVIC_ADC_IRQ (hw stL)).
  { subst st3. now repeat split. }
  clear E3. destruct F3 as (F3c & F3a & F3r & F3b & F3n).
  assert (Hwf3 : wf st3).
  { destruct (W Hwf0) as (? & ? & ?). unfold wf. now rewrite F3c, F3b. }
  assert (Hm3 : irq_matched st3).
  { unfold irq_matched. rewrite F3n, F3r. apply M. unfold irq_matched.
    now rewrite F0n, F0r. }
  destruct (irq_rearm_spec st3 Hwf3 Hm3) as (st' & -> & B' & Ea' & Er' & T').
  exists st'. split; [reflexivity|]. split; [exact B'|].
  assert (Tr0 : forall c k j, tracked c k j st -> tracked c k j st0).
  { intros c k j (s & Hs & R). exists s. now rewrite F0c. }
  assert (Tr3 : forall c k j, tracked c k j stL -> tracked c k j st').
  { intros c k j (s & Hs & R). apply T'. exists s. now rewrite F3c. }
  assert (Act : forall c, ACTIVE_CHANNEL (dev st') c = ACTIVE_CHANNEL (dev stL) c).
  { intros c. unfold ACTIVE_CHANNEL. now rewrite Ea', F3a. }
  assert (Act0 : forall c, ACTIVE_CHANNEL (dev st0) c = ACTIVE_CHANNEL (dev st) c).
  { intros c. unfold ACTIVE_CHANNEL. now rewrite F0a. }
  assert (Run : forall c, ACTIVE_CHANNEL (dev stL) c = true -> running (dev st') = true).
  { intros c Hc. rewrite Er', F3r, Rrun, F0r; [exact Hrun|].
    now apply (ACTIVE_nonzero _ c). }
  split.
  - intros c k j Tr Hnot.
    destruct (Un c Hnot) as [Uc Ua].
    split; [|split].
    + apply Tr3. apply (tracked_untouched c k j st0 stL); [now split|now apply Tr0].
    + now rewrite Act, Ua, Act0.
    + intros Hact. apply (Run c). now rewrite Ua, Act0.
  - intros c k j Tr Hin Hj Hk.
    destruct (Hit c k j Hin Hnd (Tr0 _ _ _ Tr) Hj Hk) as [TrL AL].
    rewrite Act0 in AL.
    split; [now apply Tr3|]. split; [now rewrite Act|].
    intros Hact Hlt. apply (Run c). rewrite AL, Hact. now apply Z.ltb_lt.
Qed.

Lemma scan_complete_scan_list BUF v st :
  wf st -> irq_matched st -> running (dev st) = true -> scan_list_rebuilt st ->
  exists st',
    scan_complete BUF v st = Some st' /\
    between_scans st' /\
    (forall c k j,
       tracked c k j st -> ~ In c (ch_state (dev st)) ->
       tracked c k j st' /\
       ACTIVE_CHANNEL (dev st') c = ACTIVE_CHANNEL (dev st) c /\
       (ACTIVE_CHANNEL (dev st) c = true -> running (dev st') = true)) /\
    (forall c k j,
       tracked c k j st -> In c (ch_state (dev st)) ->
       0 <= j < k -> k < 2 ^ 32 ->
       tracked c k (j + 1) st' /\
       ACTIVE_CHANNEL (dev st') c = ACTIVE_CHANNEL (dev st) c && (j + 1 <? k) /\
       (ACTIVE_CHANNEL (dev st) c = true -> j + 1 < k -> running (dev st') = true)).
Proof.
  intros Hwf Hm Hrun (Esl & Hnd & Hall). unfold scan_complete. cbv zeta.
  remember (on_hw (set_DMA_TCIF true)
              (on_dev (fun d => set_sample_buf (dma_store v (sample_buf d)) d) st))
    as st1 eqn:E1.
  assert (F1 : chans st1 = chans st /\ ch_state (dev st1) = ch_state (dev st) /\
               seq_len (dev st1) = seq_len (dev st) /\
               ch_active (dev st1) = ch_active (dev st) /\
               running (dev st1) = running (dev st) /\
               sample_buf (dev st1) = dma_store v (sample_buf (dev st)) /\
               NVIC_ADC_IRQ (hw st1) = NVIC_ADC_IRQ (hw st)).
  { subst st1. now repeat split. }
  clear E1. destruct F1 as (F1c & F1s & F1l & F1a & F1r & F1b & F1n).
  assert (Hwf1 : wf st1).
  { destruct Hwf as (? & ? & ?). unfold wf. rewrite F1c, F1b, dma_store_length. auto. }
  assert (Hm1 : irq_matched st1) by (unfold irq_matched; now rewrite F1n, F1r).
  assert (Hl1 : scan_list_rebuilt st1).
  { unfold scan_list_rebuilt. now rewrite F1s, F1l. }
  assert (Tr1 : forall c k j, tracked c k j st -> tracked c k j st1).
  { intros c k j (s & Hs & R). exists s. now rewrite F1c. }
  assert (Act1 : forall c, ACTIVE_CHANNEL (dev st1) c = ACTIVE_CHANNEL (dev st) c).
  { intros c. unfold ACTIVE_CHANNEL. now rewrite F1a. }
  unfold irq_matched in Hm. rewrite F1n, Hm, Hrun.
  destruct (handler_scan_list BUF st1 Hwf1 Hm1) as (st' & -> & B' & Out' & In');
    [now rewrite F1r|exact Hl1|].
  exists st'. split; [reflexivity|]. split; [exact B'|]. split.
  - intros c k j Tr Hnot.
    destruct (Out' c k j (Tr1 _ _ _ Tr)) as (T & A & R); [now rewrite F1s|].
    rewrite Act1 in A, R. exact (conj T (conj A R)).
  - intros c k j Tr Hin Hj Hk.
    destruct (In' c k j (Tr1 _ _ _ Tr)) as (T & A & R); [now rewrite F1s|exact Hj|exact Hk|].
    rewrite Act1 in A, R. exact (conj T (conj A R)).
Qed.

(** ** From the start of a channel to its last sample *)

Lemma start_arm_facts st :
  chans (start_arm st) = chans st /\
  ch_state (dev (start_arm st)) = ch_state (dev st) /\
  seq_len (dev (start_arm st)) = seq_len (dev st) /\
  ch_active (dev (start_arm st)) = ch_active (dev st) /\
  sample_buf (dev (start_arm st)) = sample_buf (dev st) /\
  running (dev (start_arm st)) = true /\
  NVIC_ADC_IRQ (hw (start_arm st)) = true.
Proof.
  unfold start_arm. cbv zeta.
  destruct (clocked _); now repeat split.
Qed.

Lemma start_channel_spec c k st s :
  wf st ->
  running (dev st) = false ->
  chans st !! c = Some s ->
  freerunning s = false ->
  exists st0,
    start_channel c k 0 st = Some st0 /\
    between_scans st0 /\
    running (dev st0) = true /\
    tracked c k 0 st0 /\
    ACTIVE_CHANNEL (dev st0) c = true.
Proof.
  intros Hwf Hrun Hs Hfr. unfold start_channel, adc_setup_channel.
  rewrite (ch_update_eq _ _ _ _ Hs). opt_step.
  remember (on_dev (ACTIVATE_CHANNEL c)
              (ch_store c (set_request k 0 (set_samples_delivered 0 (set_smooth_ready false s))) st))
    as st1 eqn:E1.
  assert (F1 : chans st1 = <[c := set_request k 0 (set_samples_delivered 0
                                     (set_smooth_ready false s))]> (chans st) /\
               sample_buf (dev st1) = sample_buf (dev st) /\
               running (dev st1) = running (dev st) /\
               ACTIVE_CHANNEL (dev st1) c = true).
  { subst st1. split; [reflexivity|]. split; [reflexivity|]. split; [reflexivity|].
    cbn [dev on_dev set_dev ch_store set_chans]. rewrite ACTIVE_after_ACTIVATE.
    rewrite bool_decide_eq_true_2 by reflexivity. apply orb_true_r. }
  clear E1. destruct F1 as (F1c & F1b & F1r & F1a).
  assert (Hwf1 : wf st1).
  { eapply wf_insert; [exact Hwf|exact Hs|exact F1c|exact F1b|reflexivity|reflexivity]. }
  assert (Tr1 : tracked c k 0 st1).
  { eexists. split.
    - rewrite F1c. apply list_lookup_insert_eq. now apply lookup_lt_Some in Hs.
    - now repeat split. }
  unfold platform_adc_start_sequence. rewrite F1r, Hrun. cbn [negb].
  destruct (update_dev_sequence_ok st1 Hwf1) as (gp & sq & ->).
  opt_step.
  pose proof (rebuilt_wf gp sq st1 Hwf1) as W5.
  pose proof (rebuilt_tracked gp sq st1 c k 0 Hwf1 Tr1) as T5.
  destruct (rebuilt_facts gp sq st1) as (_ & Es & El & Ea & _).
  remember (update_sequence_result gp sq (adc_rebuild_scan_list st1)) as st5 eqn:E5.
  clear E5.
  destruct (start_arm_facts st5) as (Gc & Gs & Gl & Ga & Gb & Gr & Gn).
  exists (start_arm st5). split; [reflexivity|]. split; [|split; [exact Gr|split]].
  - split.
    + destruct W5 as (? & ? & ?). unfold wf. now rewrite Gc, Gb.
    + split; [unfold irq_matched; now rewrite Gn, Gr|].
      intros _. unfold scan_list_current.
      rewrite Gs, Gl, Es, El, (active_ids_ext _ _ Ga), (active_ids_ext _ _ Ea). now split.
  - destruct T5 as (s5 & Hs5 & R5). exists s5. now rewrite Gc.
  - unfold ACTIVE_CHANNEL. rewrite Ga, Ea. exact F1a.
Qed.

Lemma scans_complete_spec BUF c k scans : forall st n,
  0 < k < 2 ^ 32 -> 0 <= n ->
  between_scans st ->
  tracked c k (Z.min n k) st ->
  ACTIVE_CHANNEL (dev st) c = (n <? k) ->
  (n < k -> running (dev st) = true) ->
  exists st',
    scans_complete BUF scans st = Some st' /\
    between_scans st' /\
    tracked c k (Z.min (n + Z.of_nat (length scans)) k) st' /\
    ACTIVE_CHANNEL (dev st') c = (n + Z.of_nat (length scans) <? k) /\
    (n + Z.of_nat (length scans) < k -> running (dev st') = true).
Proof.
  induction scans as [|v scans IH]; intros st n Hk Hn B Tr Ac Ru; cbn [scans_complete length].
  - exists st. change (Z.of_nat 0) with 0. rewrite Z.add_0_r.
    split; [reflexivity|]. exact (conj B (conj Tr (conj Ac Ru))).
  - destruct (scan_complete_spec BUF v st B) as (st1 & -> & B1 & In1 & Ac1).
    opt_step.
    replace (n + Z.of_nat (S (length scans))) with ((n + 1) + Z.of_nat (length scans)) by lia.
    apply IH; try assumption; try lia.
    + destruct (Z.ltb_spec n k) as [L|L].
      * rewrite Z.min_l in Tr by lia.
        destruct (Ac1 c k n Tr Ac (Ru L)) as (T1 & _); [lia|lia|].
        replace (Z.min (n + 1) k) with (n + 1) by lia. exact T1.
      * rewrite Z.min_r in Tr by lia.
        destruct (In1 c k k Tr Ac) as (T1 & _).
        replace (Z.min (n + 1) k) with k by lia. exact T1.
    + destruct (Z.ltb_spec n k) as [L|L].
      * rewrite Z.min_l in Tr by lia.
        destruct (Ac1 c k n Tr Ac (Ru L)) as (_ & A1 & _); [lia|lia|]. exact A1.
      * rewrite Z.min_r in Tr by lia.
        destruct (In1 c k k Tr Ac) as (_ & A1). rewrite A1.
        symmetry. apply Z.ltb_ge. lia.
    + intros L1. assert (L : n < k) by lia.
      rewrite (proj2 (Z.ltb_lt n k) L) in Ac.
      rewrite Z.min_l in Tr by lia.
      destruct (Ac1 c k n Tr Ac (Ru L)) as (_ & _ & R1); [lia|lia|]. now apply R1.
Qed.

(** Channel 1 is started for one sample while channel 2 is being sampled:
    the next completion serves the old scan list, and channel 1 is still
    active with nothing delivered after it. *)
Lemma start_on_running_device_counterexample :
  running (dev st_channel2) = true /\
  start_channel 1 1 0 st_channel2 = Some st_channel2_then_1 /\
  exists st',
    scans_complete true [[7; 8]] st_channel2_then_1 = Some st' /\
    ACTIVE_CHANNEL (dev st') 1 = true /\
    samples_delivered <$> chans st' !! 1%nat = Some 0.
Proof.
  split; [reflexivity|]. split; [vm_compute; reflexivity|].
  eexists. split; [vm_compute; reflexivity|]. split; reflexivity.
Qed.

(** The start of a channel on the running device: the channel is set up
    and marked active, and the start routine leaves the rest alone. *)
Lemma start_channel_running c k st s :
  wf st ->
  running (dev st) = true ->
  chans st !! c = Some s ->
  freerunning s = false ->
  exists st0,
    start_channel c k 0 st = Some st0 /\
    wf st0 /\
    tracked c k 0 st0 /\
    ACTIVE_CHANNEL (dev st0) c = true /\
    running (dev st0) = true /\
    hw st0 = hw st /\
    ch_state (dev st0) = ch_state (dev st) /\
    seq_len (dev st0) = seq_len (dev st).
Proof.
  intros Hwf Hrun Hs Hfr. unfold start_channel, adc_setup_channel.
  rewrite (ch_update_eq _ _ _ _ Hs). opt_step.
  remember (on_dev (ACTIVATE_CHANNEL c)
              (ch_store c (set_request k 0 (set_samples_delivered 0 (set_smooth_ready false s))) st))
    as st1 eqn:E1.
  assert (F1 : chans st1 = <[c := set_request k 0 (set_samples_delivered 0
                                     (set_smooth_ready false s))]> (chans st) /\
               sample_buf (dev st1) = sample_buf (dev st) /\
               running (dev st1) = running (dev st) /\
               ACTIVE_CHANNEL (dev st1) c = true /\
               hw st1 = hw st /\
               ch_state (dev st1) = ch_state (dev st) /\
               seq_len (dev st1) = seq_len (dev st)).
  { subst st1. split; [reflexivity|]. split; [reflexivity|]. split; [reflexivity|].
    split; [|now repeat split].
    cbn [dev on_dev set_dev ch_store set_chans]. rewrite ACTIVE_after_ACTIVATE.
    rewrite bool_decide_eq_true_2 by reflexivity. apply orb_true_r. }
  clear E1. destruct F1 as (F1c & F1b & F1r & F1a & F1h & F1s & F1l).
  assert (R1 : running (dev st1) = true) by (now rewrite F1r).
  rewrite (start_sequence_running_again st1 R1). opt_step.
  exists st1. split; [reflexivity|]. split.
  { eapply wf_insert; [exact Hwf|exact Hs|exact F1c|exact F1b|reflexivity|reflexivity]. }
  split.
  { eexists. split.
    - rewrite F1c. apply list_lookup_insert_eq. now apply lookup_lt_Some in Hs.
    - now repeat split. }
  exact (conj F1a (conj R1 (conj F1h (conj F1s F1l)))).
Qed.

(** C1, amended.  For every channel of the table that is not free-running
    and is started with a requested sample count k > 0 and smoothing depth
    0 (on a running device: the completion interrupt enabled, the scan
    list the one of a rebuild): the start succeeds, and the channel is
    served from the first completion on if the device was idle, or if the
    channel was still in the scan list; on a running device whose scan
    list does not hold the channel the first completion delivers nothing
    to it and puts it into the scan list.  With d = [start_delay], the
    number (0 or 1) of completions that pass unserved, the channel has had
    min(max(n - d, 0), k) samples counted after n completed scans and is
    active exactly when n - d < k.  So each completion from then on counts
    one sample for it, the k-th of them stops it with [samples_delivered]
    = k, and no later completion delivers to it.  The device is running
    as long as the channel is active, and the channel table stays in
    place. *)
Theorem start_then_scans (BUF : bool) (st : adc_system) (c : nat) (k : Z)
    (s : elua_adc_ch_state) :
  wf st ->
  (running (dev st) = true -> irq_matched st /\ scan_list_rebuilt st) ->
  chans st !! c = Some s ->
  freerunning s = false ->
  0 < k < 2 ^ 32 ->
  exists st0,
    start_channel c k 0 st = Some st0 /\
    tracked c k 0 st0 /\
    ACTIVE_CHANNEL (dev st0) c = true /\
    forall scans : list (list Z),
      exists st',
        scans_complete BUF scans st0 = Some st' /\
        tracked c k (Z.min (Z.max 0 (Z.of_nat (length scans) - start_delay c st)) k) st' /\
        ACTIVE_CHANNEL (dev st') c = (Z.of_nat (length scans) - start_delay c st <? k) /\
        (Z.of_nat (length scans) - start_delay c st < k -> running (dev st') = true) /\
        wf st'.
Proof.
  intros Hwf Hinv Hs Hfr Hk. unfold start_delay.
  destruct (running (dev st)) eqn:Hrun.
  - (* the device is running: the scan list stays as it is *)
    destruct (Hinv eq_refl) as (Hm & Hl).
    destruct (start_channel_running c k st s Hwf Hrun Hs Hfr)
      as (st0 & -> & W0 & T0 & A0 & R0 & H0 & S0 & L0).
    exists st0. split; [reflexivity|]. split; [exact T0|]. split; [exact A0|].
    assert (Hm0 : irq_matched st0).
    { unfold irq_matched in *. now rewrite H0, R0, Hm. }
    assert (Hl0 : scan_list_rebuilt st0).
    { unfold scan_list_rebuilt in *. now rewrite S0, L0. }
    intros [|v scans]; cbn [scans_complete length andb].
    { exists st0. split; [reflexivity|]. change (Z.of_nat 0) with 0.
      destruct (negb _).
      - replace (Z.min (Z.max 0 (0 - 1)) k) with 0 by lia.
        split; [exact T0|]. split; [rewrite A0; symmetry; apply Z.ltb_lt; lia|].
        split; [intros _; exact R0|exact W0].
      - replace (Z.min (Z.max 0 (0 - 0)) k) with 0 by lia.
        split; [exact T0|]. split; [rewrite A0; symmetry; apply Z.ltb_lt; lia|].
        split; [intros _; exact R0|exact W0]. }
    destruct (scan_complete_scan_list BUF v st0 W0 Hm0 R0 Hl0)
      as (st1 & -> & B1 & Out1 & In1).
    opt_step.
    case_bool_decide as Hin; cbn [negb].
    + (* the channel is in the scan list: served at once *)
      assert (Hin0 : In c (ch_state (dev st0))) by (rewrite S0; now apply list_elem_of_In).
      destruct (In1 c k 0 T0 Hin0) as (T1 & A1 & R1); [lia|lia|].
      rewrite A0 in A1. cbn [andb] in A1. change (0 + 1) with 1 in T1, A1, R1.
      assert (T1' : tracked c k (Z.min 1 k) st1) by (now rewrite Z.min_l by lia).
      destruct (scans_complete_spec BUF c k scans st1 1 Hk ltac:(lia) B1 T1' A1 (R1 A0))
        as (st' & E & B & T & A & R).
      exists st'. split; [exact E|].
      replace (Z.of_nat (S (length scans)) - 0) with (1 + Z.of_nat (length scans)) by lia.
      replace (Z.max 0 (1 + Z.of_nat (length scans))) with (1 + Z.of_nat (length scans))
        by lia.
      exact (conj T (conj A (conj R (proj1 B)))).
    + (* it is not: this completion passes it by and rebuilds the list *)
      assert (Hin0 : ~ In c (ch_state (dev st0))).
      { rewrite S0. intros H. apply Hin. now apply list_elem_of_In. }
      destruct (Out1 c k 0 T0 Hin0) as (T1 & A1 & R1).
      rewrite A0 in A1.
      assert (T1' : tracked c k (Z.min 0 k) st1) by (now rewrite Z.min_l by lia).
      assert (A1' : ACTIVE_CHANNEL (dev st1) c = (0 <? k)).
      { rewrite A1. symmetry. apply Z.ltb_lt. lia. }
      destruct (scans_complete_spec BUF c k scans st1 0 Hk (Z.le_refl 0) B1 T1' A1'
                  (fun _ => R1 A0))
        as (st' & E & B & T & A & R).
      exists st'. split; [exact E|].
      replace (Z.of_nat (S (length scans)) - 1) with (0 + Z.of_nat (length scans)) by lia.
      replace (Z.max 0 (0 + Z.of_nat (length scans))) with (0 + Z.of_nat (length scans))
        by lia.
      exact (conj T (conj A (conj R (proj1 B)))).
  - (* the device is idle: the start routine rebuilds the scan list *)
    cbn [andb].
    destruct (start_channel_spec c k st s Hwf Hrun Hs Hfr) as (st0 & -> & B0 & R0 & T0 & A0).
    exists st0. split; [reflexivity|]. split; [exact T0|]. split; [exact A0|].
    intros scans.
    assert (T0' : tracked c k (Z.min 0 k) st0) by (now rewrite Z.min_l by lia).
    assert (A0' : ACTIVE_CHANNEL (dev st0) c = (0 <? k)).
    { rewrite A0. symmetry. apply Z.ltb_lt. lia. }
    destruct (scans_complete_spec BUF c k scans st0 0 Hk (Z.le_refl 0) B0 T0' A0' (fun _ => R0))
      as (st' & E & B & T & A & R).
    exists st'. split; [exact E|].
    rewrite Z.add_0_l in T, A, R. rewrite Z.sub_0_r.
    replace (Z.max 0 (Z.of_nat (length scans))) with (Z.of_nat (length scans)) by lia.
    exact (conj T (conj A (conj R (proj1 B)))).
Qed.

(** ** The DMA template is never touched again *)

Lemma dma_template_frame st st' :
  irq_frame st st' -> dma_template_ok st -> dma_template_ok st'.
Proof. unfold dma_template_ok. intros (_ & -> & _) H. exact H. Qed.

Lemma dma_template_stop id st st' :
  platform_adc_stop id st = Some st' -> dma_template_ok st -> dma_template_ok st'.
Proof. intros H. apply dma_template_frame. now apply irq_frame_stop in H. Qed.

Lemma dma_template_set_clock HCLK id f st r :
  platform_adc_set_clock HCLK id f st = Some r -> dma_template_ok st -> dma_template_ok (snd r).
Proof.
  intros H. apply set_clock_dma_init_struct in H. unfold dma_template_ok. now rewrite H.
Qed.

Lemma dma_template_rebuilt gp sq st :
  dma_template_ok st -> dma_template_ok (update_sequence_result gp sq st).
Proof. intros [? ?]. now split. Qed.

Lemma dma_template_handler BUF st st' :
  DMA2_Stream0_IRQHandler BUF st = Some st' -> dma_template_ok st -> dma_template_ok st'.
Proof.
  unfold DMA2_Stream0_IRQHandler, irq_rearm. intros H T.
  destruct (irq_loop BUF _ _) as [st3|] eqn:L; [|discriminate]. opt_step in H.
  apply irq_frame_loop in L.
  assert (T3 : dma_template_ok (on_dev (set_seq_ctr 0) st3)).
  { eapply dma_template_frame; [|exact T].
    eapply irq_frame_trans; [|apply irq_frame_seq_ctr].
    eapply irq_frame_trans; [|exact L]. now repeat split. }
  remember (on_dev (set_seq_ctr 0) st3) as st4 eqn:E4. clear E4.
  destruct (running (dev st4)).
  - destruct (adc_update_dev_sequence st4) as [r|] eqn:U; [|discriminate].
    apply update_dev_sequence_frame in U as (gp & sq & ->). opt_step in H.
    injection H as <-.
    assert (T5 : dma_template_ok (update_sequence_result gp sq (adc_rebuild_scan_list st4)))
      by (now apply dma_template_rebuilt).
    now destruct (_ && _).
  - opt_step in H. injection H as <-. now destruct (_ && _).
Qed.

Lemma start_arm_dma_init_struct st : dma_init_struct (start_arm st) = dma_init_struct st.
Proof. unfold start_arm. cbv zeta. now destruct (clocked _). Qed.

Lemma dma_template_start st r :
  platform_adc_start_sequence st = Some r -> dma_template_ok st -> dma_template_ok (snd r).
Proof.
  intros H T. destruct (running (dev st)) eqn:R.
  - rewrite (start_sequence_running_again st R) in H. now injection H as <-.
  - apply (start_sequence_idle _ _ R) in H as (gp & sq & ->).
    unfold dma_template_ok. cbn [snd]. rewrite start_arm_dma_init_struct.
    now apply dma_template_rebuilt.
Qed.

(** ** The statements at concrete states *)

Lemma wf_st_idle : wf st_idle.
Proof. wf_concrete. Qed.

Lemma wf_st_channel2 : wf st_channel2.
Proof. wf_concrete. Qed.

Lemma wf_st_channel1_stopped : wf st_channel1_stopped.
Proof. wf_concrete. Qed.

Lemma scan_list_rebuilt_st_channel2 : scan_list_rebuilt st_channel2.
Proof.
  split; [reflexivity|]. split.
  - change (ch_state (dev st_channel2)) with [2%nat].
    apply List.NoDup_cons; [intros []|apply List.NoDup_nil].
  - change (ch_state (dev st_channel2)) with [2%nat].
    repeat constructor; unfold NUM_ADC; lia.
Qed.

Lemma scan_list_rebuilt_st_channel1_stopped : scan_list_rebuilt st_channel1_stopped.
Proof.
  split; [reflexivity|]. split.
  - change (ch_state (dev st_channel1_stopped)) with [1%nat; 2%nat].
    apply List.NoDup_cons; [intros [H|[]]; discriminate H|].
    apply List.NoDup_cons; [intros []|apply List.NoDup_nil].
  - change (ch_state (dev st_channel1_stopped)) with [1%nat; 2%nat].
    repeat constructor; unfold NUM_ADC; lia.
Qed.

(** Channel 2 started for 5 samples on the idle device: inactive with 5
    samples after 5 scans, and after 6.  Channel 1 started for one sample
    while channel 2 is being sampled: passed by at the first completion,
    served and stopped by the second.  Channel 1 started again after a
    stop that left it in the scan list: served and stopped by the first
    completion. *)
Lemma start_then_scans_witness :
  (exists st0 st5 st6,
    start_channel 2 5 0 st_idle = Some st0 /\
    scans_complete true (replicate 5 [7]) st0 = Some st5 /\
    tracked 2 5 5 st5 /\ ACTIVE_CHANNEL (dev st5) 2 = false /\
    scans_complete true (replicate 6 [7]) st0 = Some st6 /\
    tracked 2 5 5 st6 /\ ACTIVE_CHANNEL (dev st6) 2 = false) /\
  (exists st0 st1 st2,
    start_channel 1 1 0 st_channel2 = Some st0 /\
    scans_complete true [[7; 8]] st0 = Some st1 /\
    tracked 1 1 0 st1 /\ ACTIVE_CHANNEL (dev st1) 1 = true /\
    scans_complete true [[7; 8]; [7; 8]] st0 = Some st2 /\
    tracked 1 1 1 st2 /\ ACTIVE_CHANNEL (dev st2) 1 = false) /\
  (exists st0 st1,
    In 1%nat (ch_state (dev st_channel1_stopped)) /\
    ACTIVE_CHANNEL (dev st_channel1_stopped) 1 = false /\
    start_channel 1 1 0 st_channel1_stopped = Some st0 /\
    scans_complete true [[7; 8]] st0 = Some st1 /\
    tracked 1 1 1 st1 /\ ACTIVE_CHANNEL (dev st1) 1 = false).
Proof.
  split; [|split].
  - destruct (start_then_scans true st_idle 2 5
                (mkCh 2 false false false false 0 0 0 0 0 0 [] 8))
      as (st0 & E0 & _ & _ & H);
      [exact wf_st_idle|intros R; discriminate R|reflexivity|reflexivity|lia|].
    destruct (H (replicate 5 [7])) as (st5 & E5 & T5 & A5 & _).
    destruct (H (replicate 6 [7])) as (st6 & E6 & T6 & A6 & _).
    exists st0, st5, st6.
    exact (conj E0 (conj E5 (conj T5 (conj A5 (conj E6 (conj T6 A6)))))).
  - destruct (start_then_scans true st_channel2 1 1
                (mkCh 1 false false false false 0 0 0 0 0 0 [] 8))
      as (st0 & E0 & _ & _ & H);
      [exact wf_st_channel2
      |intros _; split; [reflexivity|exact scan_list_rebuilt_st_channel2]
      |reflexivity|reflexivity|lia|].
    destruct (H [[7; 8]]) as (st1 & E1 & T1 & A1 & _).
    destruct (H [[7; 8]; [7; 8]]) as (st2 & E2 & T2 & A2 & _).
    exists st0, st1, st2.
    exact (conj E0 (conj E1 (conj T1 (conj A1 (conj E2 (conj T2 A2)))))).
  - destruct (start_then_scans true st_channel1_stopped 1 1
                (mkCh 1 false false false false 0 1 0 0 0 0 [] 8))
      as (st0 & E0 & _ & _ & H);
      [exact wf_st_channel1_stopped
      |intros _; split; [reflexivity|exact scan_list_rebuilt_st_channel1_stopped]
      |reflexivity|reflexivity|lia|].
    destruct (H [[7; 8]]) as (st1 & E1 & T1 & A1 & _).
    exists st0, st1.
    split; [now left|]. split; [reflexivity|].
    exact (conj E0 (conj E1 (conj T1 A1))).
Defined.

(** Channel 2 is the only active channel; stopping it stops the device
    and changes nothing else of the channels. *)
Lemma platform_adc_stop_last_channel_witness :
  exists st',
    platform_adc_stop 2 st_channel2 = Some st' /\
    ACTIVE_CHANNEL (dev st') 2 = false /\
    op_pending <$> adc_get_ch_state 2 st' = Some false /\
    trigger_edge (hw st') = ADC_ExternalTrigConvEdge_None /\
    NVIC_ADC_IRQ (hw st') = false /\
    running (dev st') = false /\
    chans st' = chans st_channel2 /\
    ch_state (dev st') = [2%nat].
Proof.
  destruct (platform_adc_stop_last_channel 2 st_channel2
              (mkCh 2 false false false false 0 5 0 0 0 0 [] 8) eq_refl)
    as (st' & E & A & O & L & C & _ & S & _).
  exists st'. split; [exact E|]. split; [exact A|]. split; [exact O|].
  assert (H : forall j, j <> 2%nat -> ACTIVE_CHANNEL (dev st_channel2) j = false).
  { intros j Hj. unfold ACTIVE_CHANNEL.
    change (ch_active (dev st_channel2)) with (Z.shiftl 1 (Z.of_nat 2)).
    rewrite testbit_one_shiftl. apply bool_decide_eq_false_2. congruence. }
  destruct (L H) as (L1 & L2 & L3).
  split; [exact L1|]. split; [exact L2|]. split; [exact L3|].
  split; [rewrite C; reflexivity|rewrite S; reflexivity].
Defined.


(** * Further properties of the code *)

(** ** The two register functions *)

Lemma land_edge_reset n :
  Z.land (match n with
          | ENABLE => ADC_ExternalTrigConvEdge_Rising
          | DISABLE => ADC_ExternalTrigConvEdge_None
          end) CR2_EXTEN_RESET = 0.
Proof. now destruct n. Qed.

Lemma set_ADC_CR2_same h : set_ADC_CR2 (ADC_CR2 h) h = h.
Proof. now destruct h. Qed.

Lemma TRIG_CFG_twice m n h : ADC_TRIG_CFG m (ADC_TRIG_CFG n h) = ADC_TRIG_CFG m h.
Proof.
  unfold ADC_TRIG_CFG, ADC_ExternalTrigConvCmd. cbv zeta.
  cbn [ADC_CR2 set_ADC_CR2]. unfold set_ADC_CR2 at 1. cbn [ADC_CR2 set_ADC_CR2].
  unfold set_ADC_CR2. f_equal.
  rewrite Z.land_lor_distr_l, land_edge_reset, Z.lor_0_r.
  now rewrite <- Z.land_assoc, Z.land_diag.
Qed.


Lemma SWSTART_mask_bits i :
  0 <= i ->
  Z.testbit (u32 (Z.lnot ADC_CR2_SWSTART)) i = (i <? 32) && negb (i =? 30).
Proof.
  intros Hi. change (u32 (Z.lnot ADC_CR2_SWSTART)) with 0xBFFFFFFF.
  destruct (Z.ltb_spec i 32) as [L|L].
  - rewrite <- (Z2Nat.id i) by lia.
    assert (Hn : (Z.to_nat i < 32)%nat) by lia.
    generalize dependent (Z.to_nat i). intros n Hn.
    do 32 (destruct n as [|n]; [reflexivity|]). lia.
  - apply Z.bits_above_log2; [lia|]. change (Z.log2 0xBFFFFFFF) with 31. lia.
Qed.

Lemma u32_bits_above x i : is_u32 x -> 32 <= i -> Z.testbit x i = false.
Proof.
  intros [H0 H1] Hi. destruct (Z.eq_dec x 0) as [->|Hx]; [apply Z.bits_0|].
  apply Z.bits_above_log2; [lia|].
  assert (Z.log2 x < 32) by (apply Z.log2_lt_pow2; lia). lia.
Qed.

(** X2. [ADC_SoftwareStartConvCmd] with DISABLE takes the software start
    back and leaves the trigger edge as it is; it undoes an ENABLE: on a
    32-bit CR2 without a software start, ENABLE followed by DISABLE gives
    the registers back unchanged. *)
Theorem software_start_cmd_round_trip (h : hw_state) :
  software_start (ADC_SoftwareStartConvCmd DISABLE h) = false /\
  trigger_edge (ADC_SoftwareStartConvCmd DISABLE h) = trigger_edge h /\
  ADC_SoftwareStartConvCmd DISABLE (ADC_SoftwareStartConvCmd ENABLE h) =
    ADC_SoftwareStartConvCmd DISABLE h /\
  (is_u32 (ADC_CR2 h) -> software_start h = false ->
   ADC_SoftwareStartConvCmd DISABLE (ADC_SoftwareStartConvCmd ENABLE h) = h).
Proof.
  assert (E3 : ADC_SoftwareStartConvCmd DISABLE (ADC_SoftwareStartConvCmd ENABLE h) =
               ADC_SoftwareStartConvCmd DISABLE h).
  { unfold ADC_SoftwareStartConvCmd, set_ADC_CR2; cbn [ADC_CR2]. f_equal.
    rewrite Z.land_lor_distr_l.
    change (Z.land ADC_CR2_SWSTART (u32 (Z.lnot ADC_CR2_SWSTART))) with 0.
    apply Z.lor_0_r. }
  split; [|split; [|split; [exact E3|]]].
  - unfold software_start, ADC_SoftwareStartConvCmd, set_ADC_CR2; cbn [ADC_CR2].
    rewrite Z.land_spec, SWSTART_mask_bits by lia. apply andb_false_r.
  - unfold trigger_edge, ADC_SoftwareStartConvCmd, set_ADC_CR2; cbn [ADC_CR2].
    rewrite <- Z.land_assoc.
    now change (Z.land (u32 (Z.lnot ADC_CR2_SWSTART)) CR2_EXTEN) with CR2_EXTEN.
  - intros Hu Hs. rewrite E3.
    unfold ADC_SoftwareStartConvCmd.
    transitivity (set_ADC_CR2 (ADC_CR2 h) h); [|apply set_ADC_CR2_same]. f_equal.
    apply Z.bits_inj'. intros i Hi.
    rewrite Z.land_spec, SWSTART_mask_bits by exact Hi.
    destruct (Z.ltb_spec i 32) as [L|L].
    + destruct (Z.eqb_spec i 30) as [->|Hne]; cbn [andb negb].
      * unfold software_start in Hs. rewrite Hs. reflexivity.
      * apply andb_true_r.
    + rewrite (u32_bits_above _ _ Hu L). reflexivity.
Qed.

Lemma software_start_cmd_round_trip_witness :
  ADC_SoftwareStartConvCmd DISABLE (ADC_SoftwareStartConvCmd ENABLE (hw st_idle)) = hw st_idle.
Proof.
  apply (software_start_cmd_round_trip (hw st_idle)).
  - unfold is_u32. vm_compute. split; [discriminate|reflexivity].
  - reflexivity.
Defined.

(** ** [platform_adc_stop], once more *)

Lemma ldiff_twice a b : Z.ldiff (Z.ldiff a b) b = Z.ldiff a b.
Proof.
  apply Z.bits_inj'. intros n _. rewrite !Z.ldiff_spec.
  now destruct (Z.testbit a n), (Z.testbit b n).
Qed.

(** X3. Stopping a channel while another one is active changes the record
    of the stopped channel (its [op_pending]) and its bit of the active
    mask, and nothing else: the device keeps running, the registers, the
    interrupt enable and the init structures are as before, every other
    channel is untouched.  The scan list is not rebuilt: the stopped
    channel stays in it. *)
Theorem platform_adc_stop_other_active
    (id j : nat) (st : adc_system) (s : elua_adc_ch_state) :
  adc_get_ch_state id st = Some s ->
  j <> id ->
  ACTIVE_CHANNEL (dev st) j = true ->
  exists st',
    platform_adc_stop id st = Some st' /\
    chans st' !! id = Some (set_op_pending false s) /\
    ACTIVE_CHANNEL (dev st') id = false /\
    (forall c, c <> id -> untouched c st st') /\
    running (dev st') = running (dev st) /\
    hw st' = hw st /\
    nvic_init_structure_adc st' = nvic_init_structure_adc st /\
    adc_init_struct st' = adc_init_struct st /\
    dma_init_struct st' = dma_init_struct st /\
    ch_state (dev st') = ch_state (dev st) /\
    seq_len (dev st') = seq_len (dev st).
Proof.
  intros Hs Hj Hact. rewrite (platform_adc_stop_eq _ _ _ Hs). cbv zeta.
  assert (Hne : ch_active (dev (on_dev (INACTIVATE_CHANNEL id)
                  (ch_store id (set_op_pending false s) st))) <> 0).
  { apply (ACTIVE_nonzero _ j).
    change (ACTIVE_CHANNEL (INACTIVATE_CHANNEL id (dev st)) j = true).
    rewrite ACTIVE_after_INACTIVATE, Hact.
    now rewrite bool_decide_eq_false_2 by congruence. }
  destruct (Z.eqb_spec (ch_active (dev (on_dev (INACTIVATE_CHANNEL id)
                  (ch_store id (set_op_pending false s) st)))) 0) as [E|_];
    [contradiction|].
  eexists; split; [reflexivity|].
  split; [exact (lookup_ch_store_eq _ _ _ _ Hs)|].
  split.
  { change (ACTIVE_CHANNEL (INACTIVATE_CHANNEL id (dev st)) id = false).
    rewrite ACTIVE_after_INACTIVATE, bool_decide_eq_true_2 by reflexivity.
    apply andb_false_r. }
  split.
  { intros c Hc. split.
    - apply (lookup_ch_store_ne id c). congruence.
    - change (ACTIVE_CHANNEL (INACTIVATE_CHANNEL id (dev st)) c = ACTIVE_CHANNEL (dev st) c).
      rewrite ACTIVE_after_INACTIVATE, bool_decide_eq_false_2 by congruence.
      apply andb_true_r. }
  now repeat split.
Qed.

Lemma platform_adc_stop_other_active_witness :
  exists st',
    platform_adc_stop 1 st_channel2_then_1 = Some st' /\
    running (dev st') = true /\
    hw st' = hw st_channel2_then_1 /\
    ch_state (dev st') = ch_state (dev st_channel2_then_1).
Proof.
  destruct (platform_adc_stop_other_active 1 2 st_channel2_then_1
              (mkCh 1 false false false false 0 1 0 0 0 0 [] 8))
    as (st' & E & _ & _ & _ & R & H & _ & _ & _ & C & _);
    [reflexivity|lia|reflexivity|].
  exists st'. split; [exact E|]. split; [rewrite R; reflexivity|]. now split.
Defined.

Lemma adc_system_ext (a b : adc_system) :
  dev a = dev b -> chans a = chans b ->
  adc_init_struct a = adc_init_struct b -> dma_init_struct a = dma_init_struct b ->
  nvic_init_structure_adc a = nvic_init_structure_adc b -> hw a = hw b ->
  a = b.
Proof. destruct a, b; cbn; congruence. Qed.

Lemma INACTIVATE_twice id d :
  INACTIVATE_CHANNEL id (INACTIVATE_CHANNEL id d) = INACTIVATE_CHANNEL id d.
Proof.
  unfold INACTIVATE_CHANNEL, set_ch_active. cbn [ch_active]. now rewrite ldiff_twice.
Qed.

Lemma NVIC_Init_TRIG_CFG a n h :
  NVIC_Init a (ADC_TRIG_CFG n h) = ADC_TRIG_CFG n (NVIC_Init a h).
Proof. reflexivity. Qed.

(** X4. [platform_adc_stop] is idempotent: stopping a channel that has
    just been stopped changes nothing. *)
Theorem platform_adc_stop_idempotent (id : nat) (st st' : adc_system) :
  platform_adc_stop id st = Some st' ->
  platform_adc_stop id st' = Some st'.
Proof.
  intros H.
  destruct (adc_get_ch_state id st) as [s|] eqn:Hs;
    [|unfold platform_adc_stop in H; rewrite Hs in H; discriminate].
  rewrite (platform_adc_stop_eq _ _ _ Hs) in H. cbv zeta in H.
  injection H as <-.
  assert (Hlt : (id < length (chans st))%nat) by (now apply lookup_lt_Some in Hs).
  destruct (Z.ldiff (ch_active (dev st)) (Z.shiftl 1 (Z.of_nat id)) =? 0) eqn:E.
  - rewrite (platform_adc_stop_eq _ _ (set_op_pending false s)).
    2:{ unfold adc_get_ch_state. cbn. now apply list_lookup_insert_eq. }
    cbv zeta.
    change (ch_active (dev (on_dev (INACTIVATE_CHANNEL id) (ch_store id _ _))))
      with (Z.ldiff (Z.ldiff (ch_active (dev st)) (Z.shiftl 1 (Z.of_nat id)))
                    (Z.shiftl 1 (Z.of_nat id))).
    rewrite ldiff_twice, E. f_equal.
    apply adc_system_ext; try reflexivity.
    + change (set_running false (INACTIVATE_CHANNEL id
                (set_running false (INACTIVATE_CHANNEL id (dev st)))) =
              set_running false (INACTIVATE_CHANNEL id (dev st))).
      rewrite <- (INACTIVATE_twice id (dev st)) at 2. reflexivity.
    + change (<[id:=set_op_pending false s]> (<[id:=set_op_pending false s]> (chans st)) =
              <[id:=set_op_pending false s]> (chans st)).
      apply list_insert_insert_eq.
    + change (NVIC_Init DISABLE (ADC_TRIG_CFG DISABLE
                (NVIC_Init DISABLE (ADC_TRIG_CFG DISABLE (hw st)))) =
              NVIC_Init DISABLE (ADC_TRIG_CFG DISABLE (hw st))).
      now rewrite (NVIC_Init_TRIG_CFG DISABLE DISABLE (hw st)), TRIG_CFG_twice.
  - rewrite (platform_adc_stop_eq _ _ (set_op_pending false s)).
    2:{ unfold adc_get_ch_state. cbn. now apply list_lookup_insert_eq. }
    cbv zeta.
    change (ch_active (dev (on_dev (INACTIVATE_CHANNEL id) (ch_store id _ _))))
      with (Z.ldiff (Z.ldiff (ch_active (dev st)) (Z.shiftl 1 (Z.of_nat id)))
                    (Z.shiftl 1 (Z.of_nat id))).
    rewrite ldiff_twice, E. f_equal.
    apply adc_system_ext; try reflexivity.
    + change (INACTIVATE_CHANNEL id (INACTIVATE_CHANNEL id (dev st)) =
              INACTIVATE_CHANNEL id (dev st)).
      apply INACTIVATE_twice.
    + change (<[id:=set_op_pending false s]> (<[id:=set_op_pending false s]> (chans st)) =
              <[id:=set_op_pending false s]> (chans st)).
      apply list_insert_insert_eq.
Qed.

Lemma platform_adc_stop_idempotent_witness :
  exists st',
    platform_adc_stop 2 st_channel2 = Some st' /\
    platform_adc_stop 2 st' = Some st'.
Proof.
  destruct (platform_adc_stop 2 st_channel2) as [st'|] eqn:E; [|discriminate E].
  exists st'. split; [reflexivity|].
  exact (platform_adc_stop_idempotent 2 st_channel2 st' E).
Defined.

(** ** [platform_adc_update_sequence], once more *)

Lemma omap_seq_length {A} (f : nat -> option A) n : forall from,
  (forall j, (from <= j < from + n)%nat -> is_Some (f j)) ->
  length (omap f (seq from n)) = n.
Proof.
  induction n as [|n IH]; intros from H; cbn [seq omap list_omap]; [reflexivity|].
  destruct (H from) as [x ->]; [lia|]. cbn [length]. f_equal.
  apply IH. intros j Hj. apply H. lia.
Qed.

Lemma omap_seq_lookup {A} (f : nat -> option A) n : forall from i,
  (forall j, (from <= j < from + n)%nat -> is_Some (f j)) ->
  (i < n)%nat ->
  omap f (seq from n) !! i = f (from + i)%nat.
Proof.
  induction n as [|n IH]; intros from i H Hi; [lia|]. cbn [seq omap list_omap].
  destruct (H from) as [x Hx]; [lia|]. rewrite Hx.
  destruct i as [|i].
  - now rewrite Nat.add_0_r, Hx.
  - change ((x :: omap f (seq (S from) n)) !! S i) with (omap f (seq (S from) n) !! i).
    rewrite (IH (S from) i); [f_equal; lia| |lia].
    intros j Hj. apply H. lia.
Qed.

Lemma scan_ranks_ext st st' from n :
  chans st' = chans st -> ch_state (dev st') = ch_state (dev st) ->
  scan_ranks st' from n = scan_ranks st from n /\ scan_pins st' from n = scan_pins st from n.
Proof. unfold scan_ranks, scan_pins, scan_rank, scan_pin. now intros -> ->. Qed.

Lemma scan_list_ok_rank st i :
  scan_list_ok st -> (i < seq_len (dev st))%nat ->
  is_Some (scan_rank st i) /\ is_Some (scan_pin st i).
Proof.
  intros Hok Hi. destruct (Hok i Hi) as (p & s & Hp & Hs & Hid).
  unfold scan_rank, scan_pin. rewrite Hp. opt_step. rewrite Hs. opt_step.
  destruct (lookup_lt_is_Some_2 adc_gpio_pins (ch_id s)) as [pin ->]; [exact Hid|].
  destruct (lookup_lt_is_Some_2 adc_gpio_port (ch_id s)) as [port ->]; [exact Hid|].
  opt_step. split; eexists; reflexivity.
Qed.

(** A turn of the loop appends the rank of its position and adds its pin. *)
Lemma update_sequence_body_rank st :
  scan_list_ok st -> (seq_ctr (dev st) < seq_len (dev st))%nat ->
  exists st' r pp,
    update_sequence_body st = Some st' /\
    scan_rank st (seq_ctr (dev st)) = Some r /\
    scan_pin st (seq_ctr (dev st)) = Some pp /\
    ADC_SQR (hw st') = ADC_SQR (hw st) ++ [r] /\
    GPIO_AN (hw st') = pp :: GPIO_AN (hw st) /\
    chans st' = chans st /\ ch_state (dev st') = ch_state (dev st) /\
    seq_ctr (dev st') = S (seq_ctr (dev st)) /\
    seq_len (dev st') = seq_len (dev st).
Proof.
  intros Hok Hlt. destruct (Hok _ Hlt) as (p & s & Hp & Hs & Hid).
  unfold update_sequence_body, scan_rank, scan_pin. cbv zeta.
  rewrite Hp. opt_step. rewrite Hs. opt_step.
  destruct (lookup_lt_is_Some_2 adc_gpio_pins (ch_id s)) as [pin ->]; [exact Hid|].
  destruct (lookup_lt_is_Some_2 adc_gpio_port (ch_id s)) as [port ->]; [exact Hid|].
  opt_step. eexists _, _, _. split; [reflexivity|]. now repeat split.
Qed.

Lemma update_sequence_loop_ranks fuel : forall st,
  scan_list_ok st ->
  (seq_len (dev st) <= fuel + seq_ctr (dev st))%nat ->
  exists st',
    update_sequence_loop fuel st = Some st' /\
    ADC_SQR (hw st') =
      ADC_SQR (hw st) ++
      scan_ranks st (seq_ctr (dev st)) (seq_len (dev st) - seq_ctr (dev st)) /\
    GPIO_AN (hw st') =
      rev (scan_pins st (seq_ctr (dev st)) (seq_len (dev st) - seq_ctr (dev st))) ++
      GPIO_AN (hw st).
Proof.
  induction fuel as [|fuel IH]; intros st Hok Hf; cbn [update_sequence_loop].
  - destruct (Nat.ltb_spec (seq_ctr (dev st)) (seq_len (dev st))) as [L|L]; [lia|].
    exists st. split; [reflexivity|].
    replace (seq_len (dev st) - seq_ctr (dev st))%nat with 0%nat by lia.
    split; [now rewrite app_nil_r|reflexivity].
  - destruct (Nat.ltb_spec (seq_ctr (dev st)) (seq_len (dev st))) as [L|L].
    + destruct (update_sequence_body_rank st Hok L)
        as (st1 & r & pp & -> & Hr & Hpp & Hsq & Hgp & Ec & Es & Ectr & Elen).
      opt_step.
      destruct (IH st1) as (st' & -> & Hsq' & Hgp').
      { intros i Hi. rewrite Elen in Hi. rewrite Ec, Es. exact (Hok i Hi). }
      { rewrite Elen, Ectr. lia. }
      exists st'. split; [reflexivity|].
      destruct (scan_ranks_ext st st1 (seq_ctr (dev st1))
                  (seq_len (dev st1) - seq_ctr (dev st1)) Ec Es) as [Er Ep].
      rewrite Hsq', Hgp', Er, Ep, Hsq, Hgp, Elen, Ectr.
      replace (seq_len (dev st) - seq_ctr (dev st))%nat
        with (S (seq_len (dev st) - S (seq_ctr (dev st)))) by lia.
      unfold scan_ranks, scan_pins. cbn [seq omap list_omap]. rewrite Hr, Hpp.
      cbn [rev]. split; now rewrite <- app_assoc.
    + exists st. split; [reflexivity|].
      replace (seq_len (dev st) - seq_ctr (dev st))%nat with 0%nat by lia.
      split; [now rewrite app_nil_r|reflexivity].
Qed.

Lemma platform_adc_update_sequence_programs st :
  scan_list_ok st ->
  platform_adc_update_sequence st =
  Some (PLATFORM_OK,
        update_sequence_result
          (rev (scan_pins st 0 (seq_len (dev st))) ++ GPIO_AN (hw st))
          (scan_ranks st 0 (seq_len (dev st))) st).
Proof.
  intros Hok. unfold platform_adc_update_sequence. cbv zeta.
  match goal with
  | |- context [update_sequence_loop ?f ?s] =>
      destruct (update_sequence_loop_ranks f s) as (st1 & L & Hsq & Hgp);
        [intros i Hi; exact (Hok i Hi)|cbn; lia|]
  end.
  rewrite L.
  destruct (update_sequence_loop_frame _ _ _ L) as (n & gp & sq & ->).
  cbn [hw on_hw on_dev set_hw set_dev ADC_SQR GPIO_AN set_ADC_SQR set_GPIO_AN] in Hsq, Hgp.
  match type of Hsq with _ = _ ++ scan_ranks ?s ?a ?b =>
    destruct (scan_ranks_ext st s a b) as [Er Ep]; [reflexivity|reflexivity|];
    rewrite Er in Hsq; rewrite Ep in Hgp
  end.
  cbn in Hsq, Hgp. rewrite Nat.sub_0_r in Hsq, Hgp. subst sq gp.
  simpl. unfold update_sequence_result.
  destruct (clocked (dev st) && running (dev st)); reflexivity.
Qed.

(** X5. On a scan list whose pointers are good, [platform_adc_update_sequence]
    programs exactly [seq_len] regular channels, in the order of the scan
    list: position [i] of the list gets the id of its channel at rank
    [i + 1]; that number is also the conversion count it programs.  The
    pin of every channel of the list is made an analog input, and no pin
    that was one before is taken back. *)
Theorem update_sequence_ranks_in_scan_order (st : adc_system) :
  scan_list_ok st ->
  exists st',
    platform_adc_update_sequence st = Some (PLATFORM_OK, st') /\
    length (ADC_SQR (hw st')) = seq_len (dev st) /\
    (forall i, (i < seq_len (dev st))%nat -> ADC_SQR (hw st') !! i = scan_rank st i) /\
    ADC_NbrOfConversion <$> ADC_regs (hw st') = Some (Z.of_nat (seq_len (dev st))) /\
    (forall i, (i < seq_len (dev st))%nat ->
       exists pp, scan_pin st i = Some pp /\ In pp (GPIO_AN (hw st'))) /\
    (forall pp, In pp (GPIO_AN (hw st)) -> In pp (GPIO_AN (hw st'))).
Proof.
  intros Hok. rewrite (platform_adc_update_sequence_programs st Hok).
  eexists; split; [reflexivity|].
  assert (Hr : forall j, (0 <= j < 0 + seq_len (dev st))%nat -> is_Some (scan_rank st j)).
  { intros j Hj. apply scan_list_ok_rank; [exact Hok|lia]. }
  assert (Hp : forall j, (0 <= j < 0 + seq_len (dev st))%nat -> is_Some (scan_pin st j)).
  { intros j Hj. apply scan_list_ok_rank; [exact Hok|lia]. }
  assert (Esq : ADC_SQR (hw (update_sequence_result
                  (rev (scan_pins st 0 (seq_len (dev st))) ++ GPIO_AN (hw st))
                  (scan_ranks st 0 (seq_len (dev st))) st)) =
                scan_ranks st 0 (seq_len (dev st))).
  { unfold update_sequence_result. cbv zeta. now destruct (clocked _ && running _). }
  assert (Egp : GPIO_AN (hw (update_sequence_result
                  (rev (scan_pins st 0 (seq_len (dev st))) ++ GPIO_AN (hw st))
                  (scan_ranks st 0 (seq_len (dev st))) st)) =
                rev (scan_pins st 0 (seq_len (dev st))) ++ GPIO_AN (hw st)).
  { unfold update_sequence_result. cbv zeta. now destruct (clocked _ && running _). }
  rewrite Esq, Egp.
  split; [apply omap_seq_length, Hr|].
  split; [intros i Hi; unfold scan_ranks; now rewrite omap_seq_lookup by assumption|].
  split; [unfold update_sequence_result; cbv zeta; now destruct (clocked _ && running _)|].
  split.
  - intros i Hi. destruct (Hp i) as [pp Hpp]; [lia|]. exists pp. split; [exact Hpp|].
    apply in_or_app. left. apply -> in_rev.
    apply list_elem_of_In. apply (list_elem_of_lookup_2 _ i).
    unfold scan_pins. rewrite omap_seq_lookup by assumption. exact Hpp.
  - intros pp H. apply in_or_app. now right.
Qed.

Lemma update_sequence_ranks_in_scan_order_witness :
  exists st',
    platform_adc_update_sequence st_channel2_then_1 = Some (PLATFORM_OK, st') /\
    ADC_SQR (hw st') !! 0%nat = Some (2, 1)%nat /\
    length (ADC_SQR (hw st')) = 1%nat.
Proof.
  destruct (update_sequence_ranks_in_scan_order st_channel2_then_1)
    as (st' & E & Hl & Hr & _).
  { intros i Hi. change (seq_len (dev st_channel2_then_1)) with 1%nat in Hi.
    assert (i = 0%nat) as -> by lia.
    eexists _, _. split; [reflexivity|]. split; [reflexivity|]. unfold NUM_ADC. cbn [ch_id]. lia. }
  exists st'. split; [exact E|]. split; [|exact Hl].
  rewrite (Hr 0%nat); [reflexivity|].
  change (seq_len (dev st_channel2_then_1)) with 1%nat. lia.
Defined.

(** X6. Whenever [platform_adc_update_sequence] returns, the result is
    PLATFORM_OK and the software state is as before but for the cursor,
    which is 0, and the two lengths in the init structures: no channel
    record, no flag of the device, not the active mask, not the scan list;
    the interrupt line and the trigger timer are not touched either. *)
Theorem update_sequence_keeps_software_state
    (st st' : adc_system) (r : platform_status) :
  platform_adc_update_sequence st = Some (r, st') ->
  r = PLATFORM_OK /\
  chans st' = chans st /\
  dev st' = set_seq_ctr 0 (dev st) /\
  nvic_init_structure_adc st' = nvic_init_structure_adc st /\
  NVIC_ADC_IRQ (hw st') = NVIC_ADC_IRQ (hw st) /\
  TIM_ARR (hw st') = TIM_ARR (hw st) /\
  TIM_PSC (hw st') = TIM_PSC (hw st) /\
  ADC_ExternalTrigConv (adc_init_struct st') = ADC_ExternalTrigConv (adc_init_struct st) /\
  ADC_ExternalTrigConvEdge (adc_init_struct st') =
    ADC_ExternalTrigConvEdge (adc_init_struct st) /\
  DMA_DIR (dma_init_struct st') = DMA_DIR (dma_init_struct st) /\
  DMA_Mode (dma_init_struct st') = DMA_Mode (dma_init_struct st).
Proof.
  intros H. apply platform_adc_update_sequence_frame in H as (gp & sq & E).
  injection E as -> ->. split; [reflexivity|].
  unfold update_sequence_result. cbv zeta.
  destruct (clocked (dev st) && running (dev st)); now repeat split.
Qed.

Lemma update_sequence_keeps_software_state_witness :
  exists st',
    platform_adc_update_sequence st_channel2 = Some (PLATFORM_OK, st') /\
    chans st' = chans st_channel2 /\
    dev st' = set_seq_ctr 0 (dev st_channel2).
Proof.
  destruct (platform_adc_update_sequence st_channel2) as [[r st']|] eqn:E;
    [|discriminate E].
  destruct (update_sequence_keeps_software_state st_channel2 st' r E) as (-> & C & D & _).
  exists st'. now repeat split.
Defined.

(** ** The completion handler and the active mask *)

Lemma mask_has_channel st :
  mask_in_table st -> ch_active (dev st) <> 0 ->
  exists c, (c < NUM_ADC)%nat /\ ACTIVE_CHANNEL (dev st) c = true.
Proof.
  intros Hm Hne. destruct (active_ids (dev st)) as [|c l] eqn:E.
  - exfalso. apply Hne. apply Z.bits_inj'. intros n Hn.
    rewrite Z.bits_0, <- (Z2Nat.id n) by lia.
    change (ACTIVE_CHANNEL (dev st) (Z.to_nat n) = false).
    destruct (Nat.lt_ge_cases (Z.to_nat n) NUM_ADC) as [L|L]; [|now apply Hm].
    destruct (ACTIVE_CHANNEL (dev st) (Z.to_nat n)) eqn:A; [|reflexivity].
    assert (Hin : In (Z.to_nat n) (active_ids (dev st)))
      by (apply (proj2 (active_ids_In (dev st) (Z.to_nat n))); now split).
    rewrite E in Hin. destruct Hin.
  - exists c. apply (proj1 (active_ids_In (dev st) c)). rewrite E. now left.
Qed.

Lemma irq_body_running BUF st p :
  wf st ->
  ch_state (dev st) !! seq_ctr (dev st) = Some p ->
  (p < NUM_ADC)%nat ->
  running_has_channel st ->
  forall st', irq_body BUF st = Some st' -> running_has_channel st'.
Proof.
  intros Hwf Hp Hlt J st' H.
  destruct (irq_body_spec BUF st p Hwf Hp Hlt)
    as (st1 & s & s' & E & _ & _ & _ & _ & _ & _ & Am & Rn).
  rewrite E in H. injection H as <-. cbv zeta in Am, Rn.
  unfold running_has_channel in *.
  destruct ((reqsamples s <=? u32 (samples_delivered s + 1)) && negb (freerunning s)).
  - cbn [andb] in Rn. destruct (Z.eqb_spec (ch_active (dev st1)) 0) as [Z0|Z0].
    + destruct Rn as [-> _]. discriminate.
    + intros _. exact Z0.
  - cbn [andb] in Rn. destruct Rn as [-> _]. rewrite Am. exact J.
Qed.

Lemma irq_loop_running BUF fuel : forall st st',
  irq_loop BUF fuel st = Some st' ->
  wf st ->
  seq_len (dev st) = length (ch_state (dev st)) ->
  Forall (fun p => p < NUM_ADC)%nat (ch_state (dev st)) ->
  running_has_channel st ->
  running_has_channel st'.
Proof.
  induction fuel as [|fuel IH]; intros st st' H Hwf Hlen Hall J; cbn [irq_loop] in H.
  - destruct (_ <? _)%nat; [discriminate|]. now injection H as <-.
  - destruct (Nat.ltb_spec (seq_ctr (dev st)) (seq_len (dev st))) as [L|L].
    + destruct (lookup_lt_is_Some_2 (ch_state (dev st)) (seq_ctr (dev st))) as [p Hp]; [lia|].
      assert (Hlt : (p < NUM_ADC)%nat).
      { rewrite Forall_forall in Hall. apply Hall. now apply (list_elem_of_lookup_2 _ _ _ Hp). }
      destruct (irq_body_rel BUF st p Hwf Hp Hlt) as (st1 & E & _ & Rel1 & _).
      pose proof (irq_body_running BUF st p Hwf Hp Hlt J st1 E) as J1.
      rewrite E in H. opt_step in H.
      destruct Rel1 as (Fr1 & W1 & _).
      destruct Fr1 as (_ & _ & _ & Ecs & Esl & _).
      apply (IH st1 st' H); [now apply W1|now rewrite Esl, Ecs|now rewrite Ecs|exact J1].
    + now injection H as <-.
Qed.

Lemma handler_mask BUF st :
  between_scans st ->
  running (dev st) = true ->
  exists st',
    DMA2_Stream0_IRQHandler BUF st = Some st' /\
    (forall c, ACTIVE_CHANNEL (dev st') c = true -> ACTIVE_CHANNEL (dev st) c = true) /\
    (ch_active (dev st') <> 0 -> running (dev st') = true) /\
    (running_has_channel st -> running_has_channel st').
Proof.
  intros (Hwf & Hm & Hcur) Hrun. destruct (Hcur Hrun) as [Ecs Esl].
  unfold DMA2_Stream0_IRQHandler. cbv zeta.
  remember (on_dev (set_seq_ctr 0) (on_hw DMA_ClearITPendingBit st)) as st0 eqn:E0.
  assert (F0 : chans st0 = chans st /\ ch_state (dev st0) = ch_state (dev st) /\
               seq_len (dev st0) = seq_len (dev st) /\ seq_ctr (dev st0) = 0%nat /\
               ch_active (dev st0) = ch_active (dev st) /\
               running (dev st0) = running (dev st) /\
               sample_buf (dev st0) = sample_buf (dev st) /\
               NVIC_ADC_IRQ (hw st0) = NVIC_ADC_IRQ (hw st)).
  { subst st0. now repeat split. }
  clear E0. destruct F0 as (F0c & F0s & F0l & F0z & F0a & F0r & F0b & F0n).
  assert (Hwf0 : wf st0).
  { destruct Hwf as (? & ? & ?). unfold wf. now rewrite F0c, F0b. }
  assert (Hlen0 : seq_len (dev st0) = length (ch_state (dev st0))) by (now rewrite F0l, F0s).
  assert (Hall0 : Forall (fun p => p < NUM_ADC)%nat (ch_state (dev st0))).
  { rewrite F0s, Ecs. apply active_ids_Forall. }
  destruct (irq_loop_spec BUF (seq_len (dev st0)) st0 Hwf0 Hlen0 Hall0) as (stL & L & Rel & _);
    [lia|].
  pose proof (irq_loop_running BUF _ _ _ L Hwf0 Hlen0 Hall0) as JL.
  rewrite L. opt_step.
  destruct Rel as (Fr & W & M & Amono & Rrun & Zero).
  remember (on_dev (set_seq_ctr 0) stL) as st3 eqn:E3.
  assert (F3 : chans st3 = chans stL /\ ch_active (dev st3) = ch_active (dev stL) /\
               running (dev st3) = running (dev stL) /\
               sample_buf (dev st3) = sample_buf (dev stL) /\
               NVIC_ADC_IRQ (hw st3) = NVIC_ADC_IRQ (hw stL)).
  { subst st3. now repeat split. }
  clear E3. destruct F3 as (F3c & F3a & F3r & F3b & F3n).
  assert (Hwf3 : wf st3).
  { destruct (W Hwf0) as (? & ? & ?). unfold wf. now rewrite F3c, F3b. }
  assert (Hm3 : irq_matched st3).
  { unfold irq_matched. rewrite F3n, F3r. apply M. unfold irq_matched.
    now rewrite F0n, F0r. }
  destruct (irq_rearm_spec st3 Hwf3 Hm3) as (st' & -> & _ & Ea' & Er' & _).
  exists st'. split; [reflexivity|]. split; [|split].
  - intros c. unfold ACTIVE_CHANNEL. rewrite Ea', F3a, <- F0a. apply Amono.
  - rewrite Ea', Er', F3a, F3r. intros Hne. rewrite (Rrun Hne), F0r. exact Hrun.
  - unfold running_has_channel. rewrite Ea', Er', F3a, F3r. intros J. apply JL.
    unfold running_has_channel. now rewrite F0a, F0r.
Qed.

(** X7. A run of the completion handler on a running device, between two
    scans: it runs through, it activates no channel (the active mask only
    loses bits), and afterwards the device runs exactly if a channel is
    still active.  So the scan list it has rebuilt for a device that goes
    on running is never empty. *)
Theorem handler_never_scans_nothing (BUF : bool) (st : adc_system) :
  between_scans st ->
  mask_in_table st ->
  running_has_channel st ->
  running (dev st) = true ->
  exists st',
    DMA2_Stream0_IRQHandler BUF st = Some st' /\
    between_scans st' /\ mask_in_table st' /\ running_has_channel st' /\
    (forall c, ACTIVE_CHANNEL (dev st') c = true -> ACTIVE_CHANNEL (dev st) c = true) /\
    (running (dev st') = false -> ch_active (dev st') = 0) /\
    (running (dev st') = true ->
     (0 < seq_len (dev st'))%nat /\ ch_state (dev st') = active_ids (dev st')).
Proof.
  intros B Mt J Hrun.
  destruct (handler_spec BUF st B Hrun) as (st' & E & B' & _).
  destruct (handler_mask BUF st B Hrun) as (st'' & E' & Amono & Rrun & J').
  rewrite E in E'. injection E' as <-.
  assert (Mt' : mask_in_table st').
  { intros c Hc. destruct (ACTIVE_CHANNEL (dev st') c) eqn:A; [|reflexivity].
    rewrite <- (Mt c Hc). symmetry. now apply Amono. }
  exists st'. split; [exact E|]. split; [exact B'|]. split; [exact Mt'|].
  split; [now apply J'|]. split; [exact Amono|]. split.
  - intros R. destruct (Z.eq_dec (ch_active (dev st')) 0) as [Z0|Z0]; [exact Z0|].
    rewrite (Rrun Z0) in R. discriminate.
  - intros R. destruct B' as (_ & _ & Hcur). destruct (Hcur R) as [Ecs Esl].
    split; [|exact Ecs].
    destruct (mask_has_channel st' Mt' (J' J R)) as (c & Hc & A).
    rewrite Esl, Ecs.
    assert (Hin : In c (active_ids (dev st')))
      by (apply (proj2 (active_ids_In (dev st') c)); now split).
    destruct (active_ids (dev st')); [destruct Hin|cbn; lia].
Qed.

Lemma between_scans_st_channel2_scan : between_scans st_channel2_scan.
Proof.
  split; [|split].
  - split; [reflexivity|]. split; [|reflexivity].
    intros i s.
    do 16 (destruct i as [|i]; [intros [= <-]; split; [reflexivity|vm_compute; lia]|]).
    discriminate.
  - reflexivity.
  - intros _. split; reflexivity.
Qed.

Lemma mask_in_table_st_channel2_scan : mask_in_table st_channel2_scan.
Proof.
  intros c Hc. unfold ACTIVE_CHANNEL.
  change (ch_active (dev st_channel2_scan)) with (Z.shiftl 1 (Z.of_nat 2)).
  rewrite testbit_one_shiftl. apply bool_decide_eq_false_2. unfold NUM_ADC in Hc. lia.
Qed.

Lemma handler_never_scans_nothing_witness :
  exists st',
    DMA2_Stream0_IRQHandler true st_channel2_scan = Some st' /\
    between_scans st' /\ mask_in_table st' /\ running_has_channel st' /\
    (forall c, ACTIVE_CHANNEL (dev st') c = true ->
               ACTIVE_CHANNEL (dev st_channel2_scan) c = true) /\
    (running (dev st') = false -> ch_active (dev st') = 0) /\
    (running (dev st') = true ->
     (0 < seq_len (dev st'))%nat /\ ch_state (dev st') = active_ids (dev st')).
Proof.
  apply (handler_never_scans_nothing true st_channel2_scan).
  - exact between_scans_st_channel2_scan.
  - exact mask_in_table_st_channel2_scan.
  - intros _. discriminate.
  - reflexivity.
Defined.

(** ** Timer-triggered mode *)

Lemma set_clock_in_range HCLK id f st trig :
  0 < HCLK < 2 ^ 32 -> 0 < f <= HCLK ->
  adc_timer !! timer_id (dev st) = Some trig ->
  platform_adc_set_clock HCLK id f st =
  Some (HCLK / (HCLK / f / 0x10000 + 1) / (HCLK / f / (HCLK / f / 0x10000 + 1)),
        set_clock_timer_result trig (HCLK / f / (HCLK / f / 0x10000 + 1))
          (HCLK / f / 0x10000 + 1) st).
Proof.
  intros HH Hf Ht.
  destruct (clock_divide_bounds HCLK f HH Hf) as (P0 & Q & P). cbv zeta in P0, Q, P.
  rewrite (set_clock_pos_eq HCLK id f st trig _ _ (proj1 Hf) Ht (adc_clock_divide_eq HCLK id f HH Hf)).
  assert (E16 : u16 (HCLK / f / 65536 + 1 - 1) + 1 = HCLK / f / 65536 + 1).
  { unfold u16. rewrite Z.mod_small; lia. }
  rewrite E16. unfold udiv.
  destruct (Z.eqb_spec (HCLK / f / 65536 + 1) 0); [lia|]. opt_step.
  destruct (Z.eqb_spec (HCLK / f / (HCLK / f / 65536 + 1)) 0); [lia|]. reflexivity.
Qed.

Lemma checked_timer_in_table id timer_id :
  platform_adc_check_timer_id id timer_id = true ->
  exists trig, adc_timer !! timer_id = Some trig /\
               (timer_id = 1%nat /\ trig = ADC_ExternalTrigConv_T2_TRGO \/
                timer_id = 2%nat /\ trig = ADC_ExternalTrigConv_T3_TRGO).
Proof.
  unfold platform_adc_check_timer_id. intros H. apply orb_true_iff in H as [H|H].
  - apply Nat.eqb_eq in H as ->. eexists. split; [reflexivity|left; now split].
  - apply Nat.eqb_eq in H as ->. eexists. split; [reflexivity|right; now split].
Qed.

Lemma timer_triggered_rebuilt gp sq st :
  timer_triggered st ->
  timer_triggered (update_sequence_result gp sq st) /\
  ADC_CR2 (hw (update_sequence_result gp sq st)) = ADC_ExternalTrigConvEdge_Rising /\
  running (dev (update_sequence_result gp sq st)) = running (dev st).
Proof.
  intros [Hc He]. unfold update_sequence_result, timer_triggered.
  rewrite Hc. cbn -[Z.land Z.lor]. rewrite He.
  destruct (running (dev st)); repeat split; assumption.
Qed.

Lemma timer_triggered_frame st st' :
  irq_frame st st' -> timer_triggered st -> timer_triggered st'.
Proof.
  unfold irq_frame, timer_triggered. intros (Ha & _ & Hc & _) [? ?].
  rewrite Ha, Hc. now split.
Qed.

Lemma irq_rearm_timer_triggered st1 st2 :
  timer_triggered st1 ->
  irq_rearm st1 = Some st2 ->
  running (dev st2) = true ->
  timer_triggered st2 /\
  ADC_CR2 (hw st2) = ADC_ExternalTrigConvEdge_Rising.
Proof.
  intros Hsw H Hrun. unfold irq_rearm in H.
  destruct (running (dev st1)) eqn:R1.
  - destruct (adc_update_dev_sequence st1) as [r|] eqn:U; [|discriminate].
    apply update_dev_sequence_frame in U as (gp & sq & ->).
    destruct (timer_triggered_rebuilt gp sq (adc_rebuild_scan_list st1)) as (S5 & T5 & R5);
      [exact Hsw|].
    change (Some (if negb (clocked (dev (update_sequence_result gp sq (adc_rebuild_scan_list st1))))
                     && running (dev (update_sequence_result gp sq (adc_rebuild_scan_list st1)))
                  then on_hw (ADC_SoftwareStartConvCmd ENABLE)
                         (update_sequence_result gp sq (adc_rebuild_scan_list st1))
                  else update_sequence_result gp sq (adc_rebuild_scan_list st1)) = Some st2) in H.
    remember (update_sequence_result gp sq (adc_rebuild_scan_list st1)) as st5 eqn:E5'.
    clear E5'. destruct S5 as [C5 E5]. rewrite C5 in H. cbn [negb andb] in H.
    injection H as <-. split; [now split|exact T5].
  - change (Some (if negb (clocked (dev st1)) && running (dev st1)
                  then on_hw (ADC_SoftwareStartConvCmd ENABLE) st1 else st1) = Some st2) in H.
    rewrite R1, andb_false_r in H. injection H as <-. congruence.
Qed.

Lemma handler_timer_triggered BUF st1 st2 :
  timer_triggered st1 ->
  DMA2_Stream0_IRQHandler BUF st1 = Some st2 ->
  running (dev st2) = true ->
  timer_triggered st2 /\
  ADC_CR2 (hw st2) = ADC_ExternalTrigConvEdge_Rising.
Proof.
  intros Hsw H Hrun. unfold DMA2_Stream0_IRQHandler in H.
  destruct (irq_loop BUF _ _) as [st3|] eqn:L; [|discriminate].
  apply irq_frame_loop in L.
  apply (irq_rearm_timer_triggered (on_dev (set_seq_ctr 0) st3) st2);
    [|exact H|exact Hrun].
  eapply timer_triggered_frame; [|exact Hsw].
  eapply irq_frame_trans; [|apply irq_frame_seq_ctr].
  eapply irq_frame_trans; [|exact L]. now repeat split.
Qed.

Lemma start_arm_timer_triggered st :
  timer_triggered st ->
  ADC_CR2 (hw st) = ADC_ExternalTrigConvEdge_Rising ->
  timer_triggered (start_arm st) /\
  running (dev (start_arm st)) = true /\
  NVIC_ADC_IRQ (hw (start_arm st)) = true /\
  ADC_CR2 (hw (start_arm st)) = ADC_ExternalTrigConvEdge_Rising.
Proof.
  intros [C E] T. unfold start_arm, timer_triggered.
  cbn [dev on_dev on_hw set_dev set_hw set_nvic_init_structure_adc clocked set_running].
  rewrite C. repeat split; try assumption.
  change (Z.lor (Z.land (ADC_CR2 (hw st)) CR2_EXTEN_RESET) ADC_ExternalTrigConvEdge_Rising =
          ADC_ExternalTrigConvEdge_Rising).
  now rewrite T.
Qed.

Lemma start_sequence_timer_triggered st1 r st2 :
  timer_triggered st1 ->
  running (dev st1) = false ->
  platform_adc_start_sequence st1 = Some (r, st2) ->
  timer_triggered st2 /\
  running (dev st2) = true /\
  NVIC_ADC_IRQ (hw st2) = true /\
  ADC_CR2 (hw st2) = ADC_ExternalTrigConvEdge_Rising.
Proof.
  intros Hsw R H.
  apply (start_sequence_idle _ _ R) in H as (gp & sq & [= -> ->]).
  destruct (timer_triggered_rebuilt gp sq (adc_rebuild_scan_list st1)) as (S5 & T5 & R5);
    [exact Hsw|].
  now apply start_arm_timer_triggered.
Qed.

Lemma CR2_rising h :
  ADC_CR2 h = ADC_ExternalTrigConvEdge_Rising ->
  trigger_edge h = ADC_ExternalTrigConvEdge_Rising /\ software_start h = false.
Proof. unfold trigger_edge, software_start. intros ->. now split. Qed.

(** X8. With the timer of the device accepted by
    [platform_adc_check_timer_id] and a frequency from 1 up to the base
    clock, [platform_adc_set_clock] runs through and leaves the device in
    timer-triggered mode: [clocked] is set, the init structure has the
    rising edge and the TRGO source of that timer (T2_TRGO for timer 1,
    T3_TRGO for timer 2), and the timer drives its trigger output from the
    update event.  In that mode the start routine
    and every run of the completion handler that leaves the device running
    end with the rising trigger edge in force and without a software
    start: the timer alone starts the scans. *)
Theorem set_clock_timer_triggered
    (HCLK : Z) (BUF : bool) (id : nat) (f : Z) (st : adc_system) :
  platform_adc_check_timer_id id (timer_id (dev st)) = true ->
  0 < HCLK < 2 ^ 32 ->
  0 < f <= HCLK ->
  exists r st0,
    platform_adc_set_clock HCLK id f st = Some (r, st0) /\
    timer_triggered st0 /\
    TIM_TRGO_Update (hw st0) = true /\
    (timer_id (dev st) = 1%nat /\
     ADC_ExternalTrigConv (adc_init_struct st0) = ADC_ExternalTrigConv_T2_TRGO \/
     timer_id (dev st) = 2%nat /\
     ADC_ExternalTrigConv (adc_init_struct st0) = ADC_ExternalTrigConv_T3_TRGO) /\
    timer_id (dev st0) = timer_id (dev st) /\
    (forall st1 r st2,
       timer_triggered st1 -> running (dev st1) = false ->
       platform_adc_start_sequence st1 = Some (r, st2) ->
       timer_triggered st2 /\ running (dev st2) = true /\
       trigger_edge (hw st2) = ADC_ExternalTrigConvEdge_Rising /\
       software_start (hw st2) = false) /\
    (forall st1 st2,
       timer_triggered st1 ->
       DMA2_Stream0_IRQHandler BUF st1 = Some st2 -> running (dev st2) = true ->
       timer_triggered st2 /\
       trigger_edge (hw st2) = ADC_ExternalTrigConvEdge_Rising /\
       software_start (hw st2) = false).
Proof.
  intros Hck HH Hf.
  destruct (checked_timer_in_table _ _ Hck) as (trig & Ht & Htrgo).
  rewrite (set_clock_in_range HCLK id f st trig HH Hf Ht).
  eexists _, _. split; [reflexivity|].
  split; [now split|]. split; [reflexivity|]. split; [exact Htrgo|].
  split; [reflexivity|]. split.
  - intros st1 r st2 S1 R1 H.
    destruct (start_sequence_timer_triggered _ _ _ S1 R1 H) as (A1 & A2 & _ & A4).
    destruct (CR2_rising _ A4) as [A5 A6].
    exact (conj A1 (conj A2 (conj A5 A6))).
  - intros st1 st2 S1 H R2.
    destruct (handler_timer_triggered BUF _ _ S1 H R2) as (A1 & A4).
    destruct (CR2_rising _ A4) as [A5 A6].
    exact (conj A1 (conj A5 A6)).
Qed.

Lemma set_clock_timer_triggered_witness :
  exists r st0,
    platform_adc_set_clock HCLK_168MHz 0 1000 st_idle_timer2 = Some (r, st0) /\
    timer_triggered st0 /\
    TIM_TRGO_Update (hw st0) = true /\
    ADC_ExternalTrigConv (adc_init_struct st0) = ADC_ExternalTrigConv_T3_TRGO.
Proof.
  destruct (set_clock_timer_triggered HCLK_168MHz true 0 1000 st_idle_timer2)
    as (r & st0 & E & T & O & S & _);
    [reflexivity|unfold HCLK_168MHz; lia|unfold HCLK_168MHz; lia|].
  exists r, st0. split; [exact E|]. split; [exact T|]. split; [exact O|].
  destruct S as [[S _]|[_ S]]; [discriminate S|exact S].
Defined.

(** ** What [platform_adc_set_clock] leaves alone, and what it reports *)

(** X9. Whenever [platform_adc_set_clock] returns, it has changed the
    clocking mode, the trigger source and edge and the timer, and nothing
    else: no channel record, no other member of the device (the running
    flag, the active mask, the scan list), not the DMA stream, the
    interrupt enable or the regular sequence; the conversion count of the
    init structure is kept, and no software start is issued.  [clocked]
    says whether the frequency was positive. *)
Theorem set_clock_changes_clocking_only
    (HCLK : Z) (id : nat) (f r : Z) (st st' : adc_system) :
  platform_adc_set_clock HCLK id f st = Some (r, st') ->
  chans st' = chans st /\
  dev st' = set_clocked (0 <? f) (dev st) /\
  dma_init_struct st' = dma_init_struct st /\
  nvic_init_structure_adc st' = nvic_init_structure_adc st /\
  ADC_NbrOfConversion (adc_init_struct st') = ADC_NbrOfConversion (adc_init_struct st) /\
  ADC_ScanConvMode (adc_init_struct st') = ADC_ScanConvMode (adc_init_struct st) /\
  ADC_ADON (hw st') = ADC_ADON (hw st) /\
  ADC_SQR (hw st') = ADC_SQR (hw st) /\
  DMA_EN (hw st') = DMA_EN (hw st) /\
  DMA_regs (hw st') = DMA_regs (hw st) /\
  DMA_TCIE (hw st') = DMA_TCIE (hw st) /\
  NVIC_ADC_IRQ (hw st') = NVIC_ADC_IRQ (hw st) /\
  software_start (hw st') = software_start (hw st).
Proof.
  unfold platform_adc_set_clock. intros H.
  match type of H with (?m ≫= _) = _ => destruct m as [[f1 st1]|] eqn:E; [|discriminate] end.
  opt_step in H. injection H as <- <-.
  assert (Hsw : forall h e, Z.testbit e 30 = false ->
                  Z.testbit (Z.lor (Z.land (Z.lor (Z.land (ADC_CR2 h) CR2_EXTEN_RESET)
                               ADC_ExternalTrigConvEdge_None) CR2_EXTEN_RESET) e) 30 =
                  Z.testbit (ADC_CR2 h) 30).
  { intros h e He. rewrite Z.lor_spec, Z.land_spec, Z.lor_spec, Z.land_spec, He.
    change (Z.testbit CR2_EXTEN_RESET 30) with true.
    change (Z.testbit ADC_ExternalTrigConvEdge_None 30) with false.
    now rewrite !andb_true_r, !orb_false_r. }
  destruct (0 <? f).
  - destruct (adc_timer !! _) as [trig|]; [|discriminate]. opt_step in E.
    destruct (adc_clock_divide _ _ _) as [[period prescaler]|]; [|discriminate].
    opt_step in E.
    destruct (udiv _ _) as [f2|]; [|discriminate]. opt_step in E.
    destruct (udiv f2 period) as [f3|]; [|discriminate]. opt_step in E.
    injection E as <- <-.
    repeat (split; [reflexivity|]).
    apply (Hsw (hw st) ADC_ExternalTrigConvEdge_Rising). reflexivity.
  - injection E as <- <-.
    repeat (split; [reflexivity|]).
    apply (Hsw (hw st) ADC_ExternalTrigConvEdge_None). reflexivity.
Qed.

Lemma set_clock_changes_clocking_only_witness :
  exists r st',
    platform_adc_set_clock HCLK_168MHz 0 1000 st_channel2 = Some (r, st') /\
    chans st' = chans st_channel2 /\
    dev st' = set_clocked true (dev st_channel2).
Proof.
  destruct (platform_adc_set_clock HCLK_168MHz 0 1000 st_channel2) as [[r st']|] eqn:E;
    [|discriminate E].
  destruct (set_clock_changes_clocking_only HCLK_168MHz 0 1000 r st_channel2 st' E)
    as (C & D & _).
  exists r, st'. split; [reflexivity|]. split; [exact C|exact D].
Defined.

Lemma set_clock_in_range_facts HCLK id f st trig :
  0 < HCLK < 2 ^ 32 -> 0 < f <= HCLK ->
  adc_timer !! timer_id (dev st) = Some trig ->
  let prescaler := HCLK / f / 0x10000 + 1 in
  let period := HCLK / f / prescaler in
  exists st',
    platform_adc_set_clock HCLK id f st = Some (HCLK / prescaler / period, st') /\
    TIM_ARR (hw st') = period - 1 /\
    TIM_PSC (hw st') = prescaler - 1 /\
    f <= HCLK / prescaler / period <= HCLK /\
    1 <= prescaler <= 0x10000 /\ 1 <= period < 0x10000.
Proof.
  intros HH Hf Ht prescaler period.
  rewrite (set_clock_in_range HCLK id f st trig HH Hf Ht).
  destruct (clock_divide_bounds HCLK f HH Hf) as (P0 & Q & P). cbv zeta in P0, Q, P.
  fold prescaler in Q, P |- *. fold period in P |- *.
  eexists. split; [reflexivity|].
  assert (Hpp : prescaler * period <= HCLK / f).
  { subst period. apply Z.mul_div_le. lia. }
  assert (Hfp : f * (HCLK / f) <= HCLK) by (apply Z.mul_div_le; lia).
  assert (Earr : TIM_ARR (hw (set_clock_timer_result trig period prescaler st)) = period - 1).
  { unfold set_clock_timer_result, adc_timer_base_struct.
    cbn [hw TIM_ARR TIM_Period on_hw on_dev set_hw set_dev set_adc_init_struct
         ADC_Init set_ADC_regs set_ADC_CR2 TIM_SelectOutputTrigger set_TIM_TRGO_Update
         TIM_TimeBaseInit set_TIM_ARR_PSC ADC_TRIG_CFG ADC_ExternalTrigConvCmd].
    unfold u32. apply Z.mod_small. lia. }
  assert (Epsc : TIM_PSC (hw (set_clock_timer_result trig period prescaler st)) = prescaler - 1).
  { unfold set_clock_timer_result, adc_timer_base_struct.
    cbn [hw TIM_PSC TIM_Prescaler on_hw on_dev set_hw set_dev set_adc_init_struct
         ADC_Init set_ADC_regs set_ADC_CR2 TIM_SelectOutputTrigger set_TIM_TRGO_Update
         TIM_TimeBaseInit set_TIM_ARR_PSC ADC_TRIG_CFG ADC_ExternalTrigConvCmd].
    unfold u16. apply Z.mod_small. lia. }
  split; [exact Earr|]. split; [exact Epsc|]. split; [|split; [exact Q|exact P]].
  rewrite Z.div_div by lia. split.
  - apply Z.div_le_lower_bound; [nia|]. nia.
  - apply Z.div_le_upper_bound; [nia|]. nia.
Qed.

(** X10. For a frequency from 1 up to the base clock the frequency that
    [platform_adc_set_clock] reports is never below the request and never
    above the base clock: the integer divisions only round the period
    down, so the timer runs at the requested rate or faster.  The value
    reported is the base clock divided by the product of the two register
    values plus one each. *)
Theorem set_clock_never_slower
    (HCLK : Z) (id : nat) (f : Z) (st : adc_system) :
  platform_adc_check_timer_id id (timer_id (dev st)) = true ->
  0 < HCLK < 2 ^ 32 ->
  0 < f <= HCLK ->
  exists r st',
    platform_adc_set_clock HCLK id f st = Some (r, st') /\
    f <= r <= HCLK /\
    r = HCLK / ((TIM_PSC (hw st') + 1) * (TIM_ARR (hw st') + 1)) /\
    0 <= TIM_PSC (hw st') <= 0xFFFF /\ 0 <= TIM_ARR (hw st') < 0xFFFF.
Proof.
  intros Hck HH Hf.
  destruct (checked_timer_in_table _ _ Hck) as (trig & Ht & _).
  destruct (set_clock_in_range_facts HCLK id f st trig HH Hf Ht)
    as (st' & E & Ea & Ep & B & Q & P).
  eexists _, st'. split; [exact E|]. split; [exact B|].
  rewrite Ea, Ep. split; [|lia].
  replace (HCLK / f / 65536 + 1 - 1 + 1) with (HCLK / f / 65536 + 1) by lia.
  replace (HCLK / f / (HCLK / f / 65536 + 1) - 1 + 1)
    with (HCLK / f / (HCLK / f / 65536 + 1)) by lia.
  rewrite Z.div_div by lia. reflexivity.
Qed.

Lemma set_clock_never_slower_witness :
  exists r st',
    platform_adc_set_clock HCLK_168MHz 0 7000 st_idle_timer2 = Some (r, st') /\
    7000 <= r <= HCLK_168MHz.
Proof.
  destruct (set_clock_never_slower HCLK_168MHz 0 7000 st_idle_timer2)
    as (r & st' & E & B & _);
    [reflexivity|unfold HCLK_168MHz; lia|unfold HCLK_168MHz; lia|].
  exists r, st'. exact (conj E B).
Defined.

(** ** [platform_adc_start_sequence] on an idle device *)

Lemma start_arm_armed st :
  DMA_TCIF (hw (start_arm st)) = false /\
  (if clocked (dev st)
   then trigger_edge (hw (start_arm st)) = ADC_ExternalTrigConvEdge_Rising
   else software_start (hw (start_arm st)) = true).
Proof.
  unfold start_arm. cbv zeta.
  cbn [dev on_dev on_hw set_dev set_hw set_nvic_init_structure_adc clocked set_running].
  destruct (clocked (dev st)).
  - split; [reflexivity|]. apply (trigger_edge_TRIG_CFG ENABLE).
  - split; [reflexivity|]. apply software_start_SoftwareStart.
Qed.

(** X11. On a device that is not running, with the channel table in place,
    [platform_adc_start_sequence] rebuilds the scan list from the active
    mask, marks the device running, clears a pending completion flag and
    enables the completion interrupt; then it arms the first scan, by the
    trigger edge in clocked mode and by a software start otherwise.  The
    channel records change in their scratch slot only, the active mask
    not at all. *)
Theorem start_sequence_idle_arms (st : adc_system) :
  wf st ->
  running (dev st) = false ->
  exists st',
    platform_adc_start_sequence st = Some (PLATFORM_OK, st') /\
    between_scans st' /\
    running (dev st') = true /\
    NVIC_ADC_IRQ (hw st') = true /\
    DMA_TCIF (hw st') = false /\
    ch_active (dev st') = ch_active (dev st) /\
    ch_state (dev st') = active_ids (dev st) /\
    (forall i s, chans st !! i = Some s ->
       exists q, chans st' !! i = Some (set_value_ptr q s)) /\
    (if clocked (dev st)
     then trigger_edge (hw st') = ADC_ExternalTrigConvEdge_Rising
     else software_start (hw st') = true).
Proof.
  intros Hwf Hrun. unfold platform_adc_start_sequence. rewrite Hrun. cbn [negb].
  destruct (update_dev_sequence_ok st Hwf) as (gp & sq & ->). opt_step.
  pose proof (rebuilt_wf gp sq st Hwf) as W5.
  destruct (rebuilt_facts gp sq st) as (Ec & Es & El & Ea & _ & _ & _).
  assert (Ecl : clocked (dev (update_sequence_result gp sq (adc_rebuild_scan_list st))) =
                clocked (dev st)) by reflexivity.
  remember (update_sequence_result gp sq (adc_rebuild_scan_list st)) as st5 eqn:E5.
  clear E5.
  destruct (start_arm_facts st5) as (Gc & Gs & Gl & Ga & Gb & Gr & Gn).
  exists (start_arm st5). split; [reflexivity|]. split.
  { split.
    - destruct W5 as (? & ? & ?). unfold wf. now rewrite Gc, Gb.
    - split; [unfold irq_matched; now rewrite Gn, Gr|].
      intros _. unfold scan_list_current.
      rewrite Gs, Gl, Es, El, (active_ids_ext _ _ Ga), (active_ids_ext _ _ Ea). now split. }
  destruct (start_arm_armed st5) as [Gt Gm].
  split; [exact Gr|]. split; [exact Gn|]. split; [exact Gt|].
  split; [now rewrite Ga|]. split; [now rewrite Gs|]. split.
  { intros i s Hs. rewrite Gc, Ec.
    destruct (attach_channels_lookup (active_ids (dev st)) 0 _ _ _ Hs) as (q & Hq & _).
    now exists q. }
  rewrite <- Ecl. exact Gm.
Qed.

Lemma start_sequence_idle_arms_witness :
  exists st',
    platform_adc_start_sequence st_idle = Some (PLATFORM_OK, st') /\
    running (dev st') = true /\
    NVIC_ADC_IRQ (hw st') = true /\
    software_start (hw st') = true.
Proof.
  destruct (start_sequence_idle_arms st_idle wf_st_idle eq_refl)
    as (st' & E & _ & R & N & _ & _ & _ & _ & S).
  exists st'. exact (conj E (conj R (conj N S))).
Defined.

(** ** The DMA template *)

(** X12. The direction and the mode of the DMA template, which [adcs_init]
    sets to peripheral-to-memory and circular, are kept by every function
    of the driver that returns: stop, clock set-up, sequence update, start
    and the completion handler. *)
Theorem dma_template_is_invariant (HCLK : Z) (BUF : bool) (st : adc_system) :
  (forall st', adcs_init HCLK st = Some st' -> dma_template_ok st') /\
  (dma_template_ok st ->
   (forall id st', platform_adc_stop id st = Some st' -> dma_template_ok st') /\
   (forall id f r, platform_adc_set_clock HCLK id f st = Some r -> dma_template_ok (snd r)) /\
   (forall r, platform_adc_update_sequence st = Some r -> dma_template_ok (snd r)) /\
   (forall r, platform_adc_start_sequence st = Some r -> dma_template_ok (snd r)) /\
   (forall st', DMA2_Stream0_IRQHandler BUF st = Some st' -> dma_template_ok st')).
Proof.
  split; [intros st'; apply adcs_init_dma_template|].
  intros T. split; [|split; [|split; [|split]]].
  - intros id st' H. exact (dma_template_stop id st st' H T).
  - intros id f r H. exact (dma_template_set_clock HCLK id f st r H T).
  - intros r H. apply platform_adc_update_sequence_frame in H as (gp & sq & ->).
    now apply dma_template_rebuilt.
  - intros r H. exact (dma_template_start st r H T).
  - intros st' H. exact (dma_template_handler BUF st st' H T).
Qed.

Lemma dma_template_is_invariant_witness :
  dma_template_ok st_idle /\
  forall st', DMA2_Stream0_IRQHandler true st_channel2_scan = Some st' -> dma_template_ok st'.
Proof.
  split.
  - apply (proj1 (dma_template_is_invariant HCLK_168MHz true (NVIC_Configuration (adc_zero 8)))).
    reflexivity.
  - apply (proj2 (dma_template_is_invariant HCLK_168MHz true st_channel2_scan)).
    split; reflexivity.
Defined.

(** ** Initialisation *)

Lemma adc_init_ch_states_spec ids : forall st,
  (forall i, i ∈ ids -> (i < length (chans st))%nat) ->
  exists st',
    adc_init_ch_states ids st = Some st' /\
    dev st' = set_ch_active (ch_active (dev st')) (dev st) /\
    (forall j, ACTIVE_CHANNEL (dev st') j =
               ACTIVE_CHANNEL (dev st) j && negb (bool_decide (j ∈ ids))) /\
    (ch_active (dev st) = 0 -> ch_active (dev st') = 0) /\
    hw st' = hw st /\
    adc_init_struct st' = adc_init_struct st /\
    dma_init_struct st' = dma_init_struct st /\
    nvic_init_structure_adc st' = nvic_init_structure_adc st /\
    length (chans st') = length (chans st) /\
    forall i s, chans st !! i = Some s ->
      chans st' !! i = Some (if decide (i ∈ ids) then ch_reset i s else s).
Proof.
  induction ids as [|id ids IH]; intros st Hin; cbn [adc_init_ch_states].
  - exists st. split; [reflexivity|]. split; [now destruct (dev st)|].
    split.
    { intros j. rewrite bool_decide_eq_false_2 by apply not_elem_of_nil.
      now rewrite andb_true_r. }
    split; [intros Z0; exact Z0|]. do 5 (split; [reflexivity|]). intros i s Hs.
    destruct (decide (i ∈ [])) as [H|_]; [|exact Hs]. now apply elem_of_nil in H.
  - destruct (lookup_lt_is_Some_2 (chans st) id) as [s0 Hs0]; [apply Hin; now left|].
    unfold adc_init_ch_state. rewrite (ch_update_eq _ _ _ _ Hs0). opt_step.
    fold (ch_reset id s0).
    remember (on_dev (INACTIVATE_CHANNEL id) (ch_store id (ch_reset id s0) st)) as st1 eqn:E1.
    assert (F1 : dev st1 = INACTIVATE_CHANNEL id (dev st) /\
                 chans st1 = chans (ch_store id (ch_reset id s0) st) /\
                 hw st1 = hw st /\ adc_init_struct st1 = adc_init_struct st /\
                 dma_init_struct st1 = dma_init_struct st /\
                 nvic_init_structure_adc st1 = nvic_init_structure_adc st)
      by (subst st1; now repeat split).
    clear E1. destruct F1 as (F1d & F1c & F1h & F1a & F1m & F1n).
    destruct (IH st1) as (st' & -> & Ed & Eact & Ez & Eh & Ea & Edm & En & El & Hc).
    { intros i Hi. rewrite F1c. cbn. rewrite length_insert. apply Hin. now right. }
    exists st'. split; [reflexivity|].
    split; [rewrite Ed, F1d; reflexivity|].
    split.
    { intros j. rewrite Eact, F1d, ACTIVE_after_INACTIVATE, <- andb_assoc. f_equal.
      destruct (decide (id = j)) as [->|Hne].
      - rewrite (bool_decide_eq_true_2 (j = j)) by reflexivity.
        rewrite (bool_decide_eq_true_2 (j ∈ j :: ids)) by (now left). reflexivity.
      - rewrite (bool_decide_eq_false_2 (id = j)) by exact Hne. cbn [negb andb].
        f_equal. apply bool_decide_ext. rewrite elem_of_cons. intuition congruence. }
    split.
    { intros Z0. apply Ez. rewrite F1d. cbn. rewrite Z0. apply Z.ldiff_0_l. }
    split; [now rewrite Eh|]. split; [now rewrite Ea|]. split; [now rewrite Edm|].
    split; [now rewrite En|].
    split; [rewrite El, F1c; cbn; apply length_insert|].
    intros i s Hs. destruct (decide (i = id)) as [->|Hne].
    + rewrite (Hc id (ch_reset id s0))
        by (rewrite F1c; exact (lookup_ch_store_eq _ _ _ _ Hs0)).
      rewrite Hs0 in Hs. injection Hs as <-.
      destruct (decide (id ∈ id :: ids)) as [_|H]; [|exfalso; apply H; now left].
      now destruct (decide (id ∈ ids)).
    + rewrite (Hc i s) by (rewrite F1c, lookup_ch_store_ne by congruence; exact Hs).
      destruct (decide (i ∈ ids)) as [H1|H1], (decide (i ∈ id :: ids)) as [H2|H2];
        try reflexivity.
      * exfalso. apply H2. now right.
      * exfalso. apply elem_of_cons in H2 as [?|?]; contradiction.
Qed.

Lemma adcs_init_eq HCLK st st1 :
  adc_init_ch_states (seq 0 NUM_ADC) st = Some st1 ->
  adcs_init HCLK st = Some (adcs_init_result st1).
Proof.
  intros E. unfold adcs_init. rewrite E. opt_step. cbv zeta.
  rewrite set_clock_zero_eq. reflexivity.
Qed.

(** What [adcs_init] does on a channel table with its [NUM_ADC] records. *)
Lemma adcs_init_spec HCLK st :
  length (chans st) = NUM_ADC ->
  exists st',
    adcs_init HCLK st = Some st' /\
    length (chans st') = NUM_ADC /\
    (forall i s, chans st !! i = Some s -> chans st' !! i = Some (ch_reset i s)) /\
    (forall i, (i < NUM_ADC)%nat -> ACTIVE_CHANNEL (dev st') i = false) /\
    (ch_active (dev st) = 0 -> ch_active (dev st') = 0) /\
    dev st' = set_clocked false (set_ch_active (ch_active (dev st')) (dev st)) /\
    hw st' = (let ai := mkADC_Init ENABLE DISABLE ADC_ExternalTrigConv_T3_TRGO
                                   ADC_ExternalTrigConvEdge_None 1 in
              let di := mkDMA_Init DMA_Memory_sample_buf DMA_DIR_PeripheralToMemory 1
                                   DMA_Mode_Circular in
              let h := hw st in
              mkHW 0 true true false (Some ai) [] (GPIO_AN h) true (Some di) false true
                   (NVIC_ADC_IRQ h) (TIM_ARR h) (TIM_PSC h) (TIM_TRGO_Update h)) /\
    software_triggered st'.
Proof.
  intros Hl.
  destruct (adc_init_ch_states_spec (seq 0 NUM_ADC) st)
    as (st1 & E & Ed & Eact & Ez & Eh & _ & _ & _ & El & Hc).
  { intros i Hi. apply list_elem_of_In, in_seq in Hi. lia. }
  rewrite (adcs_init_eq HCLK st st1 E). eexists; split; [reflexivity|].
  unfold adcs_init_result. cbv zeta. cbn [chans dev hw].
  split; [now rewrite El|]. split.
  { intros i s Hs. rewrite (Hc i s Hs).
    destruct (decide (i ∈ seq 0 NUM_ADC)) as [_|H]; [reflexivity|].
    exfalso. apply H, list_elem_of_In, in_seq. apply lookup_lt_Some in Hs. lia. }
  split.
  { intros i Hi.
    change (ACTIVE_CHANNEL (set_clocked false (dev st1)) i)
      with (ACTIVE_CHANNEL (dev st1) i).
    rewrite Eact, bool_decide_eq_true_2; [apply andb_false_r|].
    apply list_elem_of_In, in_seq. lia. }
  split; [exact Ez|].
  split; [rewrite Ed at 1; reflexivity|].
  split; [now rewrite Eh|]. now split.
Qed.

(** X13. On a channel table with its [NUM_ADC] records, [adcs_init] runs
    through: every channel record is reset (its id set, nothing pending,
    requested or delivered, the queue empty) and every channel of the
    table is inactive, the converter and the DMA stream are programmed for
    one conversion and left enabled with the completion interrupt of the
    stream, no flag pending, the regular sequence empty, and the device is
    in software-triggered mode without a software start.  The interrupt
    line is not touched. *)
Theorem adcs_init_resets (HCLK : Z) (st : adc_system) :
  length (chans st) = NUM_ADC ->
  exists st',
    adcs_init HCLK st = Some st' /\
    length (chans st') = NUM_ADC /\
    (forall i s, chans st !! i = Some s -> chans st' !! i = Some (ch_reset i s)) /\
    (forall i, (i < NUM_ADC)%nat -> ACTIVE_CHANNEL (dev st') i = false) /\
    software_triggered st' /\
    trigger_edge (hw st') = ADC_ExternalTrigConvEdge_None /\
    software_start (hw st') = false /\
    ADC_NbrOfConversion <$> ADC_regs (hw st') = Some 1 /\
    DMA_BufferSize <$> DMA_regs (hw st') = Some 1 /\
    ADC_ADON (hw st') = true /\ DMA_EN (hw st') = true /\
    DMA_TCIE (hw st') = true /\ DMA_TCIF (hw st') = false /\
    ADC_SQR (hw st') = [] /\
    NVIC_ADC_IRQ (hw st') = NVIC_ADC_IRQ (hw st).
Proof.
  intros Hl.
  destruct (adcs_init_spec HCLK st Hl) as (st' & E & El & Hc & Hi & _ & _ & Eh & Sw).
  exists st'. split; [exact E|]. split; [exact El|]. split; [exact Hc|].
  split; [exact Hi|]. split; [exact Sw|].
  rewrite Eh. cbv zeta. now repeat split.
Qed.

Lemma adcs_init_resets_witness :
  exists st',
    ACTIVE_CHANNEL (dev st_channel2) 2 = true /\
    adcs_init HCLK_168MHz st_channel2 = Some st' /\
    chans st' !! 2%nat = Some (mkCh 2 false false false false 0 0 0 0 0 0 [] 8) /\
    ACTIVE_CHANNEL (dev st') 2 = false.
Proof.
  destruct (adcs_init_resets HCLK_168MHz st_channel2 eq_refl)
    as (st' & E & _ & C & A & _).
  exists st'. split; [reflexivity|]. split; [exact E|]. split.
  - exact (C 2%nat _ eq_refl).
  - apply A. unfold NUM_ADC. lia.
Defined.

(** X14. Initialisation, that is [NVIC_Configuration] followed by
    [adcs_init] on zeroed memory, runs through and leaves the device
    between two scans, idle and with no channel active, the completion
    interrupt disabled, in software-triggered mode and with the DMA
    template in place; every queue is empty and has the slots it was
    given. *)
Theorem platform_init_idle (HCLK : Z) (slots : nat) :
  exists st,
    platform_init HCLK slots = Some st /\
    between_scans st /\ mask_in_table st /\ running_has_channel st /\
    running (dev st) = false /\
    ch_active (dev st) = 0 /\
    NVIC_ADC_IRQ (hw st) = false /\
    software_triggered st /\
    dma_template_ok st /\
    (forall i, (i < NUM_ADC)%nat -> chans st !! i = Some (ch_reset i
       (mkCh 0 false false false false 0 0 0 0 0 0 [] slots))).
Proof.
  unfold platform_init.
  destruct (adcs_init_spec HCLK (NVIC_Configuration (adc_zero slots)) eq_refl)
    as (st & E & El & Hc & _ & Ez & Ed & Eh & Sw).
  assert (En : NVIC_ADC_IRQ (hw st) = false) by (now rewrite Eh).
  exists st. split; [exact E|].
  assert (Hch : forall i, (i < NUM_ADC)%nat -> chans st !! i = Some (ch_reset i
            (mkCh 0 false false false false 0 0 0 0 0 0 [] slots))).
  { intros i Hi. apply Hc.
    change (chans (NVIC_Configuration (adc_zero slots)))
      with (replicate NUM_ADC (mkCh 0 false false false false 0 0 0 0 0 0 [] slots)).
    now apply lookup_replicate_2. }
  assert (Ea : ch_active (dev st) = 0) by (now apply Ez).
  assert (Er : running (dev st) = false) by (now rewrite Ed).
  split.
  { split; [|split].
    - split; [exact El|]. split; [|now rewrite Ed].
      intros i s Hs. assert (Hi : (i < NUM_ADC)%nat).
      { apply lookup_lt_Some in Hs. lia. }
      rewrite (Hch i Hi) in Hs. injection Hs as <-. split; [reflexivity|].
      cbn. unfold NUM_ADC. lia.
    - unfold irq_matched. now rewrite En, Er.
    - rewrite Er. discriminate. }
  split.
  { intros c _. unfold ACTIVE_CHANNEL. rewrite Ea. apply Z.bits_0. }
  split; [intros R; rewrite Er in R; discriminate|].
  split; [exact Er|]. split; [exact Ea|]. split; [now rewrite En|].
  split; [exact Sw|]. split; [exact (adcs_init_dma_template _ _ _ E)|exact Hch].
Qed.

(** ** The clock of a timer *)

Lemma on_timer_eq id f t r :
  t !! id = Some r -> Timers.on_timer id f t = Some (<[id := f r]> t).
Proof. intros H. unfold Timers.on_timer. now rewrite H. Qed.

Lemma timer_insert_lookup id (x : Timers.TIM_TypeDef) t :
  (id < length t)%nat -> <[id := x]> t !! id = Some x.
Proof. intros H. now apply list_lookup_insert_eq. Qed.

Lemma div_div_self_ge a b : 0 < b <= a -> b <= a / (a / b).
Proof.
  intros H. assert (1 <= a / b) by (apply Z.div_le_lower_bound; lia).
  apply Z.div_le_lower_bound; [lia|].
  pose proof (Z.mul_div_le a b). lia.
Qed.

(** The clock [platform_timer_set_clock] arrives at, given the value it
    leaves in the prescaler register. *)
Lemma timer_set_clock_eq HCLK TIM_DeInit TIM_Cmd id clock t :
  Timers.keeps_time_base (TIM_Cmd ENABLE) ->
  (id < length t)%nat ->
  clock <> 0 ->
  let pre := u32 (HCLK / clock - 1) in
  let psc := u16 (if 65535 <? pre then 65535 else pre) in
  exists tim,
    Timers.platform_timer_set_clock HCLK TIM_DeInit TIM_Cmd id clock t =
      (r ← udiv HCLK (psc + 1); Some (r, <[id := tim]> t)) /\
    Timers.ARR tim = 0xFFFF /\ Timers.PSC tim = psc.
Proof.
  intros Hk Hid Hc pre psc.
  destruct (lookup_lt_is_Some_2 t id Hid) as [r0 Hr0].
  unfold Timers.platform_timer_set_clock.
  rewrite (on_timer_eq _ _ _ _ Hr0). opt_step.
  unfold udiv at 1, TIM_GET_BASE_CLK. destruct (Z.eqb_spec clock 0) as [|_]; [contradiction|].
  opt_step. cbv zeta. fold pre.
  rewrite (on_timer_eq _ _ _ (TIM_DeInit r0))
    by (apply timer_insert_lookup; exact Hid).
  opt_step. rewrite list_insert_insert_eq.
  rewrite (on_timer_eq _ _ _
             (Timers.TIM_TimeBaseInit
                (mkTIM_Base 65535 (u16 (if 65535 <? pre then 65535 else pre))) (TIM_DeInit r0)))
    by (apply timer_insert_lookup; exact Hid).
  opt_step. rewrite list_insert_insert_eq.
  unfold Timers.platform_timer_get_clock.
  rewrite timer_insert_lookup by exact Hid. opt_step.
  destruct (Hk (Timers.TIM_TimeBaseInit
                  (mkTIM_Base 65535 (u16 (if 65535 <? pre then 65535 else pre)))
                  (TIM_DeInit r0))) as [Ea Ep].
  unfold Timers.TIM_GetPrescaler, TIM_GET_BASE_CLK. rewrite Ep.
  eexists. split; [reflexivity|]. split; [exact Ea|exact Ep].
Qed.

(** X15. [platform_timer_set_clock], for every behaviour of the vendor
    calls TIM_DeInit and TIM_Cmd of which the second leaves the period and
    the prescaler alone: with a clock from 1 up to the base clock the
    period is 0xFFFF, the prescaler fits its 16 bits, and the clock
    returned, the base clock divided by the prescaler plus one, is never
    below the request; no other timer is touched.  A request above the
    base clock does not give the fastest clock but the slowest one, the
    base clock divided by 0x10000: the prescaler 0 - 1 wraps and is
    limited to 0xFFFF.  A request of 0 divides by zero. *)
Theorem timer_set_clock_never_slower
    (HCLK : Z) (TIM_DeInit : Timers.TIM_TypeDef -> Timers.TIM_TypeDef)
    (TIM_Cmd : FunctionalState -> Timers.TIM_TypeDef -> Timers.TIM_TypeDef)
    (id : nat) (clock : Z) (t : list Timers.TIM_TypeDef) :
  Timers.keeps_time_base (TIM_Cmd ENABLE) ->
  (id < length t)%nat ->
  0 < HCLK < 2 ^ 32 ->
  0 < clock < 2 ^ 32 ->
  Timers.platform_timer_set_clock HCLK TIM_DeInit TIM_Cmd id 0 t = None /\
  exists r tim,
    Timers.platform_timer_set_clock HCLK TIM_DeInit TIM_Cmd id clock t =
      Some (r, <[id := tim]> t) /\
    Timers.ARR tim = 0xFFFF /\
    0 <= Timers.PSC tim <= 0xFFFF /\
    r = HCLK / (Timers.PSC tim + 1) /\
    HCLK / 0x10000 <= r <= HCLK /\
    (clock <= HCLK -> clock <= r) /\
    (HCLK < clock -> r = HCLK / 0x10000).
Proof.
  intros Hk Hid HH Hc. split.
  { destruct (lookup_lt_is_Some_2 t id Hid) as [r0 Hr0].
    unfold Timers.platform_timer_set_clock.
    now rewrite (on_timer_eq _ _ _ _ Hr0). }
  destruct (timer_set_clock_eq HCLK TIM_DeInit TIM_Cmd id clock t Hk Hid) as (tim & E & Ea & Ep);
    [lia|]. cbv zeta in E, Ep.
  remember (u32 (HCLK / clock - 1)) as pre eqn:Epre.
  remember (u16 (if 65535 <? pre then 65535 else pre)) as psc eqn:Epsc.
  assert (Hq : 0 <= HCLK / clock) by (apply Z.div_pos; lia).
  assert (Hpre : 0 <= pre < 2 ^ 32) by (subst pre; apply Z.mod_pos_bound; lia).
  assert (Hpsc : 0 <= psc <= 65535 /\ psc = (if 65535 <? pre then 65535 else pre)).
  { subst psc. unfold u16. destruct (Z.ltb_spec 65535 pre); rewrite Z.mod_small; lia. }
  destruct Hpsc as [Hpsc Epsc'].
  unfold udiv in E. destruct (Z.eqb_spec (psc + 1) 0) as [|_]; [lia|]. opt_step in E.
  exists (HCLK / (psc + 1)), tim. split; [exact E|]. split; [exact Ea|].
  rewrite Ep. split; [exact Hpsc|]. split; [reflexivity|]. split; [|split].
  - split.
    + apply Z.div_le_compat_l; lia.
    + apply Z.div_le_upper_bound; nia.
  - intros Hle.
    assert (H1 : 1 <= HCLK / clock) by (apply Z.div_le_lower_bound; lia).
    assert (Epre' : pre = HCLK / clock - 1).
    { subst pre. unfold u32. apply Z.mod_small.
      assert (HCLK / clock <= HCLK) by (apply Z.div_le_upper_bound; nia). lia. }
    pose proof (div_div_self_ge HCLK clock (conj (proj1 Hc) Hle)) as Hge.
    rewrite Epsc'. destruct (Z.ltb_spec 65535 pre) as [L|L].
    + etransitivity; [exact Hge|]. apply Z.div_le_compat_l; lia.
    + now replace (pre + 1) with (HCLK / clock) by lia.
  - intros Hgt.
    assert (Epre' : pre = 2 ^ 32 - 1).
    { subst pre. rewrite Z.div_small by lia. reflexivity. }
    rewrite Epsc', Epre'. reflexivity.
Qed.

Lemma keeps_time_base_TIM_Cmd_enable : Timers.keeps_time_base (Timers.TIM_Cmd_enable ENABLE).
Proof. intros r. split; reflexivity. Qed.

Lemma timer_set_clock_never_slower_witness :
  (exists r tim,
     Timers.platform_timer_set_clock HCLK_168MHz Timers.TIM_DeInit_reset Timers.TIM_Cmd_enable
       2 50000 Timers.timers_reset = Some (r, <[2%nat := tim]> Timers.timers_reset) /\
     50000 <= r) /\
  (exists r tim,
     Timers.platform_timer_set_clock HCLK_168MHz Timers.TIM_DeInit_reset Timers.TIM_Cmd_enable
       2 200000000 Timers.timers_reset = Some (r, <[2%nat := tim]> Timers.timers_reset) /\
     r = 2563).
Proof.
  destruct (timer_set_clock_never_slower HCLK_168MHz Timers.TIM_DeInit_reset
              Timers.TIM_Cmd_enable 2 50000 Timers.timers_reset)
    as (_ & r & tim & E & _ & _ & _ & _ & Hle & _);
    [exact keeps_time_base_TIM_Cmd_enable|cbn; lia|unfold HCLK_168MHz; lia|lia|].
  destruct (timer_set_clock_never_slower HCLK_168MHz Timers.TIM_DeInit_reset
              Timers.TIM_Cmd_enable 2 200000000 Timers.timers_reset)
    as (_ & r' & tim' & E' & _ & _ & _ & _ & _ & Hgt);
    [exact keeps_time_base_TIM_Cmd_enable|cbn; lia|unfold HCLK_168MHz; lia|lia|].
  split.
  - exists r, tim. split; [exact E|]. apply Hle. unfold HCLK_168MHz. lia.
  - exists r', tim'. split; [exact E'|]. rewrite Hgt; [reflexivity|unfold HCLK_168MHz; lia].
Defined.

(** ** The clock and the outputs of the PWM timer *)

Lemma pwm_set_clock_eq HCLK id clock t r0 :
  t !! Timers.PWM_TIMER_ID = Some r0 ->
  0 < HCLK < 2 ^ 32 -> 0 < clock <= HCLK ->
  let prescaler := HCLK / clock / 0x10000 + 1 in
  let period := HCLK / clock / prescaler in
  Timers.platform_pwm_set_clock HCLK id clock t =
    Some (HCLK / prescaler / period,
          <[Timers.PWM_TIMER_ID := Timers.mkTIM (period - 1) (prescaler - 1) (Timers.CCER r0)]> t) /\
  Timers.platform_pwm_get_clock HCLK id
    (<[Timers.PWM_TIMER_ID := Timers.mkTIM (period - 1) (prescaler - 1) (Timers.CCER r0)]> t) =
    Some (HCLK / prescaler / period).
Proof.
  intros Hr0 HH Hc prescaler period.
  destruct (clock_divide_bounds HCLK clock HH Hc) as (P0 & Q & P). cbv zeta in P0, Q, P.
  fold prescaler in Q, P. fold period in P.
  assert (Hid : (Timers.PWM_TIMER_ID < length t)%nat) by (now apply lookup_lt_Some in Hr0).
  assert (G : Timers.platform_pwm_get_clock HCLK id
                (<[Timers.PWM_TIMER_ID :=
                    Timers.mkTIM (period - 1) (prescaler - 1) (Timers.CCER r0)]> t) =
              Some (HCLK / prescaler / period)).
  { unfold Timers.platform_pwm_get_clock.
    rewrite timer_insert_lookup by exact Hid. opt_step.
    unfold Timers.TIM_GetPrescaler, TIM_GET_BASE_CLK. cbn [Timers.PSC Timers.ARR].
    replace (prescaler - 1 + 1) with prescaler by lia.
    replace (period - 1 + 1) with period by lia.
    unfold udiv. destruct (Z.eqb_spec prescaler 0); [lia|]. opt_step.
    assert (Eu : u32 period = period) by (unfold u32; apply Z.mod_small; lia).
    rewrite Eu. destruct (Z.eqb_spec period 0); [lia|]. reflexivity. }
  split; [|exact G].
  unfold Timers.platform_pwm_set_clock, TIM_GET_BASE_CLK.
  assert (Ed : forall a b, b <> 0 -> udiv a b = Some (a / b)).
  { intros a b Hb. unfold udiv. now destruct (Z.eqb_spec b 0). }
  rewrite (Ed HCLK clock) by lia. opt_step. cbv zeta.
  assert (E32 : u32 (HCLK / clock / 65536 + 1) = prescaler).
  { unfold u32. apply Z.mod_small. subst prescaler. lia. }
  rewrite E32, (Ed (HCLK / clock) prescaler) by lia. opt_step.
  fold period.
  rewrite (on_timer_eq _ _ _ _ Hr0). opt_step.
  assert (Ea : u32 (period - 1) = period - 1) by (unfold u32; apply Z.mod_small; lia).
  assert (Ep : u16 (prescaler - 1) = prescaler - 1) by (unfold u16; apply Z.mod_small; lia).
  unfold Timers.TIM_TimeBaseInit. cbn [TIM_Period TIM_Prescaler]. rewrite Ea, Ep.
  now rewrite G.
Qed.

(** X16. The clock set-up of the PWM timer repeats the arithmetic of
    [platform_adc_set_clock], and the two agree: for a frequency from 1 up
    to the base clock [platform_pwm_set_clock] runs through, programs the
    same period and prescaler into its timer and returns the same
    frequency, which lies between the request and the base clock and is
    the one [platform_pwm_get_clock] reads back; the output enable bits
    and the other timers are not touched. *)
Theorem pwm_set_clock_agrees_with_adc
    (HCLK : Z) (id id' : nat) (clock : Z) (t : list Timers.TIM_TypeDef)
    (r0 : Timers.TIM_TypeDef) (st : adc_system) (trig : ADC_ExternalTrigConv_t) :
  t !! Timers.PWM_TIMER_ID = Some r0 ->
  adc_timer !! timer_id (dev st) = Some trig ->
  0 < HCLK < 2 ^ 32 ->
  0 < clock <= HCLK ->
  exists r tim st',
    Timers.platform_pwm_set_clock HCLK id clock t =
      Some (r, <[Timers.PWM_TIMER_ID := tim]> t) /\
    platform_adc_set_clock HCLK id' clock st = Some (r, st') /\
    Timers.ARR tim = TIM_ARR (hw st') /\
    Timers.PSC tim = TIM_PSC (hw st') /\
    Timers.CCER tim = Timers.CCER r0 /\
    clock <= r <= HCLK /\
    Timers.platform_pwm_get_clock HCLK id (<[Timers.PWM_TIMER_ID := tim]> t) = Some r.
Proof.
  intros Hr0 Ht HH Hc.
  destruct (pwm_set_clock_eq HCLK id clock t r0 Hr0 HH Hc) as [E G]. cbv zeta in E, G.
  destruct (set_clock_in_range_facts HCLK id' clock st trig HH Hc Ht)
    as (st' & E' & Ea & Ep & B & _).
  eexists _, _, st'. split; [exact E|]. split; [exact E'|].
  split; [now rewrite Ea|]. split; [now rewrite Ep|]. split; [reflexivity|].
  split; [exact B|exact G].
Qed.

Lemma pwm_set_clock_agrees_with_adc_witness :
  exists r tim st',
    Timers.platform_pwm_set_clock HCLK_168MHz 0 7000 Timers.timers_reset =
      Some (r, <[Timers.PWM_TIMER_ID := tim]> Timers.timers_reset) /\
    platform_adc_set_clock HCLK_168MHz 0 7000 st_idle = Some (r, st') /\
    7000 <= r <= HCLK_168MHz.
Proof.
  destruct (pwm_set_clock_agrees_with_adc HCLK_168MHz 0 0 7000 Timers.timers_reset
              (Timers.mkTIM 0xFFFF 0 0) st_idle ADC_ExternalTrigConv_T1_CC1)
    as (r & tim & st' & E & E' & _ & _ & _ & B & _);
    [reflexivity|reflexivity|unfold HCLK_168MHz; lia|unfold HCLK_168MHz; lia|].
  exists r, tim, st'. exact (conj E (conj E' B)).
Defined.

(** X17. Setting the clock of a timer through [platform_timer_set_clock]
    and the PWM clock: on the PWM timer (id 3) the call leaves a period of
    0xFFFF behind, so that [platform_pwm_get_clock] then reads the timer
    clock divided by 0x10000; on any other timer it leaves the PWM clock
    as it was. *)
Theorem timer_set_clock_and_pwm_clock
    (HCLK : Z) (TIM_DeInit : Timers.TIM_TypeDef -> Timers.TIM_TypeDef)
    (TIM_Cmd : FunctionalState -> Timers.TIM_TypeDef -> Timers.TIM_TypeDef)
    (id j : nat) (clock r : Z) (t t' : list Timers.TIM_TypeDef) :
  Timers.keeps_time_base (TIM_Cmd ENABLE) ->
  0 < HCLK < 2 ^ 32 ->
  Timers.platform_timer_set_clock HCLK TIM_DeInit TIM_Cmd id clock t = Some (r, t') ->
  Timers.platform_pwm_get_clock HCLK j t' =
    (if decide (id = Timers.PWM_TIMER_ID) then Some (r / 0x10000)
     else Timers.platform_pwm_get_clock HCLK j t).
Proof.
  intros Hk HH H.
  assert (Hid : (id < length t)%nat).
  { unfold Timers.platform_timer_set_clock, Timers.on_timer in H.
    destruct (t !! id) eqn:E; [|discriminate]. now apply lookup_lt_Some in E. }
  assert (Hc : clock <> 0).
  { intros ->. unfold Timers.platform_timer_set_clock in H.
    destruct (Timers.on_timer id TIM_DeInit t); [|discriminate]. discriminate. }
  destruct (timer_set_clock_eq HCLK TIM_DeInit TIM_Cmd id clock t Hk Hid Hc)
    as (tim & E & Ea & Ep). cbv zeta in E, Ep.
  rewrite E in H. clear E.
  remember (u16 (if 65535 <? u32 (HCLK / clock - 1) then 65535
                 else u32 (HCLK / clock - 1))) as psc eqn:Epsc.
  assert (Hpsc : 0 <= psc < 2 ^ 16) by (subst psc; apply Z.mod_pos_bound; lia).
  unfold udiv in H. destruct (Z.eqb_spec (psc + 1) 0) as [|_]; [lia|].
  opt_step in H. injection H as <- <-.
  destruct (decide (id = Timers.PWM_TIMER_ID)) as [->|Hne].
  - unfold Timers.platform_pwm_get_clock.
    rewrite timer_insert_lookup by exact Hid. opt_step.
    unfold Timers.TIM_GetPrescaler, TIM_GET_BASE_CLK. rewrite Ea, Ep.
    unfold udiv. destruct (Z.eqb_spec (psc + 1) 0) as [|_]; [lia|]. reflexivity.
  - unfold Timers.platform_pwm_get_clock.
    now rewrite list_lookup_insert_ne by exact Hne.
Qed.

Lemma timer_set_clock_and_pwm_clock_witness :
  exists r t',
    Timers.platform_timer_set_clock HCLK_168MHz Timers.TIM_DeInit_reset Timers.TIM_Cmd_enable
      3 50000 Timers.timers_reset = Some (r, t') /\
    Timers.platform_pwm_get_clock HCLK_168MHz 0 t' = Some 0.
Proof.
  exists 50000, (<[3%nat := Timers.mkTIM 0xFFFF 3359 0]> Timers.timers_reset).
  split; [reflexivity|].
  exact (timer_set_clock_and_pwm_clock HCLK_168MHz Timers.TIM_DeInit_reset
           Timers.TIM_Cmd_enable 3 0 50000 50000 Timers.timers_reset
           (<[3%nat := Timers.mkTIM 0xFFFF 3359 0]> Timers.timers_reset)
           keeps_time_base_TIM_Cmd_enable
           ltac:(unfold HCLK_168MHz; lia) eq_refl).
Defined.

(** ** The PWM outputs *)

Lemma pwm_channel_bit_eq id :
  (id < 4)%nat -> Timers.pwm_channel_bit id = Some (Z.shiftl 1 (4 * Z.of_nat id)).
Proof.
  intros H. unfold Timers.pwm_channel_bit. cbv zeta.
  assert (E : u32 (4 * Z.of_nat id) = 4 * Z.of_nat id) by (unfold u32; apply Z.mod_small; lia).
  rewrite E. destruct (Z.ltb_spec (4 * Z.of_nat id) 31); [reflexivity|lia].
Qed.

Lemma testbit_shiftl_1 n i : 0 <= n -> 0 <= i -> Z.testbit (Z.shiftl 1 n) i = (i =? n).
Proof.
  intros Hn Hi. rewrite Z.shiftl_spec by lia.
  destruct (Z.eqb_spec i n) as [->|Hne].
  - now rewrite Z.sub_diag.
  - destruct (Z.ltb_spec i n).
    + apply Z.testbit_neg_r. lia.
    + apply Z.bits_above_log2; cbn; lia.
Qed.

(** X18. For the four PWM channels, on a 16-bit enable register:
    [platform_pwm_start] sets the enable bit of its channel (bit 4 * id)
    and [platform_pwm_stop] clears it; neither touches the bit of another
    channel, the period or the prescaler; a stop undoes a start and a
    start undoes a stop, whatever the bit was before. *)
Theorem pwm_start_stop_one_bit
    (id : nat) (t : list Timers.TIM_TypeDef) (r : Timers.TIM_TypeDef) :
  (id < 4)%nat ->
  t !! Timers.PWM_TIMER_ID = Some r ->
  0 <= Timers.CCER r < 2 ^ 16 ->
  exists c1 c2,
    Timers.platform_pwm_start id t =
      Some (<[Timers.PWM_TIMER_ID := Timers.set_CCER c1 r]> t) /\
    Timers.platform_pwm_stop id t =
      Some (<[Timers.PWM_TIMER_ID := Timers.set_CCER c2 r]> t) /\
    0 <= c1 < 2 ^ 16 /\ 0 <= c2 < 2 ^ 16 /\
    (forall i, Z.testbit c1 i = Z.testbit (Timers.CCER r) i || (i =? 4 * Z.of_nat id)) /\
    (forall i, Z.testbit c2 i = Z.testbit (Timers.CCER r) i && negb (i =? 4 * Z.of_nat id)) /\
    Timers.platform_pwm_stop id (<[Timers.PWM_TIMER_ID := Timers.set_CCER c1 r]> t) =
      Some (<[Timers.PWM_TIMER_ID := Timers.set_CCER c2 r]> t) /\
    Timers.platform_pwm_start id (<[Timers.PWM_TIMER_ID := Timers.set_CCER c2 r]> t) =
      Some (<[Timers.PWM_TIMER_ID := Timers.set_CCER c1 r]> t).
Proof.
  intros Hid Hr Hc.
  assert (Hlen : (Timers.PWM_TIMER_ID < length t)%nat) by (now apply lookup_lt_Some in Hr).
  set (n := 4 * Z.of_nat id).
  assert (Hn : 0 <= n < 16) by (subst n; lia).
  assert (Hhi : forall i, 16 <= i -> Z.testbit (Timers.CCER r) i = false).
  { intros i Hi. destruct (Z.eq_dec (Timers.CCER r) 0) as [->|Hne]; [apply Z.bits_0|].
    apply Z.bits_above_log2; [lia|].
    assert (Z.log2 (Timers.CCER r) < 16) by (apply Z.log2_lt_pow2; lia). lia. }
  assert (B1 : forall c i, Z.testbit (u16 (Z.lor c (Z.shiftl 1 n))) i =
                 (i <? 16) && (Z.testbit c i || (i =? n))).
  { intros c i. unfold u16. rewrite Z.testbit_mod_pow2 by lia.
    destruct (Z.ltb_spec i 0) as [L|L].
    - rewrite !Z.testbit_neg_r by lia.
      destruct (Z.eqb_spec i n); [lia|]. now destruct (i <? 16).
    - now rewrite Z.lor_spec, testbit_shiftl_1 by lia. }
  assert (B2 : forall c i, Z.testbit (u16 (Z.land c (Z.lnot (Z.shiftl 1 n)))) i =
                 (i <? 16) && (Z.testbit c i && negb (i =? n))).
  { intros c i. unfold u16. rewrite Z.testbit_mod_pow2 by lia.
    destruct (Z.ltb_spec i 0) as [L|L].
    - rewrite !Z.testbit_neg_r by lia. now destruct (i <? 16).
    - now rewrite Z.land_spec, Z.lnot_spec, testbit_shiftl_1 by lia. }
  assert (R16 : forall x, 0 <= u16 x < 2 ^ 16) by (intros x; apply Z.mod_pos_bound; lia).
  exists (u16 (Z.lor (Timers.CCER r) (Z.shiftl 1 n))),
         (u16 (Z.land (Timers.CCER r) (Z.lnot (Z.shiftl 1 n)))).
  unfold Timers.platform_pwm_start, Timers.platform_pwm_stop.
  rewrite (pwm_channel_bit_eq id Hid). fold n. opt_step.
  rewrite !(on_timer_eq _ _ _ _ Hr).
  split; [reflexivity|]. split; [reflexivity|].
  split; [apply R16|]. split; [apply R16|]. split; [|split; [|split]].
  - intros i. rewrite B1. destruct (Z.ltb_spec i 16) as [L|L]; [reflexivity|].
    rewrite (Hhi i L). destruct (Z.eqb_spec i n); [lia|reflexivity].
  - intros i. rewrite B2. destruct (Z.ltb_spec i 16) as [L|L]; [reflexivity|].
    now rewrite (Hhi i L).
  - rewrite (on_timer_eq _ _ _ (Timers.set_CCER (u16 (Z.lor (Timers.CCER r) (Z.shiftl 1 n))) r))
      by (apply timer_insert_lookup; exact Hlen).
    rewrite list_insert_insert_eq. do 2 f_equal.
    unfold Timers.set_CCER. cbn [Timers.ARR Timers.PSC Timers.CCER]. f_equal.
    apply Z.bits_inj'. intros i Hi. rewrite !B2, B1.
    destruct (i <? 16), (Z.testbit (Timers.CCER r) i), (i =? n); reflexivity.
  - rewrite (on_timer_eq _ _ _
               (Timers.set_CCER (u16 (Z.land (Timers.CCER r) (Z.lnot (Z.shiftl 1 n)))) r))
      by (apply timer_insert_lookup; exact Hlen).
    rewrite list_insert_insert_eq. do 2 f_equal.
    unfold Timers.set_CCER. cbn [Timers.ARR Timers.PSC Timers.CCER]. f_equal.
    apply Z.bits_inj'. intros i Hi. rewrite !B1, B2.
    destruct (i <? 16), (Z.testbit (Timers.CCER r) i), (i =? n); reflexivity.
Qed.

Lemma pwm_start_stop_one_bit_witness :
  exists c1 c2,
    Timers.platform_pwm_start 2 Timers.timers_reset =
      Some (<[3%nat := Timers.mkTIM 0xFFFF 0 c1]> Timers.timers_reset) /\
    Timers.platform_pwm_stop 2 (<[3%nat := Timers.mkTIM 0xFFFF 0 c1]> Timers.timers_reset) =
      Some (<[3%nat := Timers.mkTIM 0xFFFF 0 c2]> Timers.timers_reset) /\
    Z.testbit c1 8 = true /\ Z.testbit c2 8 = false.
Proof.
  destruct (pwm_start_stop_one_bit 2 Timers.timers_reset (Timers.mkTIM 0xFFFF 0 0))
    as (c1 & c2 & E1 & _ & _ & _ & B1 & B2 & E3 & _);
    [lia|reflexivity|cbn; lia|].
  exists c1, c2. split; [exact E1|]. split; [exact E3|].
  rewrite B1, B2. split; reflexivity.
Defined.

(** ** The CAN bit rate *)

(** X19. [platform_can_setup] runs through for every requested clock and
    returns a rate of its table: the largest one that does not exceed the
    request, and the smallest one, 100000, for a request below it.  The
    prescaler it hands to CAN_Init is the one of the same row of the
    tables, and the calls into the vendor library are the same six for
    every request. *)
Theorem can_setup_largest_rate_below (id : nat) (clock : Z) :
  exists idx rate s,
    CAN.platform_can_setup id clock =
      Some (rate, [CAN.GPIO_PinAFConfig CAN.CAN_RX; CAN.GPIO_PinAFConfig CAN.CAN_TX;
                   CAN.GPIO_Init; CAN.CAN_DeInit; CAN.CAN_Init s; CAN.CAN_FilterInit]) /\
    CAN.can_baud_rate !! idx = Some rate /\
    CAN.can_baud_pre !! idx = Some (CAN.CAN_Prescaler s) /\
    CAN.can_baud_bs1 !! idx = Some (CAN.CAN_BS1 s) /\
    CAN.can_baud_bs2 !! idx = Some (CAN.CAN_BS2 s) /\
    (clock < 100000 -> rate = 100000) /\
    (100000 <= clock ->
     rate <= clock /\ forall r, In r CAN.can_baud_rate -> r <= clock -> r <= rate).
Proof.
  unfold CAN.platform_can_setup.
  change (CAN.can_baud_rate !! (CAN.CAN_BAUD_COUNT - 1)%nat) with (Some 1000000).
  opt_step.
  assert (Hin : forall r, In r CAN.can_baud_rate ->
                  r = 100000 \/ r = 125000 \/ r = 250000 \/ r = 500000 \/ r = 1000000).
  { intros r H. cbn in H. intuition auto. }
  destruct (Z.leb_spec 1000000 clock) as [L4|L4].
  { exists 4%nat. eexists _, _. split; [reflexivity|].
    do 4 (split; [reflexivity|]). split; [lia|]. intros _. split; [lia|].
    intros r Hr Hle. destruct (Hin r Hr) as [->|[->|[->|[->| ->]]]]; lia. }
  cbn [CAN.can_baud_loop CAN.CAN_BAUD_COUNT Nat.sub Nat.ltb Nat.leb Nat.add].
  change (CAN.can_baud_rate !! 1%nat) with (Some 125000). opt_step.
  destruct (Z.ltb_spec clock 125000) as [L0|L0].
  { exists 0%nat. eexists _, _. split; [reflexivity|].
    do 4 (split; [reflexivity|]). split; [reflexivity|]. intros H. split; [lia|].
    intros r Hr Hle. destruct (Hin r Hr) as [->|[->|[->|[->| ->]]]]; lia. }
  change (CAN.can_baud_rate !! 2%nat) with (Some 250000). opt_step.
  destruct (Z.ltb_spec clock 250000) as [L1|L1].
  { exists 1%nat. eexists _, _. split; [reflexivity|].
    do 4 (split; [reflexivity|]). split; [lia|]. intros H. split; [lia|].
    intros r Hr Hle. destruct (Hin r Hr) as [->|[->|[->|[->| ->]]]]; lia. }
  change (CAN.can_baud_rate !! 3%nat) with (Some 500000). opt_step.
  destruct (Z.ltb_spec clock 500000) as [L2|L2].
  { exists 2%nat. eexists _, _. split; [reflexivity|].
    do 4 (split; [reflexivity|]). split; [lia|]. intros H. split; [lia|].
    intros r Hr Hle. destruct (Hin r Hr) as [->|[->|[->|[->| ->]]]]; lia. }
  change (CAN.can_baud_rate !! 4%nat) with (Some 1000000). opt_step.
  destruct (Z.ltb_spec clock 1000000) as [L3|L3]; [|lia].
  exists 3%nat. eexists _, _. split; [reflexivity|].
  do 4 (split; [reflexivity|]). split; [lia|]. intros H. split; [lia|].
  intros r Hr Hle. destruct (Hin r Hr) as [->|[->|[->|[->| ->]]]]; lia.
Qed.

(** ** Port E, pin 2 *)

Lemma land_without_self a b : Z.land (Z.land a (Z.lnot b)) b = 0.
Proof. now rewrite <- Z.land_assoc, (Z.land_comm (Z.lnot b)), Z.land_lnot_diag, Z.land_0_r. Qed.

Lemma pio_dir_output_spares_PE2 P2 base pinmask s c :
  In c (PIO.pio_dir_output true P2 base pinmask s) -> ~ PIO.drives_PE2 P2 c.
Proof.
  unfold PIO.pio_dir_output. cbv zeta.
  destruct (PIO.GPIO_TypeDef_eqb base PIO.GPIOE) eqn:Eb; cbn [andb].
  - destruct (Z.eqb_spec (Z.land pinmask P2) 0) as [Z0|Z0]; cbn [negb].
    + intros [<-|[]]. destruct base; try discriminate Eb.
      cbn. intros (_ & _ & H). exact (H Z0).
    + intros [<-|H].
      * destruct base; try discriminate Eb. cbn. intros (_ & H & _). discriminate H.
      * destruct (negb (pinmask =? P2)); [|destruct H].
        destruct H as [<-|[]]. destruct base; try discriminate Eb.
        cbn. intros (_ & _ & H). apply H, land_without_self.
  - intros [<-|[]]. destruct base; try discriminate Eb; cbn; tauto.
Qed.

(** X20. In the build for the RuuviTracker board (ELUA_BOARD_RUUVIB1),
    whatever the constants of the vendor header and whatever its
    GPIO_StructInit fills in, as long as that is not the output mode:
    no call that [platform_pio_op] makes configures pin 2 of port E as a
    push-pull output.  When the pin is among those to become outputs it
    is configured on its own as open drain, and the other pins are
    configured without it. *)
Theorem pio_op_never_drives_PE2
    (GPIO_Pin_2 GPIO_Pin_All PLATFORM_IO_READ_IN_MASK : Z)
    (GPIO_StructInit : PIO.GPIO_InitTypeDef)
    (GPIO_ReadInputData GPIO_ReadOutputData : PIO.GPIO_TypeDef -> Z)
    (GPIO_ReadInputDataBit : PIO.GPIO_TypeDef -> Z -> Z)
    (port : nat) (pinmask : Z) (op : PIO.pio_op) (retval : Z)
    (calls : list PIO.vendor_call) :
  PIO.GPIO_Mode GPIO_StructInit <> PIO.GPIO_Mode_OUT ->
  PIO.platform_pio_op true GPIO_Pin_2 GPIO_Pin_All PLATFORM_IO_READ_IN_MASK
    GPIO_StructInit GPIO_ReadInputData GPIO_ReadOutputData GPIO_ReadInputDataBit
    port pinmask op = Some (retval, calls) ->
  (forall c, In c calls -> ~ PIO.drives_PE2 GPIO_Pin_2 c) /\
  (op = PIO.PLATFORM_IO_PIN_DIR_OUTPUT -> port = 4%nat ->
   Z.land pinmask GPIO_Pin_2 <> 0 ->
   exists s rest,
     calls = PIO.GPIO_Init PIO.GPIOE s :: rest /\
     PIO.GPIO_Pin s = GPIO_Pin_2 /\ PIO.GPIO_Mode s = PIO.GPIO_Mode_OUT /\
     PIO.GPIO_OType s = PIO.GPIO_OType_OD).
Proof.
  intros Hm H. unfold PIO.platform_pio_op in H.
  destruct (PIO.pio_port !! port) as [base|] eqn:Eb; [|discriminate].
  opt_step in H. cbv zeta in H. injection H as H.
  assert (Hin : forall s c, PIO.GPIO_Mode s <> PIO.GPIO_Mode_OUT ->
                  In c [PIO.GPIO_Init base s] -> ~ PIO.drives_PE2 GPIO_Pin_2 c).
  { intros s c Hs [<-|[]]. destruct base; cbn; tauto. }
  split.
  - intros c Hc.
    destruct op; injection H as <- <-;
      try (destruct Hc as [<-|[]]; cbn; tauto);
      try (apply (Hin _ c) in Hc; [exact Hc|cbn; congruence]);
      try (destruct Hc);
      try (exact (pio_dir_output_spares_PE2 _ _ _ _ c Hc)).
  - intros -> -> Hp. injection H as <- <-.
    assert (base = PIO.GPIOE) as -> by (cbn in Eb; congruence).
    unfold PIO.pio_dir_output. cbv zeta. cbn [PIO.GPIO_TypeDef_eqb andb].
    destruct (Z.eqb_spec (Z.land pinmask GPIO_Pin_2) 0) as [Z0|_]; [contradiction|].
    cbn [negb]. eexists _, _. split; [reflexivity|]. now repeat split.
Qed.

Lemma pio_op_never_drives_PE2_witness :
  exists s1 s2,
    PIO.platform_pio_op true 4 0xFFFF 0 PIO.GPIO_StructInit_default
      (fun _ => 0) (fun _ => 0) (fun _ _ => 0) 4 12 PIO.PLATFORM_IO_PIN_DIR_OUTPUT =
    Some (1, [PIO.GPIO_Init PIO.GPIOE s1; PIO.GPIO_Init PIO.GPIOE s2]) /\
    PIO.GPIO_Pin s1 = 4 /\ PIO.GPIO_OType s1 = PIO.GPIO_OType_OD /\
    PIO.GPIO_Pin s2 = 8 /\
    ~ PIO.drives_PE2 4 (PIO.GPIO_Init PIO.GPIOE s1) /\
    ~ PIO.drives_PE2 4 (PIO.GPIO_Init PIO.GPIOE s2).
Proof.
  eexists _, _. split; [reflexivity|].
  split; [reflexivity|]. split; [reflexivity|]. split; [reflexivity|].
  pose proof (pio_op_never_drives_PE2 4 0xFFFF 0 PIO.GPIO_StructInit_default
                (fun _ => 0) (fun _ => 0) (fun _ _ => 0) 4 12
                PIO.PLATFORM_IO_PIN_DIR_OUTPUT 1 _ ltac:(discriminate) eq_refl) as (H & _).
  split; apply H; [now left|right; now left].
Defined.

(** ** The delay *)

Lemma tick_iter n : forall s,
  Nat.iter n Delay.SysTick_Handler s = u32 (s + Z.of_nat n) \/ n = 0%nat.
Proof.
  induction n as [|n IH]; intros s; [now right|left].
  rewrite Nat.iter_succ_r. destruct (IH (Delay.SysTick_Handler s)) as [->| ->].
  - unfold Delay.SysTick_Handler, u32. rewrite Zplus_mod_idemp_l. f_equal. lia.
  - change (Nat.iter 0 Delay.SysTick_Handler (Delay.SysTick_Handler s))
      with (Delay.SysTick_Handler s).
    unfold Delay.SysTick_Handler. f_equal.
Qed.

Lemma tick_iter_u32 n s : 0 <= s < 2 ^ 32 ->
  Nat.iter n Delay.SysTick_Handler s = u32 (s + Z.of_nat n).
Proof.
  intros Hs. destruct (tick_iter n s) as [E| ->]; [exact E|].
  change (Nat.iter 0 Delay.SysTick_Handler s) with s. unfold u32. rewrite Z.add_0_r. symmetry. now apply Z.mod_small.
Qed.

(** A loop that goes on for exactly [k] ticks. *)
Lemma delay_loop_run cond ms k : forall fuel s,
  (forall i, (i < k)%nat -> cond ms (Nat.iter i Delay.SysTick_Handler s) = true) ->
  cond ms (Nat.iter k Delay.SysTick_Handler s) = false ->
  Delay.delay_loop cond fuel ms s =
  if (k <=? fuel)%nat then Some ((fuel - k)%nat, Nat.iter k Delay.SysTick_Handler s) else None.
Proof.
  induction k as [|k IH]; intros fuel s Hrun Hend.
  - change (Nat.iter 0 Delay.SysTick_Handler s) with s in *. rewrite Nat.sub_0_r.
    destruct fuel; cbn [Delay.delay_loop Nat.leb]; now rewrite Hend.
  - assert (H0 : cond ms s = true) by (apply (Hrun 0%nat); lia).
    destruct fuel as [|fuel]; cbn [Delay.delay_loop Nat.leb]; rewrite H0; [reflexivity|].
    rewrite (IH fuel (Delay.SysTick_Handler s)).
    + rewrite <- Nat.iter_succ_r. reflexivity.
    + intros i Hi. rewrite <- Nat.iter_succ_r. apply Hrun. lia.
    + now rewrite <- Nat.iter_succ_r.
Qed.

Lemma delay_ms_eq fuel ms t0 :
  0 <= ms < 2 ^ 32 -> 0 <= t0 < 2 ^ 32 ->
  Delay.delay_ms fuel ms t0 =
  if (Z.to_nat ms <=? fuel)%nat then Some ((fuel - Z.to_nat ms)%nat, u32 (t0 + ms)) else None.
Proof.
  intros Hms Ht. unfold Delay.delay_ms. cbv zeta.
  change Delay.SYSTICKMS with 1. rewrite Z.mul_1_r.
  assert (E1 : u32 ms = ms) by (unfold u32; apply Z.mod_small; lia). rewrite E1.
  rewrite (Z.add_comm ms t0).
  destruct (Z.lt_ge_cases (t0 + ms) (2 ^ 32)) as [L|L].
  - (* the sum does not wrap *)
    assert (ET : u32 (t0 + ms) = t0 + ms) by (unfold u32; apply Z.mod_small; lia).
    rewrite ET.
    rewrite (delay_loop_run Z.ltb (t0 + ms) 0 fuel t0);
      [|intros i Hi; lia|change (Nat.iter 0 Delay.SysTick_Handler t0) with t0; apply Z.ltb_ge; lia].
    change (Nat.iter 0 Delay.SysTick_Handler t0) with t0.
    cbn [Nat.leb]. opt_step. rewrite Nat.sub_0_r.
    rewrite (delay_loop_run Z.gtb (t0 + ms) (Z.to_nat ms) fuel t0).
    + rewrite tick_iter_u32 by exact Ht. rewrite Z2Nat.id by lia. now rewrite ET.
    + intros i Hi. rewrite tick_iter_u32 by exact Ht.
      unfold u32. rewrite Z.mod_small by lia. apply Z.gtb_lt. lia.
    + rewrite tick_iter_u32 by exact Ht. rewrite Z2Nat.id by lia. rewrite ET.
      rewrite Z.gtb_ltb. apply Z.ltb_irrefl.
  - (* the sum wraps *)
    assert (ET : u32 (t0 + ms) = t0 + ms - 2 ^ 32).
    { unfold u32. symmetry. apply (Z.mod_unique_pos _ _ 1); lia. }
    rewrite ET.
    set (k1 := Z.to_nat (2 ^ 32 - t0)). set (T := t0 + ms - 2 ^ 32).
    assert (E0 : Nat.iter k1 Delay.SysTick_Handler t0 = 0).
    { rewrite tick_iter_u32 by exact Ht. subst k1. rewrite Z2Nat.id by lia.
      replace (t0 + (2 ^ 32 - t0)) with (2 ^ 32) by lia. reflexivity. }
    rewrite (delay_loop_run Z.ltb T k1 fuel t0).
    2:{ intros i Hi. rewrite tick_iter_u32 by exact Ht.
        unfold u32. rewrite Z.mod_small by (subst k1; lia). apply Z.ltb_lt. subst T. lia. }
    2:{ rewrite E0. apply Z.ltb_ge. subst T. lia. }
    rewrite E0.
    destruct (Nat.leb_spec k1 fuel) as [F1|F1].
    + opt_step.
      rewrite (delay_loop_run Z.gtb T (Z.to_nat T) (fuel - k1) 0).
      * rewrite tick_iter_u32 by lia. rewrite Z2Nat.id by (subst T; lia).
        assert (EuT : u32 (0 + T) = T) by (unfold u32; apply Z.mod_small; subst T; lia).
        rewrite EuT.
        destruct (Nat.leb_spec (Z.to_nat T) (fuel - k1)) as [F2|F2];
          destruct (Nat.leb_spec (Z.to_nat ms) fuel) as [F3|F3];
          try (subst k1 T; lia); [|reflexivity].
        do 2 f_equal. subst k1 T. lia.
      * intros i Hi. rewrite tick_iter_u32 by lia.
        unfold u32. rewrite Z.mod_small by (subst T; lia). apply Z.gtb_lt. lia.
      * rewrite tick_iter_u32 by lia. rewrite Z2Nat.id by (subst T; lia).
        assert (EuT : u32 (0 + T) = T) by (unfold u32; apply Z.mod_small; subst T; lia).
        rewrite EuT, Z.gtb_ltb. apply Z.ltb_irrefl.
    + opt_step. destruct (Nat.leb_spec (Z.to_nat ms) fuel) as [F3|F3]; [|reflexivity].
      subst k1. lia.
Qed.

(** X21. [delay_ms], each turn of its loops taken to end with the next run
    of [SysTick_Handler]: for every delay and every value of the tick
    counter at the call, also when their sum wraps around, it returns
    after exactly [ms] ticks, with the counter at the start value plus
    [ms] modulo 2^32; with fewer ticks it is still waiting. *)
Theorem delay_ms_waits_exactly (ms t0 : Z) (extra fuel : nat) :
  0 <= ms < 2 ^ 32 ->
  0 <= t0 < 2 ^ 32 ->
  Delay.delay_ms (Z.to_nat ms + extra) ms t0 = Some (extra, u32 (t0 + ms)) /\
  ((fuel < Z.to_nat ms)%nat -> Delay.delay_ms fuel ms t0 = None).
Proof.
  intros Hms Ht. rewrite !delay_ms_eq by assumption. split.
  - destruct (Nat.leb_spec (Z.to_nat ms) (Z.to_nat ms + extra)); [|lia].
    do 2 f_equal. lia.
  - intros Hf. destruct (Nat.leb_spec (Z.to_nat ms) fuel); [lia|reflexivity].
Qed.

Lemma delay_ms_waits_exactly_witness :
  Delay.delay_ms 3 3 0xFFFFFFFE = Some (0%nat, 1) /\
  Delay.delay_ms 2 3 0xFFFFFFFE = None.
Proof.
  destruct (delay_ms_waits_exactly 3 0xFFFFFFFE 0 2) as [E N]; [lia|lia|].
  split; [exact E|]. apply N. cbn. lia.
Defined.

(** ** The interrupt of the system tick *)

(** X22. For every position of the TICKINT bit that a shift of [int] can
    reach and every 32-bit value of the control register:
    [platform_timer_sys_enable_int] sets the bit and
    [platform_timer_sys_disable_int] clears it, neither changes another
    bit, and each undoes the other whatever the bit was before. *)
Theorem systick_int_one_bit (pos CTRL : Z) :
  0 <= pos < 31 ->
  0 <= CTRL < 2 ^ 32 ->
  exists on off,
    SysTick.platform_timer_sys_enable_int pos CTRL = Some on /\
    SysTick.platform_timer_sys_disable_int pos CTRL = Some off /\
    0 <= on < 2 ^ 32 /\ 0 <= off < 2 ^ 32 /\
    (forall i, Z.testbit on i = Z.testbit CTRL i || (i =? pos)) /\
    (forall i, Z.testbit off i = Z.testbit CTRL i && negb (i =? pos)) /\
    SysTick.platform_timer_sys_disable_int pos on = Some off /\
    SysTick.platform_timer_sys_enable_int pos off = Some on.
Proof.
  intros Hp Hc.
  assert (Hhi : forall i, 32 <= i -> Z.testbit CTRL i = false).
  { intros i Hi. apply u32_bits_above; [exact Hc|exact Hi]. }
  assert (B1 : forall c i, Z.testbit (u32 (Z.lor c (Z.shiftl 1 pos))) i =
                 (i <? 32) && (Z.testbit c i || (i =? pos))).
  { intros c i. unfold u32. rewrite Z.testbit_mod_pow2 by lia.
    destruct (Z.ltb_spec i 0) as [L|L].
    - rewrite !Z.testbit_neg_r by lia.
      destruct (Z.eqb_spec i pos); [lia|]. now destruct (i <? 32).
    - now rewrite Z.lor_spec, testbit_shiftl_1 by lia. }
  assert (B2 : forall c i, Z.testbit (u32 (Z.land c (Z.lnot (Z.shiftl 1 pos)))) i =
                 (i <? 32) && (Z.testbit c i && negb (i =? pos))).
  { intros c i. unfold u32. rewrite Z.testbit_mod_pow2 by lia.
    destruct (Z.ltb_spec i 0) as [L|L].
    - rewrite !Z.testbit_neg_r by lia. now destruct (i <? 32).
    - now rewrite Z.land_spec, Z.lnot_spec, testbit_shiftl_1 by lia. }
  assert (R32 : forall x, 0 <= u32 x < 2 ^ 32) by (intros x; apply Z.mod_pos_bound; lia).
  assert (Eb : SysTick.TICKINT pos = Some (Z.shiftl 1 pos)).
  { unfold SysTick.TICKINT.
    destruct (Z.leb_spec 0 pos); [|lia]. destruct (Z.ltb_spec pos 31); [reflexivity|lia]. }
  unfold SysTick.platform_timer_sys_enable_int, SysTick.platform_timer_sys_disable_int.
  rewrite Eb. opt_step.
  eexists _, _. split; [reflexivity|]. split; [reflexivity|].
  split; [apply R32|]. split; [apply R32|]. split; [|split; [|split]].
  - intros i. rewrite B1. destruct (Z.ltb_spec i 32) as [L|L]; [reflexivity|].
    rewrite (Hhi i L). destruct (Z.eqb_spec i pos); [lia|reflexivity].
  - intros i. rewrite B2. destruct (Z.ltb_spec i 32) as [L|L]; [reflexivity|].
    now rewrite (Hhi i L).
  - f_equal. apply Z.bits_inj'. intros i Hi. rewrite !B2, B1.
    destruct (i <? 32), (Z.testbit CTRL i), (i =? pos); reflexivity.
  - f_equal. apply Z.bits_inj'. intros i Hi. rewrite !B1, B2.
    destruct (i <? 32), (Z.testbit CTRL i), (i =? pos); reflexivity.
Qed.

Lemma systick_int_one_bit_witness :
  exists on off,
    SysTick.platform_timer_sys_enable_int 1 5 = Some on /\
    SysTick.platform_timer_sys_disable_int 1 on = Some off /\
    Z.testbit on 1 = true /\ Z.testbit off 1 = false.
Proof.
  destruct (systick_int_one_bit 1 5) as (on & off & E1 & _ & _ & _ & B1 & B2 & E3 & _);
    [lia|lia|].
  exists on, off. split; [exact E1|]. split; [exact E3|].
  rewrite B1, B2. split; reflexivity.
Defined.

(** ** The clock of an SPI *)

Lemma spi_prescaler_lookup idx :
  0 <= idx <= 7 ->
  SPI.spi_prescaler !! Z.to_nat idx = Some (2 ^ (idx + 1)) /\
  Z.shiftl 2 idx = 2 ^ (idx + 1).
Proof.
  intros H.
  assert (E : idx = 0 \/ idx = 1 \/ idx = 2 \/ idx = 3 \/ idx = 4 \/ idx = 5 \/
              idx = 6 \/ idx = 7) by lia.
  destruct E as [->|[->|[->|[->|[->|[->|[->| ->]]]]]]]; split; reflexivity.
Qed.

Lemma spi_setup_eq HCLK P1 P2 intlog2 id mode clock cpol cpha databits :
  (id < 3)%nat -> P1 <> 0 -> P2 <> 0 -> clock <> 0 ->
  let base := if (id =? 0)%nat then HCLK / P2 else HCLK / P1 in
  let idx0 := SPI.u8 (intlog2 (u32 (base / clock))) in
  let idx := if 7 <? idx0 then 7 else idx0 in
  0 <= idx <= 7 /\
  SPI.SPI_GET_BASE_CLK HCLK P1 P2 id = Some base /\
  exists sp port sck miso mosi af,
    SPI.spi !! id = Some sp /\
    SPI.platform_spi_setup HCLK P1 P2 intlog2 id mode clock cpol cpha databits =
      Some (base / 2 ^ (idx + 1),
            [SPI.GPIO_PinAFConfig port sck af; SPI.GPIO_PinAFConfig port miso af;
             SPI.GPIO_PinAFConfig port mosi af; SPI.GPIO_Init port [sck; miso; mosi];
             SPI.SPI_I2S_DeInit sp; SPI.SPI_Cmd sp DISABLE;
             SPI.SPI_Init sp
               (SPI.mkSPI_Init
                  (if mode =? 0 then SPI.SPI_Mode_Slave else SPI.SPI_Mode_Master)
                  (if databits =? 16 then SPI.SPI_DataSize_16b else SPI.SPI_DataSize_8b)
                  (if cpol =? 0 then SPI.SPI_CPOL_Low else SPI.SPI_CPOL_High)
                  (if cpha =? 0 then SPI.SPI_CPHA_1Edge else SPI.SPI_CPHA_2Edge)
                  (2 ^ (idx + 1)));
             SPI.SPI_Cmd sp ENABLE]).
Proof.
  intros Hid HP1 HP2 Hc base idx0 idx.
  assert (H0 : 0 <= idx0 < 2 ^ 8) by (apply Z.mod_pos_bound; lia).
  assert (Hidx : 0 <= idx <= 7) by (subst idx; destruct (Z.ltb_spec 7 idx0); lia).
  destruct (spi_prescaler_lookup idx Hidx) as [Epre Esh].
  assert (Ed : forall a b, b <> 0 -> udiv a b = Some (a / b)).
  { intros a b Hb. unfold udiv. now destruct (Z.eqb_spec b 0). }
  assert (Eb : SPI.SPI_GET_BASE_CLK HCLK P1 P2 id = Some base).
  { unfold SPI.SPI_GET_BASE_CLK. subst base. destruct (id =? 0)%nat; now apply Ed. }
  split; [exact Hidx|]. split; [exact Eb|].
  unfold SPI.platform_spi_setup. rewrite Eb. opt_step.
  rewrite (Ed base clock Hc). opt_step. cbv zeta. fold idx0.
  destruct (Z.ltb_spec idx0 0) as [L|_]; [lia|]. fold idx.
  assert (H2 : 2 ^ (idx + 1) <> 0) by (apply Z.pow_nonzero; lia).
  destruct id as [|[|[|id]]]; [| | |lia];
    cbn [lookup list_lookup SPI.spi_gpio_port SPI.spi_gpio_pins_source SPI.spi_AF
         SPI.spi_gpio_pins SPI.spi]; opt_step;
    rewrite Epre; opt_step; rewrite Esh, (Ed _ _ H2); opt_step;
    eexists _, _, _, _, _, _; (split; reflexivity).
Qed.

(** X23. [platform_spi_setup], for every [intlog2], every SPI of the tables
    and every clock but 0: the index into [spi_prescaler] is always one of
    0 to 7 (the test for a negative index never applies to the unsigned
    byte), the prescaler handed to SPI_Init is 2 ^ (index + 1), and the
    clock returned is the base clock divided by exactly that prescaler;
    the three pins connected to the SPI are the pins that are configured.
    With [intlog2] the floor of the binary logarithm and a request from
    the base clock / 255 up to the base clock, the clock returned is
    below the request, never equal to it, and at least half of it. *)
Theorem spi_setup_prescaler_matches_clock
    (HCLK PCLK1_DIV PCLK2_DIV : Z) (intlog2 : Z -> Z)
    (id : nat) (mode clock cpol cpha databits : Z) :
  (id < 3)%nat ->
  0 <= HCLK < 2 ^ 32 -> 0 < PCLK1_DIV -> 0 < PCLK2_DIV ->
  0 < clock < 2 ^ 32 ->
  exists base r sp s calls,
    SPI.SPI_GET_BASE_CLK HCLK PCLK1_DIV PCLK2_DIV id = Some base /\
    SPI.platform_spi_setup HCLK PCLK1_DIV PCLK2_DIV intlog2 id mode clock cpol cpha databits =
      Some (r, calls) /\
    SPI.spi !! id = Some sp /\
    In (SPI.SPI_Init sp s) calls /\
    In (SPI.SPI_BaudRatePrescaler s) SPI.spi_prescaler /\
    r = base / SPI.SPI_BaudRatePrescaler s /\
    base / 256 <= r <= base / 2 /\
    (forall port pins, In (SPI.GPIO_Init port pins) calls ->
       forall pin, In pin pins <-> exists af, In (SPI.GPIO_PinAFConfig port pin af) calls) /\
    (SPI.is_floor_log2 intlog2 -> clock <= base -> base / clock < 256 ->
     clock / 2 <= r < clock).
Proof.
  intros Hid HH HP1 HP2 Hc.
  destruct (spi_setup_eq HCLK PCLK1_DIV PCLK2_DIV intlog2 id mode clock cpol cpha databits Hid)
    as (Hidx & Eb & sp & port & sck & miso & mosi & af & Es & E);
    [lia|lia|lia|]. cbv zeta in Hidx, Eb, E.
  remember (if (id =? 0)%nat then HCLK / PCLK2_DIV else HCLK / PCLK1_DIV) as base eqn:Ebase.
  assert (Hb : 0 <= base < 2 ^ 32).
  { subst base. destruct (id =? 0)%nat; split;
      try (apply Z.div_pos; lia); apply Z.div_lt_upper_bound; nia. }
  remember (SPI.u8 (intlog2 (u32 (base / clock)))) as idx0 eqn:Eidx0.
  remember (if 7 <? idx0 then 7 else idx0) as idx eqn:Eidx.
  assert (Hpow : 2 <= 2 ^ (idx + 1) <= 256).
  { assert (Ei : idx = 0 \/ idx = 1 \/ idx = 2 \/ idx = 3 \/ idx = 4 \/ idx = 5 \/
                 idx = 6 \/ idx = 7) by lia.
    destruct Ei as [->|[->|[->|[->|[->|[->|[->| ->]]]]]]]; cbn; lia. }
  eexists base, (base / 2 ^ (idx + 1)), sp, _, _.
  split; [exact Eb|]. split; [exact E|]. split; [exact Es|].
  split; [cbn; tauto|]. split.
  { destruct (spi_prescaler_lookup idx Hidx) as [El _].
    apply list_elem_of_In. exact (list_elem_of_lookup_2 _ _ _ El). }
  split; [reflexivity|]. split.
  { split; apply Z.div_le_compat_l; lia. }
  split.
  { intros port' pins' Hin. cbn in Hin.
    repeat (destruct Hin as [H|Hin]; [try discriminate H|]); [|destruct Hin].
    injection H as <- <-. intros pin. cbn. split.
    - intros [<-|[<-|[<-|F]]]; [exists af; tauto ..|destruct F].
    - intros (af' & Hin).
      repeat (destruct Hin as [H|Hin]; [try discriminate H|]);
        [injection H as <- <-; tauto ..|destruct Hin]. }
  intros Hlog Hle Hq.
  assert (Hq1 : 1 <= base / clock) by (apply Z.div_le_lower_bound; lia).
  assert (Equ : u32 (base / clock) = base / clock).
  { unfold u32. apply Z.mod_small. lia. }
  destruct (Hlog (base / clock)) as (Hl0 & Hl1 & Hl2); [lia|].
  remember (intlog2 (base / clock)) as l eqn:El.
  assert (Hl7 : l <= 7).
  { destruct (Z.le_gt_cases l 7) as [|G]; [assumption|exfalso].
    assert (2 ^ 8 <= 2 ^ l) by (apply Z.pow_le_mono_r; lia). lia. }
  assert (E0 : idx0 = l).
  { subst idx0. rewrite Equ, <- El. unfold SPI.u8. apply Z.mod_small. lia. }
  assert (Ei : idx = l) by (subst idx; rewrite E0; destruct (Z.ltb_spec 7 l); lia).
  rewrite Ei.
  assert (Hp : 0 < 2 ^ l) by (apply Z.pow_pos_nonneg; lia).
  assert (Epow : 2 ^ (l + 1) = 2 * 2 ^ l) by (rewrite Z.pow_add_r by lia; lia).
  assert (Hmul : clock * (base / clock) <= base) by (apply Z.mul_div_le; lia).
  assert (Hlt : base < clock * (base / clock + 1)).
  { pose proof (Z.mul_succ_div_gt base clock ltac:(lia)). lia. }
  split.
  - rewrite Epow. apply Z.div_le_lower_bound; [lia|].
    (* 2 * 2 ^ l * (clock / 2) <= 2 ^ l * clock <= base *)
    pose proof (Z.mul_div_le clock 2 ltac:(lia)). nia.
  - apply Z.div_lt_upper_bound; [lia|]. nia.
Qed.

Lemma is_floor_log2_log2 : SPI.is_floor_log2 Z.log2.
Proof.
  intros v Hv. split; [apply Z.log2_nonneg|].
  replace (Z.log2 v + 1) with (Z.succ (Z.log2 v)) by lia. now apply Z.log2_spec.
Qed.

Lemma spi_setup_prescaler_matches_clock_witness :
  exists r calls,
    SPI.platform_spi_setup HCLK_168MHz 4 2 Z.log2 0 1 42000000 0 0 8 = Some (r, calls) /\
    21000000 <= r < 42000000.
Proof.
  destruct (spi_setup_prescaler_matches_clock HCLK_168MHz 4 2 Z.log2 0 1 42000000 0 0 8)
    as (base & r & sp & s & calls & Eb & E & _ & _ & _ & _ & _ & _ & H);
    [lia|unfold HCLK_168MHz; lia|lia|lia|lia|].
  exists r, calls. split; [exact E|].
  injection Eb as <-.
  apply H; [exact is_floor_log2_log2|vm_compute; discriminate|reflexivity].
Defined.
